(** * iCE40BitstreamTool: the device-configuration model

    A shallow embedding of [ice40bitstreamtool/deviceconfig.py] (with the
    body-line handling of [filereader.py]) and the properties of its
    ingestion, freeze, routing-resource and tile encode/decode code.

    Conventions of the embedding.
    - Python integers are [Z]; booleans are [bool]; text is [string].
    - A Python exception is a value of [exn]; code that can raise returns
      [res A].  A method that mutates [self] takes the object and returns
      the outcome TOGETHER with the object as the call leaves it, also when
      it raises ([St]): Python does not roll back.
    - A Python [list] indexed by an integer follows Python's rule: negative
      indices count from the end, anything else out of range raises
      [IndexError].
    - Objects used as dictionary keys by identity ([Net], [Tile]) carry the
      identity as a number, allocated from a counter of the device. *)

From Stdlib Require Import ZArith List String Ascii Bool Lia Arith DecimalString.
From Stdlib Require DecimalNat.
Import ListNotations.
Open Scope string_scope.
Open Scope Z_scope.

(** ** Exceptions and the two monads *)

(** The exceptions the code raises.  The source raises the generic
    [Exception] with a message; each message gets a constructor, named after
    the specification's taxonomy where it has a name for it.  The built-in
    exceptions keep their Python names. *)
Inductive exn : Type :=
| FrozenViolation    (* "You cannot manipulate a frozen object!" *)
| InvalidHeader      (* "Invalid ... config" raised on a header of the wrong length *)
| MalformedAddress   (* "Invalid bit config" *)
| IncompleteSchema   (* "Incomplete ... tile config" *)
| InvalidNetConfig   (* "Invalid net config" *)
| TileTypeMismatch   (* "Tile type mismatch between device and bitstream. ..." *)
| UnknownSource      (* "Invalid source net" *)
| InvalidPattern     (* "Invalid routing resource bit config" *)
| IndexError         (* list or string index out of range *)
| KeyError           (* dictionary lookup of an absent key *)
| ValueError         (* int() of a malformed literal *)
| NameError          (* use of a local variable that was never bound *)
| AttributeError.    (* attribute lookup on None or on a list *)

Definition res (A : Type) : Type := (exn + A)%type.

Definition ret {A} (a : A) : res A := inr a.
Definition raise {A} (e : exn) : res A := inl e.
Definition bind {A B} (c : res A) (k : A -> res B) : res B :=
  match c with
  | inl e => inl e
  | inr a => k a
  end.

Declare Scope res_scope.
Delimit Scope res_scope with res.
Notation "x <- c ;; k" := (bind c (fun x => k))
  (at level 61, c at next level, right associativity) : res_scope.
Notation "' p <- c ;; k" := (bind c (fun x => let p := x in k))
  (at level 61, p pattern, c at next level, right associativity) : res_scope.

(** A method with receiver of type [S]: the outcome and the receiver as the
    call leaves it. *)
Definition St (S A : Type) : Type := S -> res A * S.

Definition st_ret {S A} (a : A) : St S A := fun s => (inr a, s).
Definition st_raise {S A} (e : exn) : St S A := fun s => (inl e, s).
Definition st_bind {S A B} (c : St S A) (k : A -> St S B) : St S B :=
  fun s =>
    match c s with
    | (inl e, s') => (inl e, s')
    | (inr a, s') => k a s'
    end.
Definition st_get {S} : St S S := fun s => (inr s, s).
Definition st_put {S} (s : S) : St S unit := fun _ => (inr tt, s).
Definition st_lift {S A} (c : res A) : St S A := fun s => (c, s).

Declare Scope st_scope.
Delimit Scope st_scope with st.
Notation "x <- c ;; k" := (st_bind c (fun x => k))
  (at level 61, c at next level, right associativity) : st_scope.
Notation "c ;;; k" := (st_bind c (fun _ => k))
  (at level 61, right associativity) : st_scope.

(** [for x in l: body(x)] over a method body. *)
Fixpoint st_for {S A} (l : list A) (body : A -> St S unit) : St S unit :=
  match l with
  | [] => st_ret tt
  | x :: l' => st_bind (body x) (fun _ => st_for l' body)
  end.

(** [for x in l: x.m()] where [m] mutates the element: the elements before a
    raising one keep their mutation, the raising one is left as [m] left it,
    the ones after it are untouched. *)
Fixpoint st_each {A} (m : St A unit) (l : list A) : res unit * list A :=
  match l with
  | [] => (inr tt, [])
  | x :: l' =>
      match m x with
      | (inl e, x') => (inl e, x' :: l')
      | (inr _, x') =>
          let '(r, l'') := st_each m l' in (r, x' :: l'')
      end
  end.

(** ** Python lists *)

Module PyList.

(** The position a Python index denotes in a sequence of length [len]. *)
Definition index (len : nat) (i : Z) : option nat :=
  if (0 <=? i) && (i <? Z.of_nat len) then Some (Z.to_nat i)
  else if (i <? 0) && (- Z.of_nat len <=? i) then Some (Z.to_nat (i + Z.of_nat len))
  else None.

Fixpoint update {A} (l : list A) (n : nat) (v : A) : list A :=
  match l, n with
  | [], _ => []
  | _ :: l', O => v :: l'
  | x :: l', S n' => x :: update l' n' v
  end.

(** [l[i]] *)
Definition get {A} (l : list A) (i : Z) : res A :=
  match index (List.length l) i with
  | None => raise IndexError
  | Some n =>
      match nth_error l n with
      | Some a => ret a
      | None => raise IndexError
      end
  end.

(** [l[i] = v] *)
Definition set {A} (l : list A) (i : Z) (v : A) : res (list A) :=
  match index (List.length l) i with
  | None => raise IndexError
  | Some n => ret (update l n v)
  end.

(** [l[i:]] for [i >= 0] *)
Definition from {A} (l : list A) (i : nat) : list A := skipn i l.

(** [[v for _ in range(n)]] *)
Definition replicate {A} (n : Z) (v : A) : list A := repeat v (Z.to_nat n).

End PyList.

(** ** Python dictionaries

    Keys in insertion order, each key once: assignment to a present key
    replaces its value in place, assignment to an absent key appends. *)

Module PyDict.

Definition t (K V : Type) : Type := list (K * V).

Section Dict.
Context {K V : Type}.
Variable eqb : K -> K -> bool.

Fixpoint get (d : t K V) (k : K) : option V :=
  match d with
  | [] => None
  | (k', v) :: d' => if eqb k' k then Some v else get d' k
  end.

(** [k in d] *)
Definition contains (d : t K V) (k : K) : bool :=
  match get d k with Some _ => true | None => false end.

(** [d[k]] *)
Definition lookup (d : t K V) (k : K) : res V :=
  match get d k with Some v => ret v | None => raise KeyError end.

(** [d[k] = v] *)
Fixpoint set (d : t K V) (k : K) (v : V) : t K V :=
  match d with
  | [] => [(k, v)]
  | (k', v') :: d' => if eqb k' k then (k', v) :: d' else (k', v') :: set d' k v
  end.

(** [d.items()] *)
Definition items (d : t K V) : list (K * V) := d.

Definition keys (d : t K V) : list K := map fst d.

End Dict.
End PyDict.

(** ** Python strings, [int()] and the regular expressions of the source

    Text is ASCII.  [strip] removes the characters [str.isspace] accepts. *)

Module PyStr.

Definition is_space (c : ascii) : bool :=
  let n := nat_of_ascii c in
  ((9 <=? n) && (n <=? 13) || (28 <=? n) && (n <=? 32))%nat.

Definition is_digit (c : ascii) : bool :=
  let n := nat_of_ascii c in ((48 <=? n) && (n <=? 57))%nat.

Definition digit_value (c : ascii) : Z := Z.of_nat (nat_of_ascii c) - 48.

Fixpoint lstrip (s : string) : string :=
  match s with
  | EmptyString => EmptyString
  | String c r => if is_space c then lstrip r else s
  end.

Fixpoint rstrip (s : string) : string :=
  match s with
  | EmptyString => EmptyString
  | String c r =>
      match rstrip r with
      | EmptyString => if is_space c then EmptyString else String c EmptyString
      | r' => String c r'
      end
  end.

(** [s.strip()] *)
Definition strip (s : string) : string := rstrip (lstrip s).

(** [s.startswith(p)], returning what follows the prefix. *)
Fixpoint strip_prefix (p s : string) : option string :=
  match p, s with
  | EmptyString, _ => Some s
  | String a p', String b s' => if Ascii.eqb a b then strip_prefix p' s' else None
  | String _ _, EmptyString => None
  end.

Definition startswith (s p : string) : bool :=
  match strip_prefix p s with Some _ => true | None => false end.

(** [s.split(sep)] for a one-character separator. *)
Fixpoint split (sep : ascii) (s : string) : list string :=
  match s with
  | EmptyString => [EmptyString]
  | String c r =>
      if Ascii.eqb c sep then EmptyString :: split sep r
      else match split sep r with
           | [] => [String c EmptyString]
           | w :: ws => String c w :: ws
           end
  end.

(** [sep.join(l)] with the empty separator. *)
Definition join (l : list string) : string := fold_right append EmptyString l.

(** [s[i]] for [i >= 0] *)
Definition char_at (s : string) (i : nat) : res ascii :=
  match String.get i s with
  | Some c => ret c
  | None => raise IndexError
  end.

(** The longest prefix of digits, and the rest. *)
Fixpoint take_digits (s : string) : string * string :=
  match s with
  | EmptyString => (EmptyString, EmptyString)
  | String c r =>
      if is_digit c then let '(ds, rest) := take_digits r in (String c ds, rest)
      else (EmptyString, s)
  end.

(** The number a run of digits denotes. *)
Fixpoint digits_value (s : string) (acc : Z) : Z :=
  match s with
  | EmptyString => acc
  | String c r => digits_value r (acc * 10 + digit_value c)
  end.

(** Digits of [base] with single underscores between them: the body of an
    integer literal.  [seen]: a digit was read; [us]: the previous character
    was an underscore. *)
Fixpoint literal_body (base : Z) (s : string) (acc : Z) (seen us : bool) : option Z :=
  match s with
  | EmptyString => if us || negb seen then None else Some acc
  | String c r =>
      if Ascii.eqb c "_"%char then
        if us || negb seen then None else literal_body base r acc seen true
      else if is_digit c && (digit_value c <? base) then
        literal_body base r (acc * base + digit_value c) true false
      else None
  end.

Definition signed (s : string) : bool * string :=
  match s with
  | String "-"%char r => (true, r)
  | String "+"%char r => (false, r)
  | _ => (false, s)
  end.

(** [int(s)] *)
Definition int (s : string) : res Z :=
  let '(neg, body) := signed (strip s) in
  match literal_body 10 body 0 false false with
  | Some n => ret (if neg then - n else n)
  | None => raise ValueError
  end.

(** [int(s, 2)]: an optional [0b] or [0B] after the sign, which one
    underscore may follow. *)
Definition int2 (s : string) : res Z :=
  let '(neg, body) := signed (strip s) in
  let body :=
    match body with
    | String "0"%char (String "b"%char (String "_"%char r)) => r
    | String "0"%char (String "B"%char (String "_"%char r)) => r
    | String "0"%char (String "b"%char r) => r
    | String "0"%char (String "B"%char r) => r
    | _ => body
    end in
  match literal_body 2 body 0 false false with
  | Some n => ret (if neg then - n else n)
  | None => raise ValueError
  end.

(** [re.match(prefix + r"(\d+)", s)], returning [int(m.group(1))]: the
    literal prefix, then at least one digit; what follows the digits is not
    looked at. *)
Definition match_prefix_digits (prefix s : string) : option Z :=
  match strip_prefix prefix s with
  | None => None
  | Some r =>
      match take_digits r with
      | (EmptyString, _) => None
      | (ds, _) => Some (digits_value ds 0)
      end
  end.

(** [re.search(open + r"(\d+)" + close, s)] for one-character [open] and
    [close] that are not digits, returning [int(m.group(1))]: the leftmost
    position where [open], at least one digit and [close] follow each
    other. *)
Fixpoint search_digits (open close : ascii) (s : string) : option Z :=
  match s with
  | EmptyString => None
  | String c r =>
      if Ascii.eqb c open then
        match take_digits r with
        | (EmptyString, _) => search_digits open close r
        | (ds, String c' _) =>
            if Ascii.eqb c' close then Some (digits_value ds 0)
            else search_digits open close r
        | (_, EmptyString) => search_digits open close r
        end
      else search_digits open close r
  end.

(** [str(n)] for [n >= 0] *)
Definition of_nat (n : nat) : string :=
  NilEmpty.string_of_uint (Nat.to_uint n).

End PyStr.

(** ** Sections of a chipdb or bitstream file ([filereader.py])

    A body line is a Python sequence of strings in both modes of the reader:
    the tokens of a line split on spaces, or the characters of a line kept
    whole ([line[i]] of a [str] is the one-character string at [i]). *)

Definition line : Type := list string.

Fixpoint chars (s : string) : line :=
  match s with
  | EmptyString => []
  | String c r => String c EmptyString :: chars r
  end.

Module FileSection.

Record t : Type := mk {
  _section_type : string;
  _header : list string;
  _split_lines : bool;
  _lines : list line
}.

(** [FileSection(header_line, split_lines)] *)
Definition init (header_line : string) (split_lines : bool) : t :=
  let header_line_splitted := PyStr.split " " header_line in
  {| _section_type :=
       match header_line_splitted with
       | String _ r :: _ => r
       | _ => EmptyString
       end;
     _header := tl header_line_splitted;
     _split_lines := split_lines;
     _lines := [] |}.

Definition add_line (l : string) (self : t) : t :=
  {| _section_type := _section_type self;
     _header := _header self;
     _split_lines := _split_lines self;
     _lines := (_lines self ++ [if _split_lines self then PyStr.split " " l else chars l])%list |}.

Definition get_type (self : t) : string := _section_type self.
Definition get_header (self : t) : list string := _header self.
Definition get_lines (self : t) : list line := _lines self.

End FileSection.

(** [read_file], on the text of the file instead of its path.  [done] are
    the sections before the current one, [cur] the section the variable
    [section] is bound to (it is also the last element of [sections], which
    [add_line] mutates through the alias). *)
Fixpoint read_lines (split_lines : bool) (ls : list string)
    (done : list FileSection.t) (cur : option FileSection.t)
    : res (list FileSection.t) :=
  match ls with
  | [] =>
      (* sections.append(section): the last section once more *)
      match cur with
      | None => raise NameError
      | Some sec => ret (done ++ [sec; sec])%list
      end
  | l :: ls' =>
      let l := PyStr.strip l in
      if String.eqb l EmptyString || PyStr.startswith l "#" then
        read_lines split_lines ls' done cur
      else if PyStr.startswith l "." then
        read_lines split_lines ls'
          (match cur with None => done | Some sec => (done ++ [sec])%list end)
          (Some (FileSection.init l split_lines))
      else
        match cur with
        | None => raise NameError
        | Some sec => read_lines split_lines ls' done (Some (FileSection.add_line l sec))
        end
  end.

(** The lines a text file iterates over: the text cut after each newline
    (a last line without newline included, no empty line after a final
    newline). *)
Definition file_lines (text : string) : list string :=
  match rev (PyStr.split "010"%char text) with
  | EmptyString :: r => rev r
  | _ => PyStr.split "010"%char text
  end.

Definition read_file (text : string) (split_lines : bool) : res (list FileSection.t) :=
  read_lines split_lines (file_lines text) [] None.

(** ** Bit coordinates and the bit grid *)

(** [(x, y)]: column and row. *)
Definition Coord : Type := (Z * Z)%type.

(** [bool(v)] of an integer *)
Definition truthy (v : Z) : bool := negb (v =? 0).

Module BitstreamBuilder.

(** [_config]: [height] rows of [width] cells; a cell holds
    [int(bool(value))], 0 or 1, kept as a [bool]. *)
Record t : Type := mk { _config : list (list bool) }.

Definition init (width height : Z) : t :=
  {| _config := PyList.replicate height (PyList.replicate width false) |}.

(** [set_bit(coord, value)], [value] given by its truth value. *)
Definition set_bit (coord : Coord) (value : bool) (self : t) : res t :=
  (let '(x, y) := coord in
   row <- PyList.get (_config self) y;;
   row' <- PyList.set row x value;;
   cfg <- PyList.set (_config self) y row';;
   ret {| _config := cfg |})%res.

Definition str_bit (b : bool) : string := if b then "1" else "0".

Definition get_config_string (self : t) : string :=
  PyStr.strip
    (fold_left
       (fun config_string row =>
          config_string ++ PyStr.join (map str_bit row) ++ String "010"%char EmptyString)
       (_config self) EmptyString).

End BitstreamBuilder.

(** The loop the tiles use for every multi-bit setting and every routing
    resource:
    [for c in coords: builder.set_bit(c, v & 1); v >>= 1]. *)
Fixpoint write_bits (coords : list Coord) (v : Z) (b : BitstreamBuilder.t)
    : res BitstreamBuilder.t :=
  match coords with
  | [] => ret b
  | c :: cs =>
      (b' <- BitstreamBuilder.set_bit c (truthy (Z.land v 1)) b;;
       write_bits cs (Z.shiftr v 1) b')%res
  end.

(** [int(bitstream[coord[1]][coord[0]])] *)
Definition bit_at (bitstream : list line) (coord : Coord) : res Z :=
  (let '(x, y) := coord in
   row <- PyList.get bitstream y;;
   ch <- PyList.get row x;;
   PyStr.int ch)%res.

(** The loop that reads a multi-bit setting back:
    [for coord in coords:
       if int(bitstream[coord[1]][coord[0]]) == 1: acc |= bit_pos
       bit_pos <<= 1]
    started with [acc = 0] and [bit_pos = 1]. *)
Fixpoint read_bits_from (bitstream : list line) (coords : list Coord)
    (acc bit_pos : Z) : res Z :=
  match coords with
  | [] => ret acc
  | c :: cs =>
      (b <- bit_at bitstream c;;
       read_bits_from bitstream cs
         (if b =? 1 then Z.lor acc bit_pos else acc) (Z.shiftl bit_pos 1))%res
  end.

Definition read_bits (bitstream : list line) (coords : list Coord) : res Z :=
  read_bits_from bitstream coords 0 1.

(** ** Routing resources *)

(** What a routing resource holds where the source holds a [Net] object:
    the identity of the object, or [None] (an index of the net array that
    was never ingested reads as [None], and [None] is also the value of
    [_connection] that means disconnected). *)
Definition NetRef : Type := option nat.

Definition NetRef_eqb (a b : NetRef) : bool :=
  match a, b with
  | None, None => true
  | Some m, Some n => Nat.eqb m n
  | _, _ => false
  end.

Module RoutingResource.

Record t : Type := mk {
  _dst_net : NetRef;
  _config_bit_coordinates : list Coord;
  _src_net_to_bit_vals_dict : PyDict.t NetRef Z;
  _connection : NetRef
}.

Definition init (dst_net : NetRef) (config_bit_coordinates : list Coord)
    (src_net_to_bit_vals_dict : PyDict.t NetRef Z) : t :=
  {| _dst_net := dst_net;
     _config_bit_coordinates := config_bit_coordinates;
     _src_net_to_bit_vals_dict := src_net_to_bit_vals_dict;
     _connection := None |}.

(** [self._connection = c] *)
Definition set_connection (c : NetRef) (self : t) : t :=
  {| _dst_net := _dst_net self;
     _config_bit_coordinates := _config_bit_coordinates self;
     _src_net_to_bit_vals_dict := _src_net_to_bit_vals_dict self;
     _connection := c |}.

Definition connect (src_net : NetRef) : St t unit :=
  fun self =>
    if negb (PyDict.contains NetRef_eqb (_src_net_to_bit_vals_dict self) src_net)
    then (raise UnknownSource, self)
    else (ret tt, set_connection src_net self).

Definition disconnect : St t unit :=
  fun self => (ret tt, set_connection None self).

Definition get_config_bits (self : t) : res Z :=
  match _connection self with
  | None => ret 0
  | Some n => PyDict.lookup NetRef_eqb (_src_net_to_bit_vals_dict self) (Some n)
  end.

(** The first candidate, in the order of the dictionary, whose stored
    pattern equals [bit_config]. *)
Fixpoint find_pattern (items : list (NetRef * Z)) (bit_config : Z) : option NetRef :=
  match items with
  | [] => None
  | (src_net, bit_vals) :: items' =>
      if bit_vals =? bit_config then Some src_net
      else find_pattern items' bit_config
  end.

Definition set_config_bits (bit_config : Z) : St t unit :=
  fun self =>
    if bit_config =? 0 then (ret tt, set_connection None self)
    else
      match find_pattern (PyDict.items (_src_net_to_bit_vals_dict self)) bit_config with
      | Some src_net => (ret tt, set_connection src_net self)
      | None => (raise InvalidPattern, self)
      end.

Definition get_config_bit_coordinates (self : t) : list Coord :=
  _config_bit_coordinates self.

End RoutingResource.

(** The candidate table of a resource, as the set of its source nets. *)
Definition candidates (r : RoutingResource.t) : list NetRef :=
  PyDict.keys (RoutingResource._src_net_to_bit_vals_dict r).

(** ** Wires and nets *)

Module Wire.
Record t : Type := mk { _name : string }.
End Wire.

Module Net.

(** [oid] is the identity of the object; [_wires] is keyed by the identity
    of the tile. *)
Record t : Type := mk {
  oid : nat;
  _frozen : bool;
  _index : Z;
  _wires : PyDict.t nat Wire.t
}.

Definition init (oid : nat) (index : Z) : t :=
  {| oid := oid; _frozen := false; _index := index; _wires := [] |}.

Definition freeze : St t unit :=
  fun self =>
    (ret tt, {| oid := oid self; _frozen := true; _index := _index self;
                _wires := _wires self |}).

Definition _ensure_not_frozen : St t unit :=
  fun self => if _frozen self then (raise FrozenViolation, self) else (ret tt, self).

Definition add_wire (tile : nat) (wire : Wire.t) : St t unit :=
  (_ensure_not_frozen ;;;
   fun self =>
     (ret tt, {| oid := oid self; _frozen := _frozen self; _index := _index self;
                 _wires := PyDict.set Nat.eqb (_wires self) tile wire |}))%st.

End Net.

(** ** Tiles: the state and the methods of the base class *)

Module Tile.

Record t : Type := mk {
  oid : nat;
  _frozen : bool;
  _x : Z;
  _y : Z;
  _wires : list Wire.t;
  _routing_switches : list RoutingResource.t;
  _buffers : list RoutingResource.t
}.

Definition init (oid : nat) (x y : Z) : t :=
  {| oid := oid; _frozen := false; _x := x; _y := y;
     _wires := []; _routing_switches := []; _buffers := [] |}.

Definition with_resources (sw bf : list RoutingResource.t) (self : t) : t :=
  {| oid := oid self; _frozen := _frozen self; _x := _x self; _y := _y self;
     _wires := _wires self; _routing_switches := sw; _buffers := bf |}.

Definition freeze : St t unit :=
  fun self =>
    (ret tt, {| oid := oid self; _frozen := true; _x := _x self; _y := _y self;
                _wires := _wires self;
                _routing_switches := _routing_switches self;
                _buffers := _buffers self |}).

Definition _ensure_not_frozen : St t unit :=
  fun self => if _frozen self then (raise FrozenViolation, self) else (ret tt, self).

Definition add_wire (wire : Wire.t) : St t unit :=
  (_ensure_not_frozen ;;;
   fun self =>
     (ret tt, {| oid := oid self; _frozen := _frozen self; _x := _x self; _y := _y self;
                 _wires := (_wires self ++ [wire])%list;
                 _routing_switches := _routing_switches self;
                 _buffers := _buffers self |}))%st.

Definition add_routing_switch (routing_switch : RoutingResource.t) : St t unit :=
  (_ensure_not_frozen ;;;
   fun self =>
     (ret tt, with_resources (_routing_switches self ++ [routing_switch])%list
                (_buffers self) self))%st.

Definition add_buffer (buffer : RoutingResource.t) : St t unit :=
  (_ensure_not_frozen ;;;
   fun self =>
     (ret tt, with_resources (_routing_switches self)
                (_buffers self ++ [buffer])%list self))%st.

(** One round of the loops of [_config_bitstream_routing_resources]. *)
Definition config_resource (b : BitstreamBuilder.t) (r : RoutingResource.t)
    : res BitstreamBuilder.t :=
  (config_bits <- RoutingResource.get_config_bits r;;
   write_bits (RoutingResource.get_config_bit_coordinates r) config_bits b)%res.

Fixpoint config_resources (rs : list RoutingResource.t) (b : BitstreamBuilder.t)
    : res BitstreamBuilder.t :=
  match rs with
  | [] => ret b
  | r :: rs' => (b' <- config_resource b r;; config_resources rs' b')%res
  end.

Definition _config_bitstream_routing_resources (self : t) (b : BitstreamBuilder.t)
    : res BitstreamBuilder.t :=
  (b' <- config_resources (_routing_switches self) b;;
   config_resources (_buffers self) b')%res.

(** One round of the loop of [_process_bitstream_routing_resources]. *)
Definition process_resource (bitstream : list line) : St RoutingResource.t unit :=
  fun r =>
    match read_bits bitstream (RoutingResource.get_config_bit_coordinates r) with
    | inl e => (inl e, r)
    | inr bit_config => RoutingResource.set_config_bits bit_config r
    end.

(** [for routing_resource in chain(self._routing_switches, self._buffers)] *)
Definition each_resource (m : St RoutingResource.t unit) : St t unit :=
  fun self =>
    match st_each m (_routing_switches self) with
    | (inl e, sw) => (inl e, with_resources sw (_buffers self) self)
    | (inr _, sw) =>
        let '(r, bf) := st_each m (_buffers self) in
        (r, with_resources sw bf self)
    end.

Definition _process_bitstream_routing_resources (bitstream : list line) : St t unit :=
  each_resource (process_resource bitstream).

Definition _reset_routing_resources : St t unit :=
  each_resource RoutingResource.disconnect.

End Tile.

(** ** The four schemas *)

Module LogicTileBitConfig.
Record t : Type := mk {
  width : Z;
  height : Z;
  carry_in_set_bit : Coord;
  col_buf_ctrl_set_bits : list Coord;
  lc_set_bits : list (list Coord);
  neg_clk_set_bit : Coord
}.
End LogicTileBitConfig.

Module IoTileBitConfig.
Record t : Type := mk {
  width : Z;
  height : Z;
  col_buf_ctrl_set_bits : list Coord;
  iob_0_pintype : list Coord;
  iob_1_pintype : list Coord;
  icegate : Coord;
  io_ctrl_ie_0 : Coord;
  io_ctrl_ie_1 : Coord;
  io_ctrl_lvds : Coord;
  io_ctrl_ren_0 : Coord;
  io_ctrl_ren_1 : Coord;
  negclk : Coord;
  pll_config : list Coord
}.
End IoTileBitConfig.

Module RambTileBitConfig.
Record t : Type := mk {
  width : Z;
  height : Z;
  col_buf_ctrl_set_bits : list Coord;
  negclk : Coord;
  ram_config_powerup : Coord
}.
End RambTileBitConfig.

Module RamtTileBitConfig.
Record t : Type := mk {
  width : Z;
  height : Z;
  negclk : Coord;
  ram_config_bits : list Coord;
  ram_cascade_bits : list Coord
}.
End RamtTileBitConfig.

(** [self._bit_config.attr] when the schema may be [None]. *)
Definition the_config {A} (c : option A) : res A :=
  match c with
  | Some c => ret c
  | None => raise AttributeError
  end.

(** ** Logic tiles *)

Module LogicTile.

Record t : Type := mk {
  base : Tile.t;
  _bit_config : option LogicTileBitConfig.t;
  carry_in_set : Z;
  col_buf_ctrl : Z;
  lc_bits : list Z;
  neg_clk : bool
}.

Definition init (oid : nat) (x y : Z) (logic_tile_bit_config : option LogicTileBitConfig.t) : t :=
  {| base := Tile.init oid x y;
     _bit_config := logic_tile_bit_config;
     carry_in_set := 0;
     col_buf_ctrl := 0;
     lc_bits := PyList.replicate 8 0;
     neg_clk := false |}.

Definition with_base (b : Tile.t) (self : t) : t :=
  mk b (_bit_config self) (carry_in_set self) (col_buf_ctrl self) (lc_bits self) (neg_clk self).
Definition set_carry_in_set (v : Z) : St t unit :=
  fun self => (ret tt, mk (base self) (_bit_config self) v (col_buf_ctrl self) (lc_bits self) (neg_clk self)).
Definition set_col_buf_ctrl (v : Z) : St t unit :=
  fun self => (ret tt, mk (base self) (_bit_config self) (carry_in_set self) v (lc_bits self) (neg_clk self)).
Definition set_lc_bits (v : list Z) : St t unit :=
  fun self => (ret tt, mk (base self) (_bit_config self) (carry_in_set self) (col_buf_ctrl self) v (neg_clk self)).
Definition set_neg_clk (v : bool) : St t unit :=
  fun self => (ret tt, mk (base self) (_bit_config self) (carry_in_set self) (col_buf_ctrl self) (lc_bits self) v).

(** A method of the base class, called on the tile. *)
Definition on_base {A} (m : St Tile.t A) : St t A :=
  fun self => let '(r, b) := m (base self) in (r, with_base b self).

(** [for idx, lc_bit in enumerate(self.lc_bits):
       for lc_set_bit in self._bit_config.lc_set_bits[idx]: ...] *)
Fixpoint write_lc (lc_set_bits : list (list Coord)) (idx : nat) (lc_bits : list Z)
    (b : BitstreamBuilder.t) : res BitstreamBuilder.t :=
  match lc_bits with
  | [] => ret b
  | lc_bit :: rest =>
      (coords <- PyList.get lc_set_bits (Z.of_nat idx);;
       b' <- write_bits coords lc_bit b;;
       write_lc lc_set_bits (S idx) rest b')%res
  end.

Definition generate_bitstream (self : t) : res string :=
  (cfg <- the_config (_bit_config self);;
   let config_builder :=
     BitstreamBuilder.init (LogicTileBitConfig.width cfg) (LogicTileBitConfig.height cfg) in
   b <- BitstreamBuilder.set_bit (LogicTileBitConfig.carry_in_set_bit cfg)
          (truthy (carry_in_set self)) config_builder;;
   b <- write_bits (LogicTileBitConfig.col_buf_ctrl_set_bits cfg) (col_buf_ctrl self) b;;
   b <- write_lc (LogicTileBitConfig.lc_set_bits cfg) 0 (lc_bits self) b;;
   b <- BitstreamBuilder.set_bit (LogicTileBitConfig.neg_clk_set_bit cfg) (neg_clk self) b;;
   b <- Tile._config_bitstream_routing_resources (base self) b;;
   ret (BitstreamBuilder.get_config_string b))%res.

Definition get_type (self : t) : string := "logic_tile".

(** [for idx, lc_set_bits in enumerate(self._bit_config.lc_set_bits):
       ...; self.lc_bits[idx] = lc_config] *)
Fixpoint read_lc (bitstream : list line) (idx : nat) (lc_set_bits : list (list Coord))
    : St t unit :=
  match lc_set_bits with
  | [] => st_ret tt
  | coords :: rest =>
      (lc_config <- st_lift (read_bits bitstream coords);;
       self <- st_get;;
       lc <- st_lift (PyList.set (lc_bits self) (Z.of_nat idx) lc_config);;
       set_lc_bits lc ;;;
       read_lc bitstream (S idx) rest)%st
  end.

Definition process_bitstream (bitstream : list line) : St t unit :=
  (on_base (Tile._process_bitstream_routing_resources bitstream) ;;;
   self <- st_get;;
   cfg <- st_lift (the_config (_bit_config self));;
   v <- st_lift (bit_at bitstream (LogicTileBitConfig.carry_in_set_bit cfg));;
   set_carry_in_set v ;;;
   v <- st_lift (read_bits bitstream (LogicTileBitConfig.col_buf_ctrl_set_bits cfg));;
   set_col_buf_ctrl v ;;;
   read_lc bitstream 0 (LogicTileBitConfig.lc_set_bits cfg) ;;;
   v <- st_lift (bit_at bitstream (LogicTileBitConfig.neg_clk_set_bit cfg));;
   set_neg_clk (truthy v))%st.

Definition reset : St t unit :=
  (on_base Tile._reset_routing_resources ;;;
   set_carry_in_set 0 ;;;
   set_col_buf_ctrl 0 ;;;
   set_lc_bits (PyList.replicate 8 0) ;;;
   set_neg_clk false)%st.

End LogicTile.

(** ** IO tiles *)

Module IoTile.

Record t : Type := mk {
  base : Tile.t;
  _bit_config : option IoTileBitConfig.t;
  col_buf_ctrl : Z;
  iob_0_pintype : Z;
  iob_1_pintype : Z;
  icegate : bool;
  io_ctrl_ie_0 : bool;
  io_ctrl_ie_1 : bool;
  io_ctrl_lvds : bool;
  io_ctrl_ren_0 : bool;
  io_ctrl_ren_1 : bool;
  negclk : bool;
  pll_config : Z
}.

Definition init (oid : nat) (x y : Z) (io_tile_bit_config : option IoTileBitConfig.t) : t :=
  {| base := Tile.init oid x y;
     _bit_config := io_tile_bit_config;
     col_buf_ctrl := 0;
     iob_0_pintype := 0;
     iob_1_pintype := 0;
     icegate := false;
     io_ctrl_ie_0 := false;
     io_ctrl_ie_1 := false;
     io_ctrl_lvds := false;
     io_ctrl_ren_0 := false;
     io_ctrl_ren_1 := false;
     negclk := false;
     pll_config := 0 |}.

Definition with_base (b : Tile.t) (s : t) : t :=
  mk b (_bit_config s) (col_buf_ctrl s) (iob_0_pintype s) (iob_1_pintype s) (icegate s)
     (io_ctrl_ie_0 s) (io_ctrl_ie_1 s) (io_ctrl_lvds s) (io_ctrl_ren_0 s) (io_ctrl_ren_1 s)
     (negclk s) (pll_config s).
Definition set_col_buf_ctrl (v : Z) : St t unit := fun s =>
  (ret tt, mk (base s) (_bit_config s) v (iob_0_pintype s) (iob_1_pintype s) (icegate s)
     (io_ctrl_ie_0 s) (io_ctrl_ie_1 s) (io_ctrl_lvds s) (io_ctrl_ren_0 s) (io_ctrl_ren_1 s)
     (negclk s) (pll_config s)).
Definition set_iob_0_pintype (v : Z) : St t unit := fun s =>
  (ret tt, mk (base s) (_bit_config s) (col_buf_ctrl s) v (iob_1_pintype s) (icegate s)
     (io_ctrl_ie_0 s) (io_ctrl_ie_1 s) (io_ctrl_lvds s) (io_ctrl_ren_0 s) (io_ctrl_ren_1 s)
     (negclk s) (pll_config s)).
Definition set_iob_1_pintype (v : Z) : St t unit := fun s =>
  (ret tt, mk (base s) (_bit_config s) (col_buf_ctrl s) (iob_0_pintype s) v (icegate s)
     (io_ctrl_ie_0 s) (io_ctrl_ie_1 s) (io_ctrl_lvds s) (io_ctrl_ren_0 s) (io_ctrl_ren_1 s)
     (negclk s) (pll_config s)).
Definition set_icegate (v : bool) : St t unit := fun s =>
  (ret tt, mk (base s) (_bit_config s) (col_buf_ctrl s) (iob_0_pintype s) (iob_1_pintype s) v
     (io_ctrl_ie_0 s) (io_ctrl_ie_1 s) (io_ctrl_lvds s) (io_ctrl_ren_0 s) (io_ctrl_ren_1 s)
     (negclk s) (pll_config s)).
Definition set_io_ctrl_ie_0 (v : bool) : St t unit := fun s =>
  (ret tt, mk (base s) (_bit_config s) (col_buf_ctrl s) (iob_0_pintype s) (iob_1_pintype s) (icegate s)
     v (io_ctrl_ie_1 s) (io_ctrl_lvds s) (io_ctrl_ren_0 s) (io_ctrl_ren_1 s)
     (negclk s) (pll_config s)).
Definition set_io_ctrl_ie_1 (v : bool) : St t unit := fun s =>
  (ret tt, mk (base s) (_bit_config s) (col_buf_ctrl s) (iob_0_pintype s) (iob_1_pintype s) (icegate s)
     (io_ctrl_ie_0 s) v (io_ctrl_lvds s) (io_ctrl_ren_0 s) (io_ctrl_ren_1 s)
     (negclk s) (pll_config s)).
Definition set_io_ctrl_lvds (v : bool) : St t unit := fun s =>
  (ret tt, mk (base s) (_bit_config s) (col_buf_ctrl s) (iob_0_pintype s) (iob_1_pintype s) (icegate s)
     (io_ctrl_ie_0 s) (io_ctrl_ie_1 s) v (io_ctrl_ren_0 s) (io_ctrl_ren_1 s)
     (negclk s) (pll_config s)).
Definition set_io_ctrl_ren_0 (v : bool) : St t unit := fun s =>
  (ret tt, mk (base s) (_bit_config s) (col_buf_ctrl s) (iob_0_pintype s) (iob_1_pintype s) (icegate s)
     (io_ctrl_ie_0 s) (io_ctrl_ie_1 s) (io_ctrl_lvds s) v (io_ctrl_ren_1 s)
     (negclk s) (pll_config s)).
Definition set_io_ctrl_ren_1 (v : bool) : St t unit := fun s =>
  (ret tt, mk (base s) (_bit_config s) (col_buf_ctrl s) (iob_0_pintype s) (iob_1_pintype s) (icegate s)
     (io_ctrl_ie_0 s) (io_ctrl_ie_1 s) (io_ctrl_lvds s) (io_ctrl_ren_0 s) v
     (negclk s) (pll_config s)).
Definition set_negclk (v : bool) : St t unit := fun s =>
  (ret tt, mk (base s) (_bit_config s) (col_buf_ctrl s) (iob_0_pintype s) (iob_1_pintype s) (icegate s)
     (io_ctrl_ie_0 s) (io_ctrl_ie_1 s) (io_ctrl_lvds s) (io_ctrl_ren_0 s) (io_ctrl_ren_1 s)
     v (pll_config s)).
Definition set_pll_config (v : Z) : St t unit := fun s =>
  (ret tt, mk (base s) (_bit_config s) (col_buf_ctrl s) (iob_0_pintype s) (iob_1_pintype s) (icegate s)
     (io_ctrl_ie_0 s) (io_ctrl_ie_1 s) (io_ctrl_lvds s) (io_ctrl_ren_0 s) (io_ctrl_ren_1 s)
     (negclk s) v).

Definition on_base {A} (m : St Tile.t A) : St t A :=
  fun self => let '(r, b) := m (base self) in (r, with_base b self).

(** The first statement after the builder is
    [config_builder.set_bit(self._bit_config.col_buf_ctrl_set_bits[0], self.col_buf_ctrl)]:
    one call on the first coordinate with the whole value, where the other
    multi-bit settings run the loop. *)
Definition generate_bitstream (self : t) : res string :=
  (cfg <- the_config (_bit_config self);;
   let config_builder :=
     BitstreamBuilder.init (IoTileBitConfig.width cfg) (IoTileBitConfig.height cfg) in
   c0 <- PyList.get (IoTileBitConfig.col_buf_ctrl_set_bits cfg) 0;;
   b <- BitstreamBuilder.set_bit c0 (truthy (col_buf_ctrl self)) config_builder;;
   b <- write_bits (IoTileBitConfig.iob_0_pintype cfg) (iob_0_pintype self) b;;
   b <- write_bits (IoTileBitConfig.iob_1_pintype cfg) (iob_1_pintype self) b;;
   b <- BitstreamBuilder.set_bit (IoTileBitConfig.icegate cfg) (icegate self) b;;
   b <- BitstreamBuilder.set_bit (IoTileBitConfig.io_ctrl_ie_0 cfg) (io_ctrl_ie_0 self) b;;
   b <- BitstreamBuilder.set_bit (IoTileBitConfig.io_ctrl_ie_1 cfg) (io_ctrl_ie_1 self) b;;
   b <- BitstreamBuilder.set_bit (IoTileBitConfig.io_ctrl_lvds cfg) (io_ctrl_lvds self) b;;
   b <- BitstreamBuilder.set_bit (IoTileBitConfig.io_ctrl_ren_0 cfg) (io_ctrl_ren_0 self) b;;
   b <- BitstreamBuilder.set_bit (IoTileBitConfig.io_ctrl_ren_1 cfg) (io_ctrl_ren_1 self) b;;
   b <- BitstreamBuilder.set_bit (IoTileBitConfig.negclk cfg) (negclk self) b;;
   b <- write_bits (IoTileBitConfig.pll_config cfg) (pll_config self) b;;
   b <- Tile._config_bitstream_routing_resources (base self) b;;
   ret (BitstreamBuilder.get_config_string b))%res.

Definition get_type (self : t) : string := "io_tile".

(** [x, y = coord; self.f = bool(int(bitstream[y][x]))] *)
Definition read_flag (bitstream : list line) (coord : Coord) (set : bool -> St t unit)
    : St t unit :=
  (v <- st_lift (bit_at bitstream coord);; set (truthy v))%st.

Definition process_bitstream (bitstream : list line) : St t unit :=
  (on_base (Tile._process_bitstream_routing_resources bitstream) ;;;
   self <- st_get;;
   cfg <- st_lift (the_config (_bit_config self));;
   v <- st_lift (read_bits bitstream (IoTileBitConfig.col_buf_ctrl_set_bits cfg));;
   set_col_buf_ctrl v ;;;
   v <- st_lift (read_bits bitstream (IoTileBitConfig.iob_0_pintype cfg));;
   set_iob_0_pintype v ;;;
   v <- st_lift (read_bits bitstream (IoTileBitConfig.iob_1_pintype cfg));;
   set_iob_1_pintype v ;;;
   read_flag bitstream (IoTileBitConfig.icegate cfg) set_icegate ;;;
   read_flag bitstream (IoTileBitConfig.io_ctrl_ie_0 cfg) set_io_ctrl_ie_0 ;;;
   read_flag bitstream (IoTileBitConfig.io_ctrl_ie_1 cfg) set_io_ctrl_ie_1 ;;;
   read_flag bitstream (IoTileBitConfig.io_ctrl_lvds cfg) set_io_ctrl_lvds ;;;
   read_flag bitstream (IoTileBitConfig.io_ctrl_ren_0 cfg) set_io_ctrl_ren_0 ;;;
   read_flag bitstream (IoTileBitConfig.io_ctrl_ren_1 cfg) set_io_ctrl_ren_1 ;;;
   read_flag bitstream (IoTileBitConfig.negclk cfg) set_negclk ;;;
   v <- st_lift (read_bits bitstream (IoTileBitConfig.pll_config cfg));;
   set_pll_config v)%st.

Definition reset : St t unit :=
  (on_base Tile._reset_routing_resources ;;;
   set_col_buf_ctrl 0 ;;;
   set_iob_0_pintype 0 ;;;
   set_iob_1_pintype 0 ;;;
   set_icegate false ;;;
   set_io_ctrl_ie_0 false ;;;
   set_io_ctrl_ie_1 false ;;;
   set_io_ctrl_lvds false ;;;
   set_io_ctrl_ren_0 false ;;;
   set_io_ctrl_ren_1 false ;;;
   set_negclk false ;;;
   set_pll_config 0)%st.

End IoTile.

(** ** Block-RAM tiles, read side and write side *)

Module RambTile.

Record t : Type := mk {
  base : Tile.t;
  _ramb_tile_bit_config : option RambTileBitConfig.t;
  col_buf_ctrl : Z;
  negclk : bool;
  ram_config_powerup : bool
}.

Definition init (oid : nat) (x y : Z) (ramb_tile_bit_config : option RambTileBitConfig.t) : t :=
  {| base := Tile.init oid x y;
     _ramb_tile_bit_config := ramb_tile_bit_config;
     col_buf_ctrl := 0;
     negclk := false;
     ram_config_powerup := false |}.

Definition with_base (b : Tile.t) (s : t) : t :=
  mk b (_ramb_tile_bit_config s) (col_buf_ctrl s) (negclk s) (ram_config_powerup s).
Definition set_col_buf_ctrl (v : Z) : St t unit := fun s =>
  (ret tt, mk (base s) (_ramb_tile_bit_config s) v (negclk s) (ram_config_powerup s)).
Definition set_negclk (v : bool) : St t unit := fun s =>
  (ret tt, mk (base s) (_ramb_tile_bit_config s) (col_buf_ctrl s) v (ram_config_powerup s)).
Definition set_ram_config_powerup (v : bool) : St t unit := fun s =>
  (ret tt, mk (base s) (_ramb_tile_bit_config s) (col_buf_ctrl s) (negclk s) v).

Definition on_base {A} (m : St Tile.t A) : St t A :=
  fun self => let '(r, b) := m (base self) in (r, with_base b self).

Definition generate_bitstream (self : t) : res string :=
  (cfg <- the_config (_ramb_tile_bit_config self);;
   let config_builder :=
     BitstreamBuilder.init (RambTileBitConfig.width cfg) (RambTileBitConfig.height cfg) in
   b <- write_bits (RambTileBitConfig.col_buf_ctrl_set_bits cfg) (col_buf_ctrl self)
          config_builder;;
   b <- BitstreamBuilder.set_bit (RambTileBitConfig.negclk cfg) (negclk self) b;;
   b <- BitstreamBuilder.set_bit (RambTileBitConfig.ram_config_powerup cfg)
          (ram_config_powerup self) b;;
   b <- Tile._config_bitstream_routing_resources (base self) b;;
   ret (BitstreamBuilder.get_config_string b))%res.

Definition get_type (self : t) : string := "ramb_tile".

Definition process_bitstream (bitstream : list line) : St t unit :=
  (on_base (Tile._process_bitstream_routing_resources bitstream) ;;;
   self <- st_get;;
   cfg <- st_lift (the_config (_ramb_tile_bit_config self));;
   v <- st_lift (read_bits bitstream (RambTileBitConfig.col_buf_ctrl_set_bits cfg));;
   set_col_buf_ctrl v ;;;
   v <- st_lift (bit_at bitstream (RambTileBitConfig.negclk cfg));;
   set_negclk (truthy v) ;;;
   v <- st_lift (bit_at bitstream (RambTileBitConfig.ram_config_powerup cfg));;
   set_ram_config_powerup (truthy v))%st.

Definition reset : St t unit :=
  (on_base Tile._reset_routing_resources ;;;
   set_col_buf_ctrl 0 ;;;
   set_negclk false ;;;
   set_ram_config_powerup false)%st.

End RambTile.

Module RamtTile.

Record t : Type := mk {
  base : Tile.t;
  _ramt_tile_bit_config : option RamtTileBitConfig.t;
  negclk : bool;
  ram_config : Z;
  ram_cascade : Z
}.

Definition init (oid : nat) (x y : Z) (ramt_tile_bit_config : option RamtTileBitConfig.t) : t :=
  {| base := Tile.init oid x y;
     _ramt_tile_bit_config := ramt_tile_bit_config;
     negclk := false;
     ram_config := 0;
     ram_cascade := 0 |}.

Definition with_base (b : Tile.t) (s : t) : t :=
  mk b (_ramt_tile_bit_config s) (negclk s) (ram_config s) (ram_cascade s).
Definition set_negclk (v : bool) : St t unit := fun s =>
  (ret tt, mk (base s) (_ramt_tile_bit_config s) v (ram_config s) (ram_cascade s)).
Definition set_ram_config (v : Z) : St t unit := fun s =>
  (ret tt, mk (base s) (_ramt_tile_bit_config s) (negclk s) v (ram_cascade s)).
Definition set_ram_cascade (v : Z) : St t unit := fun s =>
  (ret tt, mk (base s) (_ramt_tile_bit_config s) (negclk s) (ram_config s) v).

Definition on_base {A} (m : St Tile.t A) : St t A :=
  fun self => let '(r, b) := m (base self) in (r, with_base b self).

Definition generate_bitstream (self : t) : res string :=
  (cfg <- the_config (_ramt_tile_bit_config self);;
   let config_builder :=
     BitstreamBuilder.init (RamtTileBitConfig.width cfg) (RamtTileBitConfig.height cfg) in
   b <- BitstreamBuilder.set_bit (RamtTileBitConfig.negclk cfg) (negclk self) config_builder;;
   b <- write_bits (RamtTileBitConfig.ram_config_bits cfg) (ram_config self) b;;
   b <- write_bits (RamtTileBitConfig.ram_cascade_bits cfg) (ram_cascade self) b;;
   b <- Tile._config_bitstream_routing_resources (base self) b;;
   ret (BitstreamBuilder.get_config_string b))%res.

Definition get_type (self : t) : string := "ramt_tile".

Definition process_bitstream (bitstream : list line) : St t unit :=
  (on_base (Tile._process_bitstream_routing_resources bitstream) ;;;
   self <- st_get;;
   cfg <- st_lift (the_config (_ramt_tile_bit_config self));;
   v <- st_lift (bit_at bitstream (RamtTileBitConfig.negclk cfg));;
   set_negclk (truthy v) ;;;
   v <- st_lift (read_bits bitstream (RamtTileBitConfig.ram_config_bits cfg));;
   set_ram_config v ;;;
   v <- st_lift (read_bits bitstream (RamtTileBitConfig.ram_cascade_bits cfg));;
   set_ram_cascade v)%st.

Definition reset : St t unit :=
  (on_base Tile._reset_routing_resources ;;;
   set_negclk false ;;;
   set_ram_config 0 ;;;
   set_ram_cascade 0)%st.

End RamtTile.

(** ** A tile of any of the four kinds, and the dispatch of its methods *)

Inductive tile : Type :=
| Logic (t : LogicTile.t)
| Io (t : IoTile.t)
| Ramb (t : RambTile.t)
| Ramt (t : RamtTile.t).

Definition tile_base (t : tile) : Tile.t :=
  match t with
  | Logic t => LogicTile.base t
  | Io t => IoTile.base t
  | Ramb t => RambTile.base t
  | Ramt t => RamtTile.base t
  end.

(** A method of one kind, run on a tile of that kind. *)
Definition as_tile {T A} (inj : T -> tile) (m : St T A) (t : T) : res A * tile :=
  let '(r, t') := m t in (r, inj t').

Definition tile_on_base {A} (m : St Tile.t A) : St tile A :=
  fun t =>
    match t with
    | Logic t => as_tile Logic (LogicTile.on_base m) t
    | Io t => as_tile Io (IoTile.on_base m) t
    | Ramb t => as_tile Ramb (RambTile.on_base m) t
    | Ramt t => as_tile Ramt (RamtTile.on_base m) t
    end.

Definition tile_get_type (t : tile) : string :=
  match t with
  | Logic t => LogicTile.get_type t
  | Io t => IoTile.get_type t
  | Ramb t => RambTile.get_type t
  | Ramt t => RamtTile.get_type t
  end.

Definition tile_generate_bitstream (t : tile) : res string :=
  match t with
  | Logic t => LogicTile.generate_bitstream t
  | Io t => IoTile.generate_bitstream t
  | Ramb t => RambTile.generate_bitstream t
  | Ramt t => RamtTile.generate_bitstream t
  end.

Definition tile_process_bitstream (bitstream : list line) : St tile unit :=
  fun t =>
    match t with
    | Logic t => as_tile Logic (LogicTile.process_bitstream bitstream) t
    | Io t => as_tile Io (IoTile.process_bitstream bitstream) t
    | Ramb t => as_tile Ramb (RambTile.process_bitstream bitstream) t
    | Ramt t => as_tile Ramt (RamtTile.process_bitstream bitstream) t
    end.


Definition tile_freeze : St tile unit := tile_on_base Tile.freeze.
Definition tile_add_wire (w : Wire.t) : St tile unit := tile_on_base (Tile.add_wire w).
Definition tile_add_routing_switch (r : RoutingResource.t) : St tile unit :=
  tile_on_base (Tile.add_routing_switch r).
Definition tile_add_buffer (r : RoutingResource.t) : St tile unit :=
  tile_on_base (Tile.add_buffer r).

(** The routing resources of a tile: [chain(self._routing_switches, self._buffers)]. *)
Definition tile_resources (tl : tile) : list RoutingResource.t :=
  (Tile._routing_switches (tile_base tl) ++ Tile._buffers (tile_base tl))%list.

(** ** The device configuration *)

Module DeviceConfig.

(** [next_oid] is the identity the next stored [Tile] or [Net] object
    gets. *)
Record t : Type := mk {
  _frozen : bool;
  _device_type : string;
  _tiles : list (list (option tile));
  _nets : list (option Net.t);
  _wires : PyDict.t string Wire.t;
  _logic_tile_bit_config : option LogicTileBitConfig.t;
  _io_tile_bit_config : option IoTileBitConfig.t;
  _ramb_tile_bits_config : option RambTileBitConfig.t;
  _ramt_tile_bits_config : option RamtTileBitConfig.t;
  next_oid : nat
}.

(** [DeviceConfig(device_config_section)] *)
Definition init (device_config_section : FileSection.t) : res t :=
  (let header := FileSection.get_header device_config_section in
   if negb (Nat.eqb (List.length header) 4) then raise InvalidHeader
   else
     device_type <- PyList.get header 0;;
     h1 <- PyList.get header 1;;
     width <- PyStr.int h1;;
     h2 <- PyList.get header 2;;
     height <- PyStr.int h2;;
     h3 <- PyList.get header 3;;
     num_nets <- PyStr.int h3;;
     ret {| _frozen := false;
            _device_type := device_type;
            _tiles := PyList.replicate height (PyList.replicate width None);
            _nets := PyList.replicate num_nets None;
            _wires := [];
            _logic_tile_bit_config := None;
            _io_tile_bit_config := None;
            _ramb_tile_bits_config := None;
            _ramt_tile_bits_config := None;
            next_oid := O |})%res.

Definition _ensure_not_frozen : St t unit :=
  fun self => if _frozen self then (raise FrozenViolation, self) else (ret tt, self).

Definition _get_config_bit_coordinates (bit_config : string) : res Coord :=
  match PyStr.search_digits "[" "]" bit_config with
  | None => raise MalformedAddress
  | Some x =>
      match PyStr.search_digits "B" "[" bit_config with
      | None => raise MalformedAddress
      | Some y => ret (x, y)
      end
  end.

(** [[self._get_config_bit_coordinates(x) for x in l]] *)
Fixpoint coordinates_of (l : list string) : res (list Coord) :=
  match l with
  | [] => ret []
  | x :: l' =>
      (c <- _get_config_bit_coordinates x;;
       cs <- coordinates_of l';;
       ret (c :: cs))%res
  end.

(** [self._get_config_bit_coordinates(line[1])] *)
Definition coordinate_1 (l : line) : res Coord :=
  (l1 <- PyList.get l 1;; _get_config_bit_coordinates l1)%res.

(** [slots[n] = self._get_config_bit_coordinates(line[1])]: the right-hand
    side first, then the store. *)
Definition store_1 (slots : list (option Coord)) (n : Z) (l : line)
    : res (list (option Coord)) :=
  (c <- coordinate_1 l;; PyList.set slots n (Some c))%res.

(** [None in slots] *)
Definition has_None {A} (slots : list (option A)) : bool :=
  existsb (fun o => match o with None => true | Some _ => false end) slots.

(** The slots of a list without [None]. *)
Fixpoint filled {A} (slots : list (option A)) : list A :=
  match slots with
  | [] => []
  | Some a :: r => a :: filled r
  | None :: r => filled r
  end.

(** [header], checked to have [n] tokens. *)
Definition header_of (n : nat) (section : FileSection.t) : res (list string) :=
  let header := FileSection.get_header section in
  if negb (Nat.eqb (List.length header) n) then raise InvalidHeader else ret header.

(** [int(header[i])] *)
Definition int_at (header : list string) (i : Z) : res Z :=
  (h <- PyList.get header i;; PyStr.int h)%res.

(** *** Schema of the logic tile *)

(** The local variables of [process_logic_tile_bit_config]. *)
Record logic_slots : Type := mk_logic_slots {
  l_carry_in_set_bit : option Coord;
  l_col_buf_ctrl_set_bits : list (option Coord);
  l_lc_set_bits : list (option (list Coord));
  l_neg_clk_set_bit : option Coord
}.

Definition logic_slots_init : logic_slots :=
  mk_logic_slots None (PyList.replicate 8 None) (PyList.replicate 8 None) None.

(** The body of the loop over the lines. *)
Definition logic_line (s : logic_slots) (l : line) : res logic_slots :=
  (l0 <- PyList.get l 0;;
   let col_buf_ctrl_match := PyStr.match_prefix_digits "ColBufCtrl.glb_netwk_" l0 in
   let lc_match := PyStr.match_prefix_digits "LC_" l0 in
   if String.eqb l0 "CarryInSet" then
     c <- coordinate_1 l;;
     ret (mk_logic_slots (Some c) (l_col_buf_ctrl_set_bits s) (l_lc_set_bits s)
            (l_neg_clk_set_bit s))
   else match col_buf_ctrl_match, lc_match with
   | Some global_netwk_num, _ =>
       slots <- store_1 (l_col_buf_ctrl_set_bits s) global_netwk_num l;;
       ret (mk_logic_slots (l_carry_in_set_bit s) slots (l_lc_set_bits s)
              (l_neg_clk_set_bit s))
   | None, Some lc_num =>
       cs <- coordinates_of (PyList.from l 1);;
       slots <- PyList.set (l_lc_set_bits s) lc_num (Some cs);;
       ret (mk_logic_slots (l_carry_in_set_bit s) (l_col_buf_ctrl_set_bits s) slots
              (l_neg_clk_set_bit s))
   | None, None =>
       if String.eqb l0 "NegClk" then
         c <- coordinate_1 l;;
         ret (mk_logic_slots (l_carry_in_set_bit s) (l_col_buf_ctrl_set_bits s)
                (l_lc_set_bits s) (Some c))
       else ret s
   end)%res.

(** [for line in section.get_lines(): body] over local variables. *)
Fixpoint for_lines {S} (body : S -> line -> res S) (s : S) (ls : list line) : res S :=
  match ls with
  | [] => ret s
  | l :: ls' => (s' <- body s l;; for_lines body s' ls')%res
  end.

(** The test after the loop, and the schema object built when it passes. *)
Definition logic_complete (width height : Z) (s : logic_slots)
    : res LogicTileBitConfig.t :=
  match l_carry_in_set_bit s, l_neg_clk_set_bit s with
  | Some carry, Some neg =>
      if has_None (l_col_buf_ctrl_set_bits s) || has_None (l_lc_set_bits s)
      then raise IncompleteSchema
      else ret (LogicTileBitConfig.mk width height carry
                  (filled (l_col_buf_ctrl_set_bits s)) (filled (l_lc_set_bits s)) neg)
  | _, _ => raise IncompleteSchema
  end.

(** What the four schema methods compute before they store: the header,
    the loop over the lines from the initial local variables, the test
    after the loop and the schema object. *)
Definition parse_bit_config {S C} (init : S) (body : S -> line -> res S)
    (complete : Z -> Z -> S -> res C) (section : FileSection.t) : res C :=
  (header <- header_of 2 section;;
   width <- int_at header 0;;
   height <- int_at header 1;;
   s <- for_lines body init (FileSection.get_lines section);;
   complete width height s)%res.

Definition parse_logic_tile_bit_config : FileSection.t -> res LogicTileBitConfig.t :=
  parse_bit_config logic_slots_init logic_line logic_complete.

Definition set_logic_tile_bit_config (c : LogicTileBitConfig.t) : St t unit :=
  fun d => (ret tt,
    mk (_frozen d) (_device_type d) (_tiles d) (_nets d) (_wires d)
       (Some c) (_io_tile_bit_config d) (_ramb_tile_bits_config d)
       (_ramt_tile_bits_config d) (next_oid d)).

Definition process_logic_tile_bit_config (logic_tile_bit_config_section : FileSection.t)
    : St t unit :=
  (_ensure_not_frozen ;;;
   c <- st_lift (parse_logic_tile_bit_config logic_tile_bit_config_section);;
   set_logic_tile_bit_config c)%st.

(** *** Schema of the IO tile *)

Record io_slots : Type := mk_io_slots {
  i_col_buf_ctrl_set_bits : list (option Coord);
  i_iob_0_pintype : list (option Coord);
  i_iob_1_pintype : list (option Coord);
  i_icegate : option Coord;
  i_io_ctrl_ie_0 : option Coord;
  i_io_ctrl_ie_1 : option Coord;
  i_io_ctrl_lvds : option Coord;
  i_io_ctrl_ren_0 : option Coord;
  i_io_ctrl_ren_1 : option Coord;
  i_negclk : option Coord;
  i_pll_config : list (option Coord)
}.

Definition io_slots_init : io_slots :=
  mk_io_slots (PyList.replicate 8 None) (PyList.replicate 6 None) (PyList.replicate 6 None)
    None None None None None None None (PyList.replicate 9 None).

Definition io_line (s : io_slots) (l : line) : res io_slots :=
  (l0 <- PyList.get l 0;;
   let col_buf_ctrl_match := PyStr.match_prefix_digits "ColBufCtrl.glb_netwk_" l0 in
   let iob_0_match := PyStr.match_prefix_digits "IOB_0.PINTYPE_" l0 in
   let iob_1_match := PyStr.match_prefix_digits "IOB_1.PINTYPE_" l0 in
   let pll_match := PyStr.match_prefix_digits "PLL.PLLCONFIG_" l0 in
   let '(mk_io_slots col iob0 iob1 ice ie0 ie1 lvds ren0 ren1 neg pll) := s in
   match col_buf_ctrl_match, iob_0_match, iob_1_match with
   | Some global_netwk_num, _, _ =>
       col' <- store_1 col global_netwk_num l;;
       ret (mk_io_slots col' iob0 iob1 ice ie0 ie1 lvds ren0 ren1 neg pll)
   | None, Some pintype_num, _ =>
       iob0' <- store_1 iob0 pintype_num l;;
       ret (mk_io_slots col iob0' iob1 ice ie0 ie1 lvds ren0 ren1 neg pll)
   | None, None, Some pintype_num =>
       iob1' <- store_1 iob1 pintype_num l;;
       ret (mk_io_slots col iob0 iob1' ice ie0 ie1 lvds ren0 ren1 neg pll)
   | None, None, None =>
       if String.eqb l0 "Icegate" then
         c <- coordinate_1 l;;
         ret (mk_io_slots col iob0 iob1 (Some c) ie0 ie1 lvds ren0 ren1 neg pll)
       else if String.eqb l0 "IoCtrl.IE_0" then
         c <- coordinate_1 l;;
         ret (mk_io_slots col iob0 iob1 ice (Some c) ie1 lvds ren0 ren1 neg pll)
       else if String.eqb l0 "IoCtrl.IE_1" then
         c <- coordinate_1 l;;
         ret (mk_io_slots col iob0 iob1 ice ie0 (Some c) lvds ren0 ren1 neg pll)
       else if String.eqb l0 "IoCtrl.LVDS" then
         c <- coordinate_1 l;;
         ret (mk_io_slots col iob0 iob1 ice ie0 ie1 (Some c) ren0 ren1 neg pll)
       else if String.eqb l0 "IoCtrl.REN_0" then
         c <- coordinate_1 l;;
         ret (mk_io_slots col iob0 iob1 ice ie0 ie1 lvds (Some c) ren1 neg pll)
       else if String.eqb l0 "IoCtrl.REN_1" then
         c <- coordinate_1 l;;
         ret (mk_io_slots col iob0 iob1 ice ie0 ie1 lvds ren0 (Some c) neg pll)
       else if String.eqb l0 "NegClk" then
         c <- coordinate_1 l;;
         ret (mk_io_slots col iob0 iob1 ice ie0 ie1 lvds ren0 ren1 (Some c) pll)
       else match pll_match with
       | Some pll_num =>
           pll' <- store_1 pll (pll_num - 1) l;;
           ret (mk_io_slots col iob0 iob1 ice ie0 ie1 lvds ren0 ren1 neg pll')
       | None => ret s
       end
   end)%res.

Definition io_complete (width height : Z) (s : io_slots) : res IoTileBitConfig.t :=
  match i_icegate s, i_io_ctrl_ie_0 s, i_io_ctrl_ie_1 s, i_io_ctrl_lvds s,
        i_io_ctrl_ren_0 s, i_io_ctrl_ren_1 s, i_negclk s with
  | Some ice, Some ie0, Some ie1, Some lvds, Some ren0, Some ren1, Some neg =>
      if has_None (i_col_buf_ctrl_set_bits s) || has_None (i_iob_0_pintype s)
         || has_None (i_iob_1_pintype s) || has_None (i_pll_config s)
      then raise IncompleteSchema
      else ret (IoTileBitConfig.mk width height
                  (filled (i_col_buf_ctrl_set_bits s)) (filled (i_iob_0_pintype s))
                  (filled (i_iob_1_pintype s)) ice ie0 ie1 lvds ren0 ren1 neg
                  (filled (i_pll_config s)))
  | _, _, _, _, _, _, _ => raise IncompleteSchema
  end.

Definition parse_io_tile_bit_config : FileSection.t -> res IoTileBitConfig.t :=
  parse_bit_config io_slots_init io_line io_complete.

Definition set_io_tile_bit_config (c : IoTileBitConfig.t) : St t unit :=
  fun d => (ret tt,
    mk (_frozen d) (_device_type d) (_tiles d) (_nets d) (_wires d)
       (_logic_tile_bit_config d) (Some c) (_ramb_tile_bits_config d)
       (_ramt_tile_bits_config d) (next_oid d)).

Definition process_io_tile_bit_config (io_tile_bit_config_section : FileSection.t)
    : St t unit :=
  (_ensure_not_frozen ;;;
   c <- st_lift (parse_io_tile_bit_config io_tile_bit_config_section);;
   set_io_tile_bit_config c)%st.

(** *** Schemas of the block-RAM tiles *)

Record ramb_slots : Type := mk_ramb_slots {
  b_col_buf_ctrl_set_bits : list (option Coord);
  b_negclk : option Coord;
  b_ram_config_powerup : option Coord
}.

Definition ramb_slots_init : ramb_slots :=
  mk_ramb_slots (PyList.replicate 8 None) None None.

Definition ramb_line (s : ramb_slots) (l : line) : res ramb_slots :=
  (l0 <- PyList.get l 0;;
   match PyStr.match_prefix_digits "ColBufCtrl.glb_netwk_" l0 with
   | Some global_netwk_num =>
       slots <- store_1 (b_col_buf_ctrl_set_bits s) global_netwk_num l;;
       ret (mk_ramb_slots slots (b_negclk s) (b_ram_config_powerup s))
   | None =>
       if String.eqb l0 "NegClk" then
         c <- coordinate_1 l;;
         ret (mk_ramb_slots (b_col_buf_ctrl_set_bits s) (Some c) (b_ram_config_powerup s))
       else if String.eqb l0 "RamConfig.PowerUp" then
         c <- coordinate_1 l;;
         ret (mk_ramb_slots (b_col_buf_ctrl_set_bits s) (b_negclk s) (Some c))
       else ret s
   end)%res.

Definition ramb_complete (width height : Z) (s : ramb_slots) : res RambTileBitConfig.t :=
  match b_negclk s, b_ram_config_powerup s with
  | Some neg, Some powerup =>
      if has_None (b_col_buf_ctrl_set_bits s) then raise IncompleteSchema
      else ret (RambTileBitConfig.mk width height (filled (b_col_buf_ctrl_set_bits s))
                  neg powerup)
  | _, _ => raise IncompleteSchema
  end.

Definition parse_ramb_tile_bit_config : FileSection.t -> res RambTileBitConfig.t :=
  parse_bit_config ramb_slots_init ramb_line ramb_complete.

Definition set_ramb_tile_bits_config (c : RambTileBitConfig.t) : St t unit :=
  fun d => (ret tt,
    mk (_frozen d) (_device_type d) (_tiles d) (_nets d) (_wires d)
       (_logic_tile_bit_config d) (_io_tile_bit_config d) (Some c)
       (_ramt_tile_bits_config d) (next_oid d)).

Definition process_ramb_tile_bit_config (ramb_tile_bit_config_section : FileSection.t)
    : St t unit :=
  (_ensure_not_frozen ;;;
   c <- st_lift (parse_ramb_tile_bit_config ramb_tile_bit_config_section);;
   set_ramb_tile_bits_config c)%st.

Record ramt_slots : Type := mk_ramt_slots {
  t_negclk : option Coord;
  t_ram_config_bits : list (option Coord);
  t_ram_cascade_bits : list (option Coord)
}.

Definition ramt_slots_init : ramt_slots :=
  mk_ramt_slots None (PyList.replicate 4 None) (PyList.replicate 4 None).

Definition ram_cascade_bit_offset : Z := 4.

Definition ramt_line (s : ramt_slots) (l : line) : res ramt_slots :=
  (l0 <- PyList.get l 0;;
   let ram_cascade_match := PyStr.match_prefix_digits "RamCascade.CBIT_" l0 in
   let ram_config_match := PyStr.match_prefix_digits "RamConfig.CBIT_" l0 in
   if String.eqb l0 "NegClk" then
     c <- coordinate_1 l;;
     ret (mk_ramt_slots (Some c) (t_ram_config_bits s) (t_ram_cascade_bits s))
   else match ram_cascade_match, ram_config_match with
   | Some ram_num, _ =>
       slots <- store_1 (t_ram_cascade_bits s) (ram_num - ram_cascade_bit_offset) l;;
       ret (mk_ramt_slots (t_negclk s) (t_ram_config_bits s) slots)
   | None, Some ram_num =>
       slots <- store_1 (t_ram_config_bits s) ram_num l;;
       ret (mk_ramt_slots (t_negclk s) slots (t_ram_cascade_bits s))
   | None, None => ret s
   end)%res.

Definition ramt_complete (width height : Z) (s : ramt_slots) : res RamtTileBitConfig.t :=
  match t_negclk s with
  | Some neg =>
      if has_None (t_ram_config_bits s) || has_None (t_ram_cascade_bits s)
      then raise IncompleteSchema
      else ret (RamtTileBitConfig.mk width height neg (filled (t_ram_config_bits s))
                  (filled (t_ram_cascade_bits s)))
  | None => raise IncompleteSchema
  end.

Definition parse_ramt_tile_bit_config : FileSection.t -> res RamtTileBitConfig.t :=
  parse_bit_config ramt_slots_init ramt_line ramt_complete.

Definition set_ramt_tile_bits_config (c : RamtTileBitConfig.t) : St t unit :=
  fun d => (ret tt,
    mk (_frozen d) (_device_type d) (_tiles d) (_nets d) (_wires d)
       (_logic_tile_bit_config d) (_io_tile_bit_config d) (_ramb_tile_bits_config d)
       (Some c) (next_oid d)).

Definition process_ramt_tile_bit_config (ramt_tile_bit_config_section : FileSection.t)
    : St t unit :=
  (_ensure_not_frozen ;;;
   c <- st_lift (parse_ramt_tile_bit_config ramt_tile_bit_config_section);;
   set_ramt_tile_bits_config c)%st.

(** *** Tile placement *)

Definition with_tiles (tiles : list (list (option tile))) (d : t) : t :=
  mk (_frozen d) (_device_type d) tiles (_nets d) (_wires d)
     (_logic_tile_bit_config d) (_io_tile_bit_config d) (_ramb_tile_bits_config d)
     (_ramt_tile_bits_config d) (next_oid d).

Definition with_next_oid (n : nat) (d : t) : t :=
  mk (_frozen d) (_device_type d) (_tiles d) (_nets d) (_wires d)
     (_logic_tile_bit_config d) (_io_tile_bit_config d) (_ramb_tile_bits_config d)
     (_ramt_tile_bits_config d) n.

(** [tiles[y][x] = v]: the row is looked up, then the cell is stored in
    it. *)
Definition grid_set {A} (tiles : list (list A)) (x y : Z) (v : A) : res (list (list A)) :=
  (row <- PyList.get tiles y;;
   row' <- PyList.set row x v;;
   PyList.set tiles y row')%res.

(** [tiles[y][x]] *)
Definition grid_get {A} (tiles : list (list A)) (x y : Z) : res A :=
  (row <- PyList.get tiles y;; PyList.get row x)%res.

(** [self._tiles[y][x] = T(x, y, schema)]: the new object is built first;
    its identity is taken from the counter when the store succeeds (an
    object whose store raises is unreachable). *)
Definition place (new : nat -> Z -> Z -> tile) (x y : Z) : St t unit :=
  fun d =>
    match grid_set (_tiles d) x y (Some (new (next_oid d) x y)) with
    | inl e => (inl e, d)
    | inr tiles => (ret tt, with_next_oid (S (next_oid d)) (with_tiles tiles d))
    end.

(** The common shape of the four placement methods. *)
Definition process_tile (new : t -> nat -> Z -> Z -> tile) (section : FileSection.t)
    : St t unit :=
  (_ensure_not_frozen ;;;
   header <- st_lift (header_of 2 section);;
   x <- st_lift (int_at header 0);;
   y <- st_lift (int_at header 1);;
   self <- st_get;;
   place (new self) x y)%st.

Definition process_logic_tile (logic_tile_config : FileSection.t) : St t unit :=
  process_tile
    (fun self oid x y => Logic (LogicTile.init oid x y (_logic_tile_bit_config self)))
    logic_tile_config.

Definition process_io_tile (io_tile_config : FileSection.t) : St t unit :=
  process_tile
    (fun self oid x y => Io (IoTile.init oid x y (_io_tile_bit_config self)))
    io_tile_config.

Definition process_ramb_tile (ramb_tile_config : FileSection.t) : St t unit :=
  process_tile
    (fun self oid x y => Ramb (RambTile.init oid x y (_ramb_tile_bits_config self)))
    ramb_tile_config.

Definition process_ramt_tile (ramt_tile_config : FileSection.t) : St t unit :=
  process_tile
    (fun self oid x y => Ramt (RamtTile.init oid x y (_ramt_tile_bits_config self)))
    ramt_tile_config.

(** *** Nets *)

(** [self._tiles[y][x].m(...)]: the cell is looked up, [m] runs on the tile
    object in it ([None] has no methods) and mutates it in place. *)
Definition at_tile {A} (x y : Z) (m : St tile A) : St t A :=
  fun d =>
    match grid_get (_tiles d) x y with
    | inl e => (inl e, d)
    | inr None => (raise AttributeError, d)
    | inr (Some tl) =>
        let '(r, tl') := m tl in
        match grid_set (_tiles d) x y (Some tl') with
        | inl e => (inl e, d)
        | inr tiles => (r, with_tiles tiles d)
        end
    end.

Definition with_wires (wires : PyDict.t string Wire.t) (d : t) : t :=
  mk (_frozen d) (_device_type d) (_tiles d) (_nets d) wires
     (_logic_tile_bit_config d) (_io_tile_bit_config d) (_ramb_tile_bits_config d)
     (_ramt_tile_bits_config d) (next_oid d).

Definition with_nets (nets : list (option Net.t)) (d : t) : t :=
  mk (_frozen d) (_device_type d) (_tiles d) nets (_wires d)
     (_logic_tile_bit_config d) (_io_tile_bit_config d) (_ramb_tile_bits_config d)
     (_ramt_tile_bits_config d) (next_oid d).

(** [if name not in self._wires: self._wires[name] = Wire(name)]
    [wire = self._wires[name]] *)
Definition wire_named (name : string) : St t Wire.t :=
  fun d =>
    let wires :=
      if PyDict.contains String.eqb (_wires d) name then _wires d
      else PyDict.set String.eqb (_wires d) name (Wire.mk name) in
    (PyDict.lookup String.eqb wires name, with_wires wires d).

(** The body of the loop of [process_net]; [net] is the local [Net] object
    under construction. *)
Definition net_line (net : Net.t) (alias_config : line) : St t Net.t :=
  (if negb (Nat.eqb (List.length alias_config) 3) then st_raise InvalidNetConfig
   else
     x <- st_lift (int_at alias_config 0);;
     y <- st_lift (int_at alias_config 1);;
     name <- st_lift (PyList.get alias_config 2);;
     wire <- wire_named name;;
     at_tile x y (tile_add_wire wire) ;;;
     tl <- at_tile x y st_get;;
     match Net.add_wire (Tile.oid (tile_base tl)) wire net with
     | (inl e, _) => st_raise e
     | (inr _, net') => st_ret net'
     end)%st.

Fixpoint net_lines (net : Net.t) (ls : list line) : St t Net.t :=
  match ls with
  | [] => st_ret net
  | l :: ls' => (net' <- net_line net l;; net_lines net' ls')%st
  end.

(** [self._nets[idx] = net]; the identity of the net is taken from the
    counter when the store succeeds. *)
Definition store_net (idx : Z) (net : Net.t) : St t unit :=
  fun d =>
    match PyList.set (_nets d) idx (Some net) with
    | inl e => (inl e, d)
    | inr nets => (ret tt, with_next_oid (S (next_oid d)) (with_nets nets d))
    end.

Definition process_net (net_config_section : FileSection.t) : St t unit :=
  (_ensure_not_frozen ;;;
   idx <- st_lift (int_at (FileSection.get_header net_config_section) 0);;
   self <- st_get;;
   net <- net_lines (Net.init (next_oid self) idx) (FileSection.get_lines net_config_section);;
   store_net idx net)%st.

(** *** Routing switches and buffers *)

(** [self._nets[i]], as a routing resource holds it. *)
Definition net_ref (d : t) (i : Z) : res NetRef :=
  (n <- PyList.get (_nets d) i;; ret (option_map Net.oid n))%res.

(** The body of the loop over the lines of a routing or buffer section. *)
Definition candidate_line (d : t) (dict : PyDict.t NetRef Z) (l : line)
    : res (PyDict.t NetRef Z) :=
  (l0 <- PyList.get l 0;;
   config_bit_values <- PyStr.int2 l0;;
   src_net_idx <- int_at l 1;;
   src <- net_ref d src_net_idx;;
   ret (PyDict.set NetRef_eqb dict src config_bit_values))%res.

(** What [process_routing_switch] and [process_buffer] compute before they
    add the resource to the tile. *)
Definition parse_routing_resource (d : t) (section : FileSection.t)
    : res (Z * Z * RoutingResource.t) :=
  (let header := FileSection.get_header section in
   if (List.length header <? 4)%nat then raise InvalidHeader
   else
     x <- int_at header 0;;
     y <- int_at header 1;;
     dst_net_idx <- int_at header 2;;
     config_bit_coordinates <- coordinates_of (PyList.from header 3);;
     let config_bit_coordinates := rev config_bit_coordinates in
     src_net_to_bit_vals_dict <-
       for_lines (candidate_line d) [] (FileSection.get_lines section);;
     dst <- net_ref d dst_net_idx;;
     ret (x, y, RoutingResource.init dst config_bit_coordinates src_net_to_bit_vals_dict))%res.

Definition process_routing_switch (routing_switch_config_section : FileSection.t)
    : St t unit :=
  (_ensure_not_frozen ;;;
   self <- st_get;;
   p <- st_lift (parse_routing_resource self routing_switch_config_section);;
   let '(x, y, routing_switch) := p in
   at_tile x y (tile_add_routing_switch routing_switch))%st.

Definition process_buffer (buffer_config_section : FileSection.t) : St t unit :=
  (_ensure_not_frozen ;;;
   self <- st_get;;
   p <- st_lift (parse_routing_resource self buffer_config_section);;
   let '(x, y, buffer) := p in
   at_tile x y (tile_add_buffer buffer))%st.

(** *** Freeze *)

Definition set_frozen (d : t) : t :=
  mk true (_device_type d) (_tiles d) (_nets d) (_wires d)
     (_logic_tile_bit_config d) (_io_tile_bit_config d) (_ramb_tile_bits_config d)
     (_ramt_tile_bits_config d) (next_oid d).

(** [if tile is not None: tile.freeze()] *)
Definition freeze_cell (c : option tile) : option tile :=
  match c with
  | None => None
  | Some tl => Some (snd (tile_freeze tl))
  end.

(** [net.freeze()] on a slot of the net array: [None] has no method
    [freeze]. *)
Definition freeze_slot : St (option Net.t) unit :=
  fun slot =>
    match slot with
    | None => (raise AttributeError, None)
    | Some net => let '(r, net') := Net.freeze net in (r, Some net')
    end.

Definition freeze : St t unit :=
  fun d =>
    let d1 := set_frozen d in
    let d2 := with_tiles (map (map freeze_cell) (_tiles d1)) d1 in
    let '(r, nets) := st_each freeze_slot (_nets d2) in
    (r, with_nets nets d2).

Definition is_frozen (d : t) : bool := _frozen d.

(** *** Whole-device encode and decode *)

Definition nl : string := String "010"%char EmptyString.

(** The inner loop of [generate_bitstream], over the cells of row [y] from
    column [x] on. *)
Fixpoint generate_row (row : list (option tile)) (x y : nat) (bitstream : string)
    : res string :=
  match row with
  | [] => ret bitstream
  | None :: row' => generate_row row' (S x) y bitstream
  | Some tl :: row' =>
      (let bitstream :=
         bitstream ++ "." ++ tile_get_type tl ++ " " ++ PyStr.of_nat x ++ " "
           ++ PyStr.of_nat y ++ nl in
       bits <- tile_generate_bitstream tl;;
       generate_row row' (S x) y (bitstream ++ bits ++ nl))%res
  end.

Fixpoint generate_rows (rows : list (list (option tile))) (y : nat) (bitstream : string)
    : res string :=
  match rows with
  | [] => ret bitstream
  | row :: rows' =>
      (bitstream <- generate_row row 0 y bitstream;;
       generate_rows rows' (S y) bitstream)%res
  end.

Definition generate_bitstream (d : t) : res string :=
  (bitstream <- generate_rows (_tiles d) 0 (".device " ++ _device_type d ++ nl);;
   ret (PyStr.strip bitstream))%res.

(** [re.match(r"(io|logic|ramb|ramt)_tile", s)] *)
Definition tile_match (s : string) : bool :=
  PyStr.startswith s "io_tile" || PyStr.startswith s "logic_tile"
  || PyStr.startswith s "ramb_tile" || PyStr.startswith s "ramt_tile".

(** The body of the loop of [process_bitstream]. *)
Definition bitstream_section (section : FileSection.t) : St t unit :=
  (if tile_match (FileSection.get_type section) then
     header <- st_lift (header_of 2 section);;
     x <- st_lift (int_at header 0);;
     y <- st_lift (int_at header 1);;
     at_tile x y
       (fun tl =>
          if negb (String.eqb (tile_get_type tl) (FileSection.get_type section))
          then (raise TileTypeMismatch, tl)
          else tile_process_bitstream (FileSection.get_lines section) tl)
   else st_ret tt)%st.

(** [process_bitstream(path)], on the text of the file at [path]. *)
Definition process_bitstream (text : string) : St t unit :=
  (file_sections <- st_lift (read_file text false);;
   st_for file_sections bitstream_section)%st.

(** *** Reset *)

(** [row.reset()] where [row] is a row of the grid, a Python [list]: a list
    has no attribute [reset]. *)
Definition list_reset {A} : St (list A) unit :=
  fun row => (raise AttributeError, row).

(** [for tile in self._tiles: tile.reset()]: the loop variable ranges over
    [self._tiles], whose elements are the rows of the grid. *)
Definition reset : St t unit :=
  fun d =>
    let '(r, tiles) := st_each list_reset (_tiles d) in
    (r, with_tiles tiles d).

End DeviceConfig.

(** ** The ingestion calls, by name *)

Inductive ingestion : Type :=
| LogicTileBits | IoTileBits | RambTileBits | RamtTileBits
| LogicTilePlacement | IoTilePlacement | RambTilePlacement | RamtTilePlacement
| NetSection | RoutingSection | BufferSection.

Definition ingest (k : ingestion) : FileSection.t -> St DeviceConfig.t unit :=
  match k with
  | LogicTileBits => DeviceConfig.process_logic_tile_bit_config
  | IoTileBits => DeviceConfig.process_io_tile_bit_config
  | RambTileBits => DeviceConfig.process_ramb_tile_bit_config
  | RamtTileBits => DeviceConfig.process_ramt_tile_bit_config
  | LogicTilePlacement => DeviceConfig.process_logic_tile
  | IoTilePlacement => DeviceConfig.process_io_tile
  | RambTilePlacement => DeviceConfig.process_ramb_tile
  | RamtTilePlacement => DeviceConfig.process_ramt_tile
  | NetSection => DeviceConfig.process_net
  | RoutingSection => DeviceConfig.process_routing_switch
  | BufferSection => DeviceConfig.process_buffer
  end.

(** The grid as [DeviceConfig(...)] allocates it: [h] rows of [w] cells. *)
Definition grid_shape {A} (tiles : list (list A)) (w h : Z) : Prop :=
  Z.of_nat (List.length tiles) = h
  /\ Forall (fun row => Z.of_nat (List.length row) = w) tiles.

(** The cell in column [i] of row [j], counted from 0. *)
Definition cell {A} (tiles : list (list A)) (i j : nat) : option A :=
  match nth_error tiles j with
  | Some row => nth_error row i
  | None => None
  end.

(** ** Encode, then decode *)

(** The body lines the reader delivers for the bitmap of a tile: the bitmap
    follows a header line in the text [DeviceConfig.generate_bitstream]
    writes, and [read_file] cuts that text into sections. *)
Definition bitmap_lines (bits : string) : res (list line) :=
  (sections <- read_file (".tile 0 0" ++ DeviceConfig.nl ++ bits ++ DeviceConfig.nl) false;;
   section <- PyList.get sections 0;;
   ret (FileSection.get_lines section))%res.

(** [tile.generate_bitstream()], then [copy.process_bitstream(lines)] on the
    lines of the bitmap. *)
Definition tile_round_trip (tl copy : tile) : res tile :=
  (bits <- tile_generate_bitstream tl;;
   lines <- bitmap_lines bits;;
   match tile_process_bitstream lines copy with
   | (inl e, _) => inl e
   | (inr _, copy') => ret copy'
   end)%res.

(** The bit the encoding of a tile holds at a coordinate. *)
Definition encoded_bit (tl : tile) (c : Coord) : res Z :=
  (bits <- tile_generate_bitstream tl;;
   lines <- bitmap_lines bits;;
   bit_at lines c)%res.

(** [d.generate_bitstream()], then [copy.process_bitstream(...)] on the text
    written. *)
Definition round_trip (d copy : DeviceConfig.t) : res DeviceConfig.t :=
  (text <- DeviceConfig.generate_bitstream d;;
   match DeviceConfig.process_bitstream text copy with
   | (inl e, _) => inl e
   | (inr _, copy') => ret copy'
   end)%res.

(** The tile in column [i] of row [j], if it is an IO tile. *)
Definition io_tile_at (d : DeviceConfig.t) (i j : nat) : option IoTile.t :=
  match cell (DeviceConfig._tiles d) i j with
  | Some (Some (Io t)) => Some t
  | _ => None
  end.

Definition logic_tile_at (d : DeviceConfig.t) (i j : nat) : option LogicTile.t :=
  match cell (DeviceConfig._tiles d) i j with
  | Some (Some (Logic t)) => Some t
  | _ => None
  end.

(** ** The bit grid, for the encode and decode laws *)

(** A coordinate of the [w] by [h] bit rectangle of a tile. *)
Definition in_grid (w h : Z) (c : Coord) : Prop :=
  0 <= fst c < w /\ 0 <= snd c < h.

(** The cell of the builder at a coordinate. *)
Definition bit (b : BitstreamBuilder.t) (c : Coord) : option bool :=
  cell (BitstreamBuilder._config b) (Z.to_nat (fst c)) (Z.to_nat (snd c)).

(** The calls [set_bit(c, v & 1)] the loop over [coords] makes for the value
    [v], in order. *)
Fixpoint writes_of_bits (coords : list Coord) (v : Z) : list (Coord * bool) :=
  match coords with
  | [] => []
  | c :: cs => (c, truthy (Z.land v 1)) :: writes_of_bits cs (Z.shiftr v 1)
  end.

(** A sequence of [set_bit] calls. *)
Fixpoint apply_writes (ws : list (Coord * bool)) (b : BitstreamBuilder.t)
    : res BitstreamBuilder.t :=
  match ws with
  | [] => ret b
  | (c, v) :: ws' => (b' <- BitstreamBuilder.set_bit c v b;; apply_writes ws' b')%res
  end.

(** The text of the given lines, each ended by a newline. *)
Definition unlines (rs : list string) : string :=
  fold_right (fun r s => r ++ DeviceConfig.nl ++ s) EmptyString rs.

(** A row of the builder as [get_config_string] writes it. *)
Definition row_string (row : list bool) : string :=
  PyStr.join (map BitstreamBuilder.str_bit row).

(** A nonempty string of the characters 0 and 1. *)
Fixpoint all_bits (s : string) : bool :=
  match s with
  | EmptyString => true
  | String c r => (Ascii.eqb c "0" || Ascii.eqb c "1") && all_bits r
  end.

Definition bit_string (s : string) : Prop := s <> EmptyString /\ all_bits s = true.

(** The lines of a bitmap as the reader delivers them from the rows of the
    builder: the characters of each row. *)
Definition rendered (b : BitstreamBuilder.t) : list line :=
  map (map BitstreamBuilder.str_bit) (BitstreamBuilder._config b).

(** ** What a tile encodes, setting by setting

    A setting of a tile is a flag at one coordinate or a number over an
    ordered list of coordinates, least significant bit first; a routing
    resource is a number, its pattern, over its control bits. *)

Inductive setting : Type :=
| Flag (c : Coord) (v : bool)
| Bits (coords : list Coord) (v : Z).

Definition setting_writes (s : setting) : list (Coord * bool) :=
  match s with
  | Flag c v => [(c, v)]
  | Bits coords v => writes_of_bits coords v
  end.

Definition setting_coords (s : setting) : list Coord :=
  match s with
  | Flag c _ => [c]
  | Bits coords _ => coords
  end.

(** What [get_config_bits] returns: the pattern of the connection, 0 when
    disconnected. *)
Definition pattern (r : RoutingResource.t) : Z :=
  match RoutingResource.get_config_bits r with
  | inr p => p
  | inl _ => 0
  end.

Definition resource_setting (r : RoutingResource.t) : setting :=
  Bits (RoutingResource.get_config_bit_coordinates r) (pattern r).

(** The settings of the routing resources of a tile, in the order
    [_config_bitstream_routing_resources] writes them. *)
Definition resource_settings (base : Tile.t) : list setting :=
  map resource_setting (Tile._routing_switches base ++ Tile._buffers base).

(** The bitmap of the given settings: a zero grid, the writes in order, the
    text. *)
Definition encode (w h : Z) (ss : list setting) : res string :=
  (b <- apply_writes (List.concat (map setting_writes ss)) (BitstreamBuilder.init w h);;
   ret (BitstreamBuilder.get_config_string b))%res.

(** A routing resource [get_config_bits] returns a pattern for: it is
    disconnected or its connection is in its table. *)
Definition encodable (r : RoutingResource.t) : Prop :=
  RoutingResource.get_config_bits r = ret (pattern r).


(** The settings of an IO tile as [generate_bitstream] writes them: the
    column buffer control is written as one flag, at the first of its
    coordinates [c0]. *)
Definition io_settings (t : IoTile.t) (c0 : Coord) (cfg : IoTileBitConfig.t) : list setting :=
  [Flag c0 (truthy (IoTile.col_buf_ctrl t));
   Bits (IoTileBitConfig.iob_0_pintype cfg) (IoTile.iob_0_pintype t);
   Bits (IoTileBitConfig.iob_1_pintype cfg) (IoTile.iob_1_pintype t);
   Flag (IoTileBitConfig.icegate cfg) (IoTile.icegate t);
   Flag (IoTileBitConfig.io_ctrl_ie_0 cfg) (IoTile.io_ctrl_ie_0 t);
   Flag (IoTileBitConfig.io_ctrl_ie_1 cfg) (IoTile.io_ctrl_ie_1 t);
   Flag (IoTileBitConfig.io_ctrl_lvds cfg) (IoTile.io_ctrl_lvds t);
   Flag (IoTileBitConfig.io_ctrl_ren_0 cfg) (IoTile.io_ctrl_ren_0 t);
   Flag (IoTileBitConfig.io_ctrl_ren_1 cfg) (IoTile.io_ctrl_ren_1 t);
   Flag (IoTileBitConfig.negclk cfg) (IoTile.negclk t);
   Bits (IoTileBitConfig.pll_config cfg) (IoTile.pll_config t)].

(** A routing resource whose connection the code can encode and decode: its
    table is a dictionary, no two candidates share a pattern, every pattern
    is nonzero and fits the control bits, and the connection is a candidate
    or absent. *)
Definition resource_ok (r : RoutingResource.t) : Prop :=
  NoDup (candidates r)
  /\ NoDup (map snd (RoutingResource._src_net_to_bit_vals_dict r))
  /\ Forall (fun p => 0 < p < 2 ^ Z.of_nat (List.length (RoutingResource._config_bit_coordinates r)))
        (map snd (RoutingResource._src_net_to_bit_vals_dict r))
  /\ (RoutingResource._connection r = None
      \/ In (RoutingResource._connection r) (candidates r)).

(** The tile state of the base class with every routing resource
    disconnected: what two tiles of the same topology share. *)
Definition disconnected (base : Tile.t) : Tile.t :=
  Tile.with_resources
    (map (RoutingResource.set_connection None) (Tile._routing_switches base))
    (map (RoutingResource.set_connection None) (Tile._buffers base)) base.

(** The settings of a logic tile, in the order [generate_bitstream] writes
    them. *)
Definition logic_settings (t : LogicTile.t) (cfg : LogicTileBitConfig.t) : list setting :=
  ([Flag (LogicTileBitConfig.carry_in_set_bit cfg) (truthy (LogicTile.carry_in_set t));
    Bits (LogicTileBitConfig.col_buf_ctrl_set_bits cfg) (LogicTile.col_buf_ctrl t)]
   ++ map (fun p => Bits (fst p) (snd p))
        (combine (LogicTileBitConfig.lc_set_bits cfg) (LogicTile.lc_bits t))
   ++ [Flag (LogicTileBitConfig.neg_clk_set_bit cfg) (LogicTile.neg_clk t)])%list.

Definition ramb_settings (t : RambTile.t) (cfg : RambTileBitConfig.t) : list setting :=
  [Bits (RambTileBitConfig.col_buf_ctrl_set_bits cfg) (RambTile.col_buf_ctrl t);
   Flag (RambTileBitConfig.negclk cfg) (RambTile.negclk t);
   Flag (RambTileBitConfig.ram_config_powerup cfg) (RambTile.ram_config_powerup t)].

Definition ramt_settings (t : RamtTile.t) (cfg : RamtTileBitConfig.t) : list setting :=
  [Flag (RamtTileBitConfig.negclk cfg) (RamtTile.negclk t);
   Bits (RamtTileBitConfig.ram_config_bits cfg) (RamtTile.ram_config t);
   Bits (RamtTileBitConfig.ram_cascade_bits cfg) (RamtTile.ram_cascade t)].



(** The text of the all-zero bitmap of a [w] by [h] rectangle. *)
Definition zero_text (w h : Z) : string :=
  BitstreamBuilder.get_config_string (BitstreamBuilder.init w h).

(** Settings the grid can hold and the decoder can tell apart: every
    coordinate in the rectangle, no coordinate bound twice, every number
    within the bits bound to it. *)
Definition settings_ok (w h : Z) (ss : list setting) : Prop :=
  Forall (in_grid w h) (List.concat (map setting_coords ss))
  /\ NoDup (List.concat (map setting_coords ss))
  /\ Forall (fun s => match s with
                      | Flag _ _ => True
                      | Bits coords v => 0 <= v < 2 ^ Z.of_nat (List.length coords)
                      end) ss.

(** A logic tile the code can encode and decode: it holds its schema, one
    lookup-cell value per lookup-cell slot, a carry bit of 0 or 1, settings
    and routing resources as above. *)
Definition logic_tile_ok (t : LogicTile.t) (cfg : LogicTileBitConfig.t) : Prop :=
  LogicTile._bit_config t = Some cfg
  /\ List.length (LogicTile.lc_bits t) = List.length (LogicTileBitConfig.lc_set_bits cfg)
  /\ (LogicTile.carry_in_set t = 0 \/ LogicTile.carry_in_set t = 1)
  /\ settings_ok (LogicTileBitConfig.width cfg) (LogicTileBitConfig.height cfg)
       (logic_settings t cfg ++ resource_settings (LogicTile.base t))
  /\ Forall resource_ok (tile_resources (Logic t)).

(** A logic tile of the same topology: the same schema, the same wires and
    routing resources up to their connections, as many lookup-cell
    values. *)
Definition logic_same_topology (t t' : LogicTile.t) : Prop :=
  LogicTile._bit_config t' = LogicTile._bit_config t
  /\ disconnected (LogicTile.base t') = disconnected (LogicTile.base t)
  /\ List.length (LogicTile.lc_bits t') = List.length (LogicTile.lc_bits t).

Definition ramb_tile_ok (t : RambTile.t) (cfg : RambTileBitConfig.t) : Prop :=
  RambTile._ramb_tile_bit_config t = Some cfg
  /\ settings_ok (RambTileBitConfig.width cfg) (RambTileBitConfig.height cfg)
       (ramb_settings t cfg ++ resource_settings (RambTile.base t))
  /\ Forall resource_ok (tile_resources (Ramb t)).

Definition ramb_same_topology (t t' : RambTile.t) : Prop :=
  RambTile._ramb_tile_bit_config t' = RambTile._ramb_tile_bit_config t
  /\ disconnected (RambTile.base t') = disconnected (RambTile.base t).

Definition ramt_tile_ok (t : RamtTile.t) (cfg : RamtTileBitConfig.t) : Prop :=
  RamtTile._ramt_tile_bit_config t = Some cfg
  /\ settings_ok (RamtTileBitConfig.width cfg) (RamtTileBitConfig.height cfg)
       (ramt_settings t cfg ++ resource_settings (RamtTile.base t))
  /\ Forall resource_ok (tile_resources (Ramt t)).

Definition ramt_same_topology (t t' : RamtTile.t) : Prop :=
  RamtTile._ramt_tile_bit_config t' = RamtTile._ramt_tile_bit_config t
  /\ disconnected (RamtTile.base t') = disconnected (RamtTile.base t).

(** ** Slots of a schema under ingestion

    What the tests after the loops of the four schema methods look at: a
    slot is unpopulated while it holds [None].  [*_shape] is the number of
    slots of each indexed setting, as the methods allocate them. *)


Definition logic_shape (s : DeviceConfig.logic_slots) : Prop :=
  List.length (DeviceConfig.l_col_buf_ctrl_set_bits s) = 8%nat
  /\ List.length (DeviceConfig.l_lc_set_bits s) = 8%nat.


Definition io_shape (s : DeviceConfig.io_slots) : Prop :=
  List.length (DeviceConfig.i_col_buf_ctrl_set_bits s) = 8%nat
  /\ List.length (DeviceConfig.i_iob_0_pintype s) = 6%nat
  /\ List.length (DeviceConfig.i_iob_1_pintype s) = 6%nat
  /\ List.length (DeviceConfig.i_pll_config s) = 9%nat.




Definition ramt_shape (s : DeviceConfig.ramt_slots) : Prop :=
  List.length (DeviceConfig.t_ram_config_bits s) = 4%nat
  /\ List.length (DeviceConfig.t_ram_cascade_bits s) = 4%nat.











(** The four tile kinds, their placement calls, the schema slot of the
    device each reads and the tile object each builds. *)
Inductive tile_kind : Type := KLogic | KIo | KRamb | KRamt.

Definition process_placement (k : tile_kind) : FileSection.t -> St DeviceConfig.t unit :=
  match k with
  | KLogic => DeviceConfig.process_logic_tile
  | KIo => DeviceConfig.process_io_tile
  | KRamb => DeviceConfig.process_ramb_tile
  | KRamt => DeviceConfig.process_ramt_tile
  end.

(** [v is None] *)
Definition is_None {A} (v : option A) : bool :=
  match v with None => true | Some _ => false end.

Definition schema_ingested (k : tile_kind) (d : DeviceConfig.t) : bool :=
  match k with
  | KLogic => negb (is_None (DeviceConfig._logic_tile_bit_config d))
  | KIo => negb (is_None (DeviceConfig._io_tile_bit_config d))
  | KRamb => negb (is_None (DeviceConfig._ramb_tile_bits_config d))
  | KRamt => negb (is_None (DeviceConfig._ramt_tile_bits_config d))
  end.

Definition new_tile (k : tile_kind) (d : DeviceConfig.t) (oid : nat) (x y : Z) : tile :=
  match k with
  | KLogic => Logic (LogicTile.init oid x y (DeviceConfig._logic_tile_bit_config d))
  | KIo => Io (IoTile.init oid x y (DeviceConfig._io_tile_bit_config d))
  | KRamb => Ramb (RambTile.init oid x y (DeviceConfig._ramb_tile_bits_config d))
  | KRamt => Ramt (RamtTile.init oid x y (DeviceConfig._ramt_tile_bits_config d))
  end.

(** Whether the tile holds [None] where it should hold its schema. *)
Definition schema_missing (tl : tile) : bool :=
  match tl with
  | Logic t => is_None (LogicTile._bit_config t)
  | Io t => is_None (IoTile._bit_config t)
  | Ramb t => is_None (RambTile._ramb_tile_bit_config t)
  | Ramt t => is_None (RamtTile._ramt_tile_bit_config t)
  end.

(** The tiles placed in the grid. *)
Definition placed (d : DeviceConfig.t) (tl : tile) : Prop :=
  exists row, In row (DeviceConfig._tiles d) /\ In (Some tl) row.

(** ** Fixtures: sections as the reader delivers them, and devices built
    from them through the ingestion calls *)

Module Fixture.

(** The section [read_file] builds from a header line and its body
    lines. *)
Definition section (header_line : string) (split_lines : bool) (body : list string)
    : FileSection.t :=
  fold_left (fun s l => FileSection.add_line l s) body
    (FileSection.init header_line split_lines).

(** [d.m(section)] on a device under construction. *)
Definition call (m : St DeviceConfig.t unit) (d : res DeviceConfig.t) : res DeviceConfig.t :=
  match d with
  | inl e => inl e
  | inr d => match m d with (inl e, _) => inl e | (inr _, d') => inr d' end
  end.

Definition empty : DeviceConfig.t :=
  DeviceConfig.mk false "" [] [] [] None None None None O.

Definition built (d : res DeviceConfig.t) : DeviceConfig.t :=
  match d with inr d => d | inl _ => empty end.

(** The device header of the scenario of the specification. *)
Definition device_2x2 : res DeviceConfig.t :=
  DeviceConfig.init (section ".device 1k 2 2 3" true []).

Definition logic_tile_bits : FileSection.t :=
  section ".logic_tile_bits 16 3" true
    ["CarryInSet B0[0]"; "NegClk B0[1]";
     "ColBufCtrl.glb_netwk_0 B1[0]"; "ColBufCtrl.glb_netwk_1 B1[1]";
     "ColBufCtrl.glb_netwk_2 B1[2]"; "ColBufCtrl.glb_netwk_3 B1[3]";
     "ColBufCtrl.glb_netwk_4 B1[4]"; "ColBufCtrl.glb_netwk_5 B1[5]";
     "ColBufCtrl.glb_netwk_6 B1[6]"; "ColBufCtrl.glb_netwk_7 B1[7]";
     "LC_0 B2[0] B2[1]"; "LC_1 B2[2] B2[3]"; "LC_2 B2[4] B2[5]"; "LC_3 B2[6] B2[7]";
     "LC_4 B2[8] B2[9]"; "LC_5 B2[10] B2[11]"; "LC_6 B2[12] B2[13]";
     "LC_7 B2[14] B2[15]"].

Definition io_tile_bits : FileSection.t :=
  section ".io_tile_bits 9 4" true
    ["ColBufCtrl.glb_netwk_0 B0[0]"; "ColBufCtrl.glb_netwk_1 B0[1]";
     "ColBufCtrl.glb_netwk_2 B0[2]"; "ColBufCtrl.glb_netwk_3 B0[3]";
     "ColBufCtrl.glb_netwk_4 B0[4]"; "ColBufCtrl.glb_netwk_5 B0[5]";
     "ColBufCtrl.glb_netwk_6 B0[6]"; "ColBufCtrl.glb_netwk_7 B0[7]";
     "IOB_0.PINTYPE_0 B1[0]"; "IOB_0.PINTYPE_1 B1[1]"; "IOB_0.PINTYPE_2 B1[2]";
     "IOB_0.PINTYPE_3 B1[3]"; "IOB_0.PINTYPE_4 B1[4]"; "IOB_0.PINTYPE_5 B1[5]";
     "IOB_1.PINTYPE_0 B2[0]"; "IOB_1.PINTYPE_1 B2[1]"; "IOB_1.PINTYPE_2 B2[2]";
     "IOB_1.PINTYPE_3 B2[3]"; "IOB_1.PINTYPE_4 B2[4]"; "IOB_1.PINTYPE_5 B2[5]";
     "Icegate B1[6]"; "IoCtrl.IE_0 B1[7]"; "IoCtrl.IE_1 B2[6]"; "IoCtrl.LVDS B2[7]";
     "IoCtrl.REN_0 B1[8]"; "IoCtrl.REN_1 B2[8]"; "NegClk B0[8]";
     "PLL.PLLCONFIG_1 B3[0]"; "PLL.PLLCONFIG_2 B3[1]"; "PLL.PLLCONFIG_3 B3[2]";
     "PLL.PLLCONFIG_4 B3[3]"; "PLL.PLLCONFIG_5 B3[4]"; "PLL.PLLCONFIG_6 B3[5]";
     "PLL.PLLCONFIG_7 B3[6]"; "PLL.PLLCONFIG_8 B3[7]"; "PLL.PLLCONFIG_9 B3[8]"].




(** The 2x2 device with both schemas, a logic tile at (0,0), an IO tile at
    (1,0), the three nets and, in the logic tile, a routing switch with two
    control bits and the candidates net 0 at pattern 01 and net 1 at
    pattern 10. *)
Definition building : res DeviceConfig.t :=
  call (DeviceConfig.process_routing_switch
          (section ".routing 0 0 2 B0[3] B0[2]" true ["01 0"; "10 1"]))
  (call (DeviceConfig.process_net (section ".net 2" true ["0 0 wire_c"; "1 0 wire_c"]))
  (call (DeviceConfig.process_net (section ".net 1" true ["0 0 wire_b"]))
  (call (DeviceConfig.process_net (section ".net 0" true ["0 0 wire_a"]))
  (call (DeviceConfig.process_io_tile (section ".io_tile 1 0" true []))
  (call (DeviceConfig.process_logic_tile (section ".logic_tile 0 0" true []))
  (call (DeviceConfig.process_io_tile_bit_config io_tile_bits)
  (call (DeviceConfig.process_logic_tile_bit_config logic_tile_bits)
     device_2x2))))))).

Definition frozen : res DeviceConfig.t := call DeviceConfig.freeze building.

(** The text of a file with the given lines. *)
Definition text (lines : list string) : string :=
  fold_right (fun l s => l ++ DeviceConfig.nl ++ s) EmptyString lines.

(** A bitstream for the device: in the logic tile the carry and clock bits,
    the routing switch at pattern 01, the column buffer control 5 and the
    first lookup cell 3; in the IO tile the column buffer control 2. *)
Definition configuration : string :=
  text [".device 1k";
        ".logic_tile 0 0";
        "1110000000000000";
        "1010000000000000";
        "1100000000000000";
        ".io_tile 1 0";
        "010000000";
        "000000000";
        "000000000";
        "000000000"].

(** The frozen device, configured by decoding [configuration]. *)
Definition configured : res DeviceConfig.t :=
  call (DeviceConfig.process_bitstream configuration) frozen.

(** Its logic tile. *)
Definition logic_tile : LogicTile.t :=
  match logic_tile_at (built configured) 0 0 with
  | Some t => t
  | None => LogicTile.init 0 0 0 None
  end.

(** The logic tile of the frozen device before configuration. *)
Definition blank_logic_tile : LogicTile.t :=
  match logic_tile_at (built frozen) 0 0 with
  | Some t => t
  | None => LogicTile.init 0 0 0 None
  end.

(** Its IO tile. *)
Definition io_tile : IoTile.t :=
  match io_tile_at (built configured) 1 0 with
  | Some t => t
  | None => IoTile.init 0 0 0 None
  end.

(** The routing switch of the logic tile of [building]: nets 0 and 1 (the
    objects 2 and 3) at the patterns 01 and 10, towards net 2. *)
Definition switch : RoutingResource.t :=
  RoutingResource.init (Some 4%nat) [(2, 0); (3, 0)] [(Some 2%nat, 1); (Some 3%nat, 2)].

(** A buffer whose section gives net 0 the pattern 0: the resource that
    [.buffer 0 0 2 B0[4]] with the lines [0 0] and [1 1] adds. *)
Definition zero_buffer : RoutingResource.t :=
  RoutingResource.init (Some 4%nat) [(4, 0)] [(Some 2%nat, 0); (Some 3%nat, 1)].

End Fixture.

(** ** Numerals and bit addresses, as text *)

(** A string of decimal digits. *)
Fixpoint all_digits (s : string) : bool :=
  match s with
  | EmptyString => true
  | String c r => PyStr.is_digit c && all_digits r
  end.

Definition numeral (s : string) : Prop := s <> EmptyString /\ all_digits s = true.

(** The address of a configuration bit as the chipdb writes it:
    [B<row>[<column>]]. *)
Definition bit_address (x y : nat) : string :=
  "B" ++ PyStr.of_nat y ++ "[" ++ PyStr.of_nat x ++ "]".

(** ** IO tiles, encoded and decoded *)

(** An IO tile the code can encode and decode.  [c0 :: cs] are the
    coordinates its schema binds to the column buffer control:
    [generate_bitstream] writes at [c0] only, [process_bitstream] reads all
    of them, so the coordinates [cs] are coordinates of the rectangle bound
    to nothing that is written. *)
Definition io_tile_ok (t : IoTile.t) (cfg : IoTileBitConfig.t) (c0 : Coord) (cs : list Coord)
    : Prop :=
  IoTile._bit_config t = Some cfg
  /\ IoTileBitConfig.col_buf_ctrl_set_bits cfg = c0 :: cs
  /\ settings_ok (IoTileBitConfig.width cfg) (IoTileBitConfig.height cfg)
       (io_settings t c0 cfg ++ resource_settings (IoTile.base t))
  /\ Forall (in_grid (IoTileBitConfig.width cfg) (IoTileBitConfig.height cfg)) cs
  /\ NoDup (cs ++ List.concat (map setting_coords
                     (io_settings t c0 cfg ++ resource_settings (IoTile.base t))))
  /\ Forall resource_ok (tile_resources (Io t)).

Definition io_same_topology (t t' : IoTile.t) : Prop :=
  IoTile._bit_config t' = IoTile._bit_config t
  /\ disconnected (IoTile.base t') = disconnected (IoTile.base t).

(** The IO tile with its column buffer control replaced by its truth
    value, 0 or 1. *)
Definition io_truth (t : IoTile.t) : IoTile.t :=
  snd (IoTile.set_col_buf_ctrl (Z.b2z (truthy (IoTile.col_buf_ctrl t))) t).

(** ** Deciding the side conditions of the round trips *)

Definition coord_eqb (a b : Coord) : bool := (fst a =? fst b) && (snd a =? snd b).

(** No element of the list occurs twice, for the equality test [eqb]. *)
Fixpoint distinctb {A} (eqb : A -> A -> bool) (l : list A) : bool :=
  match l with
  | [] => true
  | a :: r => negb (existsb (eqb a) r) && distinctb eqb r
  end.

Definition in_gridb (w h : Z) (c : Coord) : bool :=
  (0 <=? fst c) && (fst c <? w) && (0 <=? snd c) && (snd c <? h).

Definition settings_okb (w h : Z) (ss : list setting) : bool :=
  forallb (in_gridb w h) (List.concat (map setting_coords ss))
  && distinctb coord_eqb (List.concat (map setting_coords ss))
  && forallb (fun s => match s with
                       | Flag _ _ => true
                       | Bits coords v =>
                           (0 <=? v) && (v <? 2 ^ Z.of_nat (List.length coords))
                       end) ss.

Definition resource_okb (r : RoutingResource.t) : bool :=
  distinctb NetRef_eqb (candidates r)
  && distinctb Z.eqb (map snd (RoutingResource._src_net_to_bit_vals_dict r))
  && forallb (fun p => (0 <? p)
                       && (p <? 2 ^ Z.of_nat (List.length
                                                (RoutingResource._config_bit_coordinates r))))
       (map snd (RoutingResource._src_net_to_bit_vals_dict r))
  && (is_None (RoutingResource._connection r)
      || existsb (NetRef_eqb (RoutingResource._connection r)) (candidates r)).

(** ** More sample devices *)

Module Sample.

(** The IO tile of the frozen device of [Fixture], before configuration. *)
Definition blank_io_tile : IoTile.t :=
  match io_tile_at (Fixture.built Fixture.frozen) 1 0 with
  | Some t => t
  | None => IoTile.init 0 0 0 None
  end.

Definition io_schema : IoTileBitConfig.t :=
  IoTileBitConfig.mk 9 4
    [(0, 0); (1, 0); (2, 0); (3, 0); (4, 0); (5, 0); (6, 0); (7, 0)]
    [(0, 1); (1, 1); (2, 1); (3, 1); (4, 1); (5, 1)]
    [(0, 2); (1, 2); (2, 2); (3, 2); (4, 2); (5, 2)]
    (6, 1) (7, 1) (6, 2) (7, 2) (8, 1) (8, 2) (8, 0)
    [(0, 3); (1, 3); (2, 3); (3, 3); (4, 3); (5, 3); (6, 3); (7, 3); (8, 3)].

Definition ramb_tile_bits : FileSection.t :=
  Fixture.section ".ramb_tile_bits 10 2" true
    ["ColBufCtrl.glb_netwk_0 B0[0]"; "ColBufCtrl.glb_netwk_1 B0[1]";
     "ColBufCtrl.glb_netwk_2 B0[2]"; "ColBufCtrl.glb_netwk_3 B0[3]";
     "ColBufCtrl.glb_netwk_4 B0[4]"; "ColBufCtrl.glb_netwk_5 B0[5]";
     "ColBufCtrl.glb_netwk_6 B0[6]"; "ColBufCtrl.glb_netwk_7 B0[7]";
     "NegClk B0[8]"; "RamConfig.PowerUp B0[9]"].

Definition ramt_tile_bits : FileSection.t :=
  Fixture.section ".ramt_tile_bits 9 2" true
    ["NegClk B0[0]";
     "RamConfig.CBIT_0 B0[1]"; "RamConfig.CBIT_1 B0[2]";
     "RamConfig.CBIT_2 B0[3]"; "RamConfig.CBIT_3 B0[4]";
     "RamCascade.CBIT_4 B0[5]"; "RamCascade.CBIT_5 B0[6]";
     "RamCascade.CBIT_6 B0[7]"; "RamCascade.CBIT_7 B0[8]"].

(** A device of one column and two rows: the read side of a block RAM at
    (0,0) with a buffer, the write side at (0,1) with a routing switch, two
    nets. *)
Definition ram_building : res DeviceConfig.t :=
  Fixture.call (DeviceConfig.process_routing_switch
          (Fixture.section ".routing 0 1 0 B1[2] B1[3]" true ["10 1"; "11 0"]))
  (Fixture.call (DeviceConfig.process_buffer
          (Fixture.section ".buffer 0 0 1 B1[0] B1[1]" true ["01 0"]))
  (Fixture.call (DeviceConfig.process_net
          (Fixture.section ".net 1" true ["0 1 ram_b"]))
  (Fixture.call (DeviceConfig.process_net
          (Fixture.section ".net 0" true ["0 0 ram_a"; "0 1 ram_a"]))
  (Fixture.call (DeviceConfig.process_ramt_tile (Fixture.section ".ramt_tile 0 1" true []))
  (Fixture.call (DeviceConfig.process_ramb_tile (Fixture.section ".ramb_tile 0 0" true []))
  (Fixture.call (DeviceConfig.process_ramt_tile_bit_config ramt_tile_bits)
  (Fixture.call (DeviceConfig.process_ramb_tile_bit_config ramb_tile_bits)
     (DeviceConfig.init (Fixture.section ".device 8k 1 2 2" true []))))))))).

Definition ram_frozen : res DeviceConfig.t := Fixture.call DeviceConfig.freeze ram_building.

(** A bitstream for it: in the read side the column buffer control 5, both
    flags and the buffer at pattern 01; in the write side the clock flag, the
    configuration 10, the cascade 3 and the routing switch at pattern 11. *)
Definition ram_configuration : string :=
  Fixture.text [".device 8k";
                ".ramb_tile 0 0";
                "1010000011";
                "0100000000";
                ".ramt_tile 0 1";
                "101011100";
                "001100000"].

Definition ram_configured : res DeviceConfig.t :=
  Fixture.call (DeviceConfig.process_bitstream ram_configuration) ram_frozen.

Definition ramb_tile_of (d : DeviceConfig.t) : RambTile.t :=
  match cell (DeviceConfig._tiles d) 0 0 with
  | Some (Some (Ramb t)) => t
  | _ => RambTile.init 0 0 0 None
  end.

Definition ramt_tile_of (d : DeviceConfig.t) : RamtTile.t :=
  match cell (DeviceConfig._tiles d) 0 1 with
  | Some (Some (Ramt t)) => t
  | _ => RamtTile.init 0 0 0 None
  end.

Definition ramb_tile : RambTile.t := ramb_tile_of (Fixture.built ram_configured).
Definition blank_ramb_tile : RambTile.t := ramb_tile_of (Fixture.built ram_frozen).
Definition ramt_tile : RamtTile.t := ramt_tile_of (Fixture.built ram_configured).
Definition blank_ramt_tile : RamtTile.t := ramt_tile_of (Fixture.built ram_frozen).

Definition ramb_schema : RambTileBitConfig.t :=
  RambTileBitConfig.mk 10 2
    [(0, 0); (1, 0); (2, 0); (3, 0); (4, 0); (5, 0); (6, 0); (7, 0)] (8, 0) (9, 0).

Definition ramt_schema : RamtTileBitConfig.t :=
  RamtTileBitConfig.mk 9 2 (0, 0)
    [(1, 0); (2, 0); (3, 0); (4, 0)] [(5, 0); (6, 0); (7, 0); (8, 0)].


End Sample.

(** ** The lines of a file, as [read_file] sorts them *)



(** ** What the methods of the device keep *)

(** The method [m] keeps the relation [R] between the device before the
    call and the device as the call leaves it, whether it returns or
    raises. *)
Definition keeps {A} (R : DeviceConfig.t -> DeviceConfig.t -> Prop)
    (m : St DeviceConfig.t A) : Prop :=
  forall d, R d (snd (m d)).

(** The same for a method of a tile. *)
Definition tile_keeps {A} (T : tile -> tile -> Prop) (m : St tile A) : Prop :=
  forall tl, T tl (snd (m tl)).

(** The length of every row of the grid and the length of the net array. *)
Definition dimensions (d : DeviceConfig.t) : list nat * nat :=
  (map (@List.length (option tile)) (DeviceConfig._tiles d),
   List.length (DeviceConfig._nets d)).

Definition same_dimensions (d d' : DeviceConfig.t) : Prop := dimensions d' = dimensions d.

(** The wire registry holds one wire per name, under its name. *)
Definition wires_by_name (d : DeviceConfig.t) : Prop :=
  NoDup (PyDict.keys (DeviceConfig._wires d))
  /\ forall name w, In (name, w) (DeviceConfig._wires d) -> Wire._name w = name.

(** The nets of the device are as before. *)
Definition same_nets (d d' : DeviceConfig.t) : Prop :=
  DeviceConfig._nets d' = DeviceConfig._nets d.

(** Every wire registered stays registered, and the registry stays keyed by
    name. *)
Definition registry_grows (d d' : DeviceConfig.t) : Prop :=
  (forall name w, In (name, w) (DeviceConfig._wires d) -> In (name, w) (DeviceConfig._wires d'))
  /\ (wires_by_name d -> wires_by_name d').

Definition any_tile (tl tl' : tile) : Prop := True.

(** [name in self._wires] *)
Definition registered (d : DeviceConfig.t) (name : string) : bool :=
  PyDict.contains String.eqb (DeviceConfig._wires d) name.

(** ** Building the device from a chipdb ([chipdbreader.py]) *)

Module ChipdbReader.

(** How [_process_chipdb_config] ends when it does not return: with one of
    its own exceptions (the source raises [Exception] with a message) or with
    the exception a call on the device raised. *)
Inductive error : Type :=
| InvalidSectionType (section_type : string)  (* "Invalid config section type: " + section_type *)
| DeviceSectionNotFound                        (* "Device config section not found" *)
| LogicTileBitsNotFound                        (* "Logic tile bit config not found" *)
| IoTileBitsNotFound                           (* "IO tile bit config not found" *)
| RambTileBitsNotFound                         (* "Ramb tile bit config not found" *)
| RamtTileBitsNotFound                         (* "Ramt tile bit config not found" *)
| Raised (e : exn).

Definition outcome (A : Type) : Type := (error + A)%type.

Definition and_then {A B} (c : outcome A) (k : A -> outcome B) : outcome B :=
  match c with
  | inl e => inl e
  | inr a => k a
  end.

(** The local variables of [_process_chipdb_config] it reads after its first
    loop (the lists it declares for the section types it passes over stay
    empty and are never read). *)
Record sorted : Type := mk_sorted {
  io_tile_config_sections : list FileSection.t;
  logic_tile_config_sections : list FileSection.t;
  ramb_tile_config_sections : list FileSection.t;
  ramt_tile_config_sections : list FileSection.t;
  net_config_sections : list FileSection.t;
  buffer_config_sections : list FileSection.t;
  routing_switch_config_sections : list FileSection.t;
  device_config_section : option FileSection.t;
  logic_tile_bits_config_section : option FileSection.t;
  io_tile_bits_config_section : option FileSection.t;
  ramb_tile_bits_config_section : option FileSection.t;
  ramt_tile_bits_config_section : option FileSection.t
}.

Definition unsorted : sorted :=
  mk_sorted [] [] [] [] [] [] [] None None None None None.

(** [re.match("dsp[0..3]_tile_bits", section_type)]: the class [[0..3]]
    holds the characters [0], [.] and [3]. *)
Definition dsp_tile_bits_match (section_type : string) : bool :=
  match PyStr.strip_prefix "dsp" section_type with
  | Some (String c r) =>
      (Ascii.eqb c "0" || Ascii.eqb c "." || Ascii.eqb c "3")
      && PyStr.startswith r "_tile_bits"
  | _ => false
  end.

(** The body of the first loop. *)
Definition sort_section (s : sorted) (section : FileSection.t) : outcome sorted :=
  let section_type := FileSection.get_type section in
  let '(mk_sorted io logic ramb ramt net buffer routing device logic_bits io_bits
          ramb_bits ramt_bits) := s in
  if String.eqb section_type "device" then
    inr (mk_sorted io logic ramb ramt net buffer routing (Some section) logic_bits io_bits
           ramb_bits ramt_bits)
  else if String.eqb section_type "pins" then inr s
  else if String.eqb section_type "gbufin" then inr s
  else if String.eqb section_type "gbufpin" then inr s
  else if String.eqb section_type "iolatch" then inr s
  else if String.eqb section_type "ieren" then inr s
  else if String.eqb section_type "colbuf" then inr s
  else if String.eqb section_type "io_tile" then
    inr (mk_sorted (io ++ [section]) logic ramb ramt net buffer routing device logic_bits
           io_bits ramb_bits ramt_bits)
  else if String.eqb section_type "logic_tile" then
    inr (mk_sorted io (logic ++ [section]) ramb ramt net buffer routing device logic_bits
           io_bits ramb_bits ramt_bits)
  else if String.eqb section_type "ramb_tile" then
    inr (mk_sorted io logic (ramb ++ [section]) ramt net buffer routing device logic_bits
           io_bits ramb_bits ramt_bits)
  else if String.eqb section_type "ramt_tile" then
    inr (mk_sorted io logic ramb (ramt ++ [section]) net buffer routing device logic_bits
           io_bits ramb_bits ramt_bits)
  else if String.eqb section_type "ipcon_tile" then inr s
  else if String.eqb section_type "io_tile_bits" then
    inr (mk_sorted io logic ramb ramt net buffer routing device logic_bits (Some section)
           ramb_bits ramt_bits)
  else if String.eqb section_type "logic_tile_bits" then
    inr (mk_sorted io logic ramb ramt net buffer routing device (Some section) io_bits
           ramb_bits ramt_bits)
  else if String.eqb section_type "ramb_tile_bits" then
    inr (mk_sorted io logic ramb ramt net buffer routing device logic_bits io_bits
           (Some section) ramt_bits)
  else if String.eqb section_type "ramt_tile_bits" then
    inr (mk_sorted io logic ramb ramt net buffer routing device logic_bits io_bits
           ramb_bits (Some section))
  else if dsp_tile_bits_match section_type then inr s
  else if String.eqb section_type "ipcon_tile_bits" then inr s
  else if String.eqb section_type "extra_cell" then inr s
  else if String.eqb section_type "extra_bits" then inr s
  else if String.eqb section_type "net" then
    inr (mk_sorted io logic ramb ramt (net ++ [section]) buffer routing device logic_bits
           io_bits ramb_bits ramt_bits)
  else if String.eqb section_type "buffer" then
    inr (mk_sorted io logic ramb ramt net (buffer ++ [section]) routing device logic_bits
           io_bits ramb_bits ramt_bits)
  else if String.eqb section_type "routing" then
    inr (mk_sorted io logic ramb ramt net buffer (routing ++ [section]) device logic_bits
           io_bits ramb_bits ramt_bits)
  else inl (InvalidSectionType section_type).

(** [for section in config_sections: ...] *)
Fixpoint sort_sections (s : sorted) (config_sections : list FileSection.t) : outcome sorted :=
  match config_sections with
  | [] => inr s
  | section :: rest => and_then (sort_section s section) (fun s' => sort_sections s' rest)
  end.

(** [device_config.m(...)]: the device is a local object, an exception
    leaves nothing of it. *)
Definition call (m : St DeviceConfig.t unit) (d : DeviceConfig.t) : outcome DeviceConfig.t :=
  match m d with
  | (inl e, _) => inl (Raised e)
  | (inr _, d') => inr d'
  end.

(** [for section in sections: device_config.m(section)] *)
Fixpoint call_each (m : FileSection.t -> St DeviceConfig.t unit)
    (sections : list FileSection.t) (d : DeviceConfig.t) : outcome DeviceConfig.t :=
  match sections with
  | [] => inr d
  | section :: rest => and_then (call (m section) d) (call_each m rest)
  end.

(** [if section is None: raise ...], then the call on the section. *)
Definition required (section : option FileSection.t) (missing : error)
    (m : FileSection.t -> St DeviceConfig.t unit) (d : DeviceConfig.t)
    : outcome DeviceConfig.t :=
  match section with
  | None => inl missing
  | Some section => call (m section) d
  end.

Definition _process_chipdb_config (config_sections : list FileSection.t)
    : outcome DeviceConfig.t :=
  and_then (sort_sections unsorted config_sections) (fun s =>
  and_then
    (match device_config_section s with
     | None => inl DeviceSectionNotFound
     | Some section =>
         match DeviceConfig.init section with
         | inl e => inl (Raised e)
         | inr d => inr d
         end
     end) (fun d =>
  and_then (required (logic_tile_bits_config_section s) LogicTileBitsNotFound
              DeviceConfig.process_logic_tile_bit_config d) (fun d =>
  and_then (required (io_tile_bits_config_section s) IoTileBitsNotFound
              DeviceConfig.process_io_tile_bit_config d) (fun d =>
  and_then (required (ramb_tile_bits_config_section s) RambTileBitsNotFound
              DeviceConfig.process_ramb_tile_bit_config d) (fun d =>
  and_then (required (ramt_tile_bits_config_section s) RamtTileBitsNotFound
              DeviceConfig.process_ramt_tile_bit_config d) (fun d =>
  and_then (call_each DeviceConfig.process_logic_tile (logic_tile_config_sections s) d) (fun d =>
  and_then (call_each DeviceConfig.process_io_tile (io_tile_config_sections s) d) (fun d =>
  and_then (call_each DeviceConfig.process_ramb_tile (ramb_tile_config_sections s) d) (fun d =>
  and_then (call_each DeviceConfig.process_ramt_tile (ramt_tile_config_sections s) d) (fun d =>
  and_then (call_each DeviceConfig.process_net (net_config_sections s) d) (fun d =>
  and_then (call_each DeviceConfig.process_routing_switch
              (routing_switch_config_sections s) d) (fun d =>
  and_then (call_each DeviceConfig.process_buffer (buffer_config_sections s) d) (fun d =>
  call DeviceConfig.freeze d))))))))))))).

(** [create_device_config(path)], on the text of the file at [path]. *)
Definition create_device_config (text : string) : outcome DeviceConfig.t :=
  match read_file text true with
  | inl e => inl (Raised e)
  | inr config_sections => _process_chipdb_config config_sections
  end.

End ChipdbReader.

(** The section types the first loop of [_process_chipdb_config] accepts. *)
Definition accepted_type (section_type : string) : bool :=
  existsb (String.eqb section_type)
    ["device"; "pins"; "gbufin"; "gbufpin"; "iolatch"; "ieren"; "colbuf"; "io_tile";
     "logic_tile"; "ramb_tile"; "ramt_tile"; "ipcon_tile"; "io_tile_bits";
     "logic_tile_bits"; "ramb_tile_bits"; "ramt_tile_bits"; "ipcon_tile_bits";
     "extra_cell"; "extra_bits"; "net"; "buffer"; "routing"]
  || ChipdbReader.dsp_tile_bits_match section_type.

(** The four schema slots of the device are bound. *)
Definition schemas_bound (d : DeviceConfig.t) : Prop :=
  schema_ingested KLogic d = true /\ schema_ingested KIo d = true
  /\ schema_ingested KRamb d = true /\ schema_ingested KRamt d = true.

(** Every tile placed in the grid holds its schema. *)
Definition tiles_bound (d : DeviceConfig.t) : Prop :=
  forall tl, placed d tl -> schema_missing tl = false.

Definition stays_bound (d d' : DeviceConfig.t) : Prop :=
  schemas_bound d /\ tiles_bound d -> schemas_bound d' /\ tiles_bound d'.

Definition same_schema (tl tl' : tile) : Prop := schema_missing tl' = schema_missing tl.

(** A chipdb for the device of [Fixture], its sections in another order than
    the calls of [Fixture.building]: placements before schemas, a net after
    the routing switch that names it, comments and blank lines. *)
Definition chipdb_1k : string :=
  Fixture.text
    ["# a 2x2 device";
     ".device 1k 2 2 3";
     "";
     ".routing 0 0 2 B0[3] B0[2]";
     "01 0";
     "10 1";
     ".logic_tile 0 0";
     ".io_tile 1 0";
     ".net 0";
     "0 0 wire_a";
     ".net 1";
     "0 0 wire_b";
     ".pins tq144";
     "1 0 1 0";
     ".logic_tile_bits 16 3";
     "CarryInSet B0[0]"; "NegClk B0[1]";
     "ColBufCtrl.glb_netwk_0 B1[0]"; "ColBufCtrl.glb_netwk_1 B1[1]";
     "ColBufCtrl.glb_netwk_2 B1[2]"; "ColBufCtrl.glb_netwk_3 B1[3]";
     "ColBufCtrl.glb_netwk_4 B1[4]"; "ColBufCtrl.glb_netwk_5 B1[5]";
     "ColBufCtrl.glb_netwk_6 B1[6]"; "ColBufCtrl.glb_netwk_7 B1[7]";
     "LC_0 B2[0] B2[1]"; "LC_1 B2[2] B2[3]"; "LC_2 B2[4] B2[5]"; "LC_3 B2[6] B2[7]";
     "LC_4 B2[8] B2[9]"; "LC_5 B2[10] B2[11]"; "LC_6 B2[12] B2[13]";
     "LC_7 B2[14] B2[15]";
     ".io_tile_bits 9 4";
     "ColBufCtrl.glb_netwk_0 B0[0]"; "ColBufCtrl.glb_netwk_1 B0[1]";
     "ColBufCtrl.glb_netwk_2 B0[2]"; "ColBufCtrl.glb_netwk_3 B0[3]";
     "ColBufCtrl.glb_netwk_4 B0[4]"; "ColBufCtrl.glb_netwk_5 B0[5]";
     "ColBufCtrl.glb_netwk_6 B0[6]"; "ColBufCtrl.glb_netwk_7 B0[7]";
     "IOB_0.PINTYPE_0 B1[0]"; "IOB_0.PINTYPE_1 B1[1]"; "IOB_0.PINTYPE_2 B1[2]";
     "IOB_0.PINTYPE_3 B1[3]"; "IOB_0.PINTYPE_4 B1[4]"; "IOB_0.PINTYPE_5 B1[5]";
     "IOB_1.PINTYPE_0 B2[0]"; "IOB_1.PINTYPE_1 B2[1]"; "IOB_1.PINTYPE_2 B2[2]";
     "IOB_1.PINTYPE_3 B2[3]"; "IOB_1.PINTYPE_4 B2[4]"; "IOB_1.PINTYPE_5 B2[5]";
     "Icegate B1[6]"; "IoCtrl.IE_0 B1[7]"; "IoCtrl.IE_1 B2[6]"; "IoCtrl.LVDS B2[7]";
     "IoCtrl.REN_0 B1[8]"; "IoCtrl.REN_1 B2[8]"; "NegClk B0[8]";
     "PLL.PLLCONFIG_1 B3[0]"; "PLL.PLLCONFIG_2 B3[1]"; "PLL.PLLCONFIG_3 B3[2]";
     "PLL.PLLCONFIG_4 B3[3]"; "PLL.PLLCONFIG_5 B3[4]"; "PLL.PLLCONFIG_6 B3[5]";
     "PLL.PLLCONFIG_7 B3[6]"; "PLL.PLLCONFIG_8 B3[7]"; "PLL.PLLCONFIG_9 B3[8]";
     ".ramb_tile_bits 10 2";
     "ColBufCtrl.glb_netwk_0 B0[0]"; "ColBufCtrl.glb_netwk_1 B0[1]";
     "ColBufCtrl.glb_netwk_2 B0[2]"; "ColBufCtrl.glb_netwk_3 B0[3]";
     "ColBufCtrl.glb_netwk_4 B0[4]"; "ColBufCtrl.glb_netwk_5 B0[5]";
     "ColBufCtrl.glb_netwk_6 B0[6]"; "ColBufCtrl.glb_netwk_7 B0[7]";
     "NegClk B0[8]"; "RamConfig.PowerUp B0[9]";
     ".ramt_tile_bits 9 2";
     "NegClk B0[0]";
     "RamConfig.CBIT_0 B0[1]"; "RamConfig.CBIT_1 B0[2]";
     "RamConfig.CBIT_2 B0[3]"; "RamConfig.CBIT_3 B0[4]";
     "RamCascade.CBIT_4 B0[5]"; "RamCascade.CBIT_5 B0[6]";
     "RamCascade.CBIT_6 B0[7]"; "RamCascade.CBIT_7 B0[8]";
     ".net 2";
     "0 0 wire_c";
     "1 0 wire_c"].

(** The sections of [chipdb_1k] as [read_file] returns them, and the device
    built from them. *)
Definition chipdb_1k_sections : list FileSection.t :=
  match read_file chipdb_1k true with
  | inr sections => sections
  | inl _ => []
  end.

Definition chipdb_1k_device : DeviceConfig.t :=
  match ChipdbReader.create_device_config chipdb_1k with
  | inr d => d
  | inl _ => Fixture.empty
  end.

(** A chipdb of the 5k family in what matters here: it has a section for the
    bits of each of its four DSP tiles. *)
Definition chipdb_5k_sections : list FileSection.t :=
  match read_file
          (Fixture.text [".device 5k 2 2 3";
                         ".dsp0_tile_bits 54 16";
                         ".dsp1_tile_bits 54 16";
                         ".dsp2_tile_bits 54 16";
                         ".dsp3_tile_bits 54 16"]) true with
  | inr sections => sections
  | inl _ => []
  end.

(** ** The pattern of a candidate, digit by digit *)

(** Whether a character of a pattern literal is the digit 1. *)
Definition is_one (ch : ascii) : bool := Ascii.eqb ch "1".

(** The number a run of binary digits denotes. *)
Fixpoint bits_value (s : string) (acc : Z) : Z :=
  match s with
  | EmptyString => acc
  | String c r => bits_value r (acc * 2 + PyStr.digit_value c)
  end.

(** What a body line of a routing or buffer section names: its pattern and
    the net of its source index, as [candidate_line] reads them. *)
Definition candidate_of (d : DeviceConfig.t) (l : line) : res (NetRef * Z) :=
  (l0 <- PyList.get l 0;;
   config_bit_values <- PyStr.int2 l0;;
   src_net_idx <- DeviceConfig.int_at l 1;;
   src <- DeviceConfig.net_ref d src_net_idx;;
   ret (src, config_bit_values))%res.

(** ** The device, encoded and decoded *)



(** What a tile comes back as from its encoding: itself, an IO tile with
    the truth value of its column buffer control. *)
Definition decoded (tl : tile) : tile :=
  match tl with
  | Io t => Io (io_truth t)
  | _ => tl
  end.


















(** * Properties *)

(** ** Dictionaries *)

Lemma NetRef_eqb_eq (a b : NetRef) : NetRef_eqb a b = true <-> a = b.
Proof.
  destruct a as [m|], b as [n|]; simpl; split; intro H;
    try discriminate; try reflexivity.
  - apply Nat.eqb_eq in H. now subst.
  - inversion H. apply Nat.eqb_refl.
Qed.

Lemma NetRef_eqb_refl (a : NetRef) : NetRef_eqb a a = true.
Proof. now apply NetRef_eqb_eq. Qed.

Section DictFacts.
Context {K V : Type}.
Variable eqb : K -> K -> bool.
Hypothesis eqb_eq : forall a b, eqb a b = true <-> a = b.

Lemma dict_get_In (d : PyDict.t K V) (k : K) (v : V) :
  PyDict.get eqb d k = Some v -> In (k, v) d.
Proof.
  induction d as [|[k' v'] d IH]; simpl; [discriminate|].
  destruct (eqb k' k) eqn:E.
  - intro H. inversion H. subst. apply eqb_eq in E. subst. now left.
  - intro H. right. now apply IH.
Qed.

Lemma dict_contains_keys (d : PyDict.t K V) (k : K) :
  PyDict.contains eqb d k = true <-> In k (PyDict.keys d).
Proof.
  unfold PyDict.contains, PyDict.keys.
  induction d as [|[k' v'] d IH]; simpl.
  - split; [discriminate|tauto].
  - destruct (eqb k' k) eqn:E.
    + apply eqb_eq in E. subst. split; auto.
    + split; intro H.
      * right. now apply IH.
      * destruct H as [H|H]; [|now apply IH].
        subst. assert (eqb k k = true) by now apply eqb_eq. congruence.
Qed.

Lemma dict_In_get (d : PyDict.t K V) (k : K) (v : V) :
  NoDup (PyDict.keys d) -> In (k, v) d -> PyDict.get eqb d k = Some v.
Proof.
  unfold PyDict.keys.
  induction d as [|[k' v'] d IH]; simpl; [tauto|].
  intros ND [H|H].
  - inversion H. subst.
    assert (E : eqb k k = true) by now apply eqb_eq. now rewrite E.
  - inversion ND as [|? ? Hn ND']. subst.
    destruct (eqb k' k) eqn:E.
    + apply eqb_eq in E. subst. exfalso. apply Hn.
      change k with (fst (k, v)). now apply in_map.
    + now apply IH.
Qed.

(** Assignment keeps each key once. *)
Lemma dict_set_keys (d : PyDict.t K V) (k : K) (v : V) :
  PyDict.keys (PyDict.set eqb d k v) =
  if PyDict.contains eqb d k then PyDict.keys d else (PyDict.keys d ++ [k])%list.
Proof.
  unfold PyDict.contains, PyDict.keys.
  induction d as [|[k' v'] d IH]; simpl; [reflexivity|].
  destruct (eqb k' k) eqn:E; simpl; [reflexivity|].
  rewrite IH. now destruct (PyDict.get eqb d k).
Qed.

Lemma dict_set_NoDup (d : PyDict.t K V) (k : K) (v : V) :
  NoDup (PyDict.keys d) -> NoDup (PyDict.keys (PyDict.set eqb d k v)).
Proof.
  intro ND. rewrite dict_set_keys.
  destruct (PyDict.contains eqb d k) eqn:E; [assumption|].
  apply NoDup_app; [assumption| repeat constructor; simpl; tauto |].
  intros a Ha [Hb|[]]. subst.
  apply dict_contains_keys in Ha. congruence.
Qed.

End DictFacts.

(** ** Routing resources *)

Lemma find_pattern_In items v src :
  RoutingResource.find_pattern items v = Some src -> In (src, v) items.
Proof.
  induction items as [|[s p] items IH]; simpl; [discriminate|].
  destruct (p =? v) eqn:E.
  - intro H. inversion H. subst. apply Z.eqb_eq in E. subst. now left.
  - intro H. right. now apply IH.
Qed.

Lemma find_pattern_None items v :
  (forall src p, In (src, p) items -> p <> v) ->
  RoutingResource.find_pattern items v = None.
Proof.
  induction items as [|[s p] items IH]; simpl; [reflexivity|].
  intro H. destruct (p =? v) eqn:E.
  - apply Z.eqb_eq in E. exfalso. apply (H s p); auto.
  - apply IH. intros src q Hq. apply (H src q). now right.
Qed.

Lemma candidates_contains (r : RoutingResource.t) (src_net : NetRef) :
  In src_net (candidates r) <->
  PyDict.contains NetRef_eqb (RoutingResource._src_net_to_bit_vals_dict r) src_net = true.
Proof. symmetry. apply dict_contains_keys. exact NetRef_eqb_eq. Qed.

Lemma connect_unknown (r : RoutingResource.t) (src_net : NetRef) :
  ~ In src_net (candidates r) ->
  RoutingResource.connect src_net r = (raise UnknownSource, r).
Proof.
  intro H. unfold RoutingResource.connect.
  destruct (PyDict.contains NetRef_eqb (RoutingResource._src_net_to_bit_vals_dict r) src_net)
    eqn:E; [|reflexivity].
  exfalso. apply H. now apply candidates_contains.
Qed.

Lemma connect_candidate (r : RoutingResource.t) (src_net : NetRef) :
  In src_net (candidates r) ->
  RoutingResource.connect src_net r = (ret tt, RoutingResource.set_connection src_net r).
Proof.
  intro H. apply candidates_contains in H. unfold RoutingResource.connect. now rewrite H.
Qed.

(** C6.  [connect(src_net)] raises "Invalid source net" exactly when
    [src_net] is not a key of the candidate table, leaving the resource as it
    was, and otherwise makes [src_net] the connection whatever the connection
    was; [set_config_bits(0)] disconnects; [set_config_bits(v)] for a nonzero
    [v] that no candidate stores raises "Invalid routing resource bit config"
    and leaves the resource, so its connection, as it was. *)
Theorem routing_law (r : RoutingResource.t) :
  (forall src_net,
      ~ In src_net (candidates r) <->
      fst (RoutingResource.connect src_net r) = raise UnknownSource)
  /\ (forall src_net,
      ~ In src_net (candidates r) ->
      RoutingResource.connect src_net r = (raise UnknownSource, r))
  /\ (forall src_net,
      In src_net (candidates r) ->
      RoutingResource.connect src_net r = (ret tt, RoutingResource.set_connection src_net r)
      /\ RoutingResource._connection (snd (RoutingResource.connect src_net r)) = src_net)
  /\ (RoutingResource.set_config_bits 0 r = (ret tt, RoutingResource.set_connection None r)
      /\ RoutingResource._connection (snd (RoutingResource.set_config_bits 0 r)) = None)
  /\ (forall v,
      v <> 0 ->
      (forall src_net p,
          In (src_net, p) (PyDict.items (RoutingResource._src_net_to_bit_vals_dict r)) ->
          p <> v) ->
      RoutingResource.set_config_bits v r = (raise InvalidPattern, r)).
Proof.
  split; [|split; [|split; [|split]]].
  - intro s. split.
    + intro H. now rewrite connect_unknown.
    + intros H Hin. rewrite (connect_candidate _ _ Hin) in H. discriminate.
  - intros s H. now apply connect_unknown.
  - intros s H. rewrite (connect_candidate _ _ H). split; reflexivity.
  - split; reflexivity.
  - intros v Hv Hno. unfold RoutingResource.set_config_bits.
    apply Z.eqb_neq in Hv. rewrite Hv.
    now rewrite (find_pattern_None _ _ Hno).
Qed.

(** C10.  For a resource whose candidate table (a dictionary: each key once)
    stores the pattern 0 for the net [n]: [connect] to [n] succeeds;
    [get_config_bits] then returns 0, which is also what it returns for a
    disconnected resource; [set_config_bits] on the value so encoded
    disconnects; and no call of [set_config_bits], on any value and from any
    connection state, returns with the resource connected to [n]. *)
Theorem pattern_zero_candidate_lost (r : RoutingResource.t) (n : nat) :
  NoDup (candidates r) ->
  PyDict.get NetRef_eqb (RoutingResource._src_net_to_bit_vals_dict r) (Some n) = Some 0 ->
  let connected := snd (RoutingResource.connect (Some n) r) in
  fst (RoutingResource.connect (Some n) r) = ret tt
  /\ RoutingResource._connection connected = Some n
  /\ RoutingResource.get_config_bits connected = ret 0
  /\ RoutingResource.get_config_bits (snd (RoutingResource.disconnect r)) = ret 0
  /\ RoutingResource.set_config_bits 0 connected
     = (ret tt, RoutingResource.set_connection None connected)
  /\ (forall v c r',
        RoutingResource.set_config_bits v (RoutingResource.set_connection c r) = (ret tt, r') ->
        RoutingResource._connection r' <> Some n).
Proof.
  intros ND Hget connected. subst connected.
  unfold RoutingResource.connect, PyDict.contains. rewrite Hget. simpl.
  repeat split.
  - unfold RoutingResource.get_config_bits, PyDict.lookup. simpl. now rewrite Hget.
  - intros v c r'. unfold RoutingResource.set_config_bits.
    destruct (v =? 0) eqn:Ev.
    + intro H. inversion H. simpl. discriminate.
    + simpl.
      destruct (RoutingResource.find_pattern _ v) as [src|] eqn:Ef; [|discriminate].
      intro H. inversion H. simpl. intro Hs. subst src.
      apply find_pattern_In in Ef.
      apply (dict_In_get NetRef_eqb NetRef_eqb_eq) in Ef; [|exact ND].
      unfold PyDict.items in Ef. rewrite Hget in Ef. inversion Ef. subst. discriminate.
Qed.

(** The scenario of the specification: candidates net A at 01 and net B at
    10; an unlisted net is refused, a listed one replaces the connection,
    pattern 3 is refused and the connection to net B stays. *)
Lemma routing_law_witness :
  RoutingResource.connect (Some 9%nat) Fixture.switch = (raise UnknownSource, Fixture.switch)
  /\ RoutingResource.connect (Some 3%nat)
       (RoutingResource.set_connection (Some 2%nat) Fixture.switch)
     = (ret tt, RoutingResource.set_connection (Some 3%nat) Fixture.switch)
  /\ RoutingResource.set_config_bits 3
       (RoutingResource.set_connection (Some 3%nat) Fixture.switch)
     = (raise InvalidPattern, RoutingResource.set_connection (Some 3%nat) Fixture.switch).
Proof.
  split; [|split].
  - apply (proj1 (proj2 (routing_law Fixture.switch))).
    simpl. intros [H|[H|[]]]; discriminate.
  - apply (proj1 (proj2 (proj2
             (routing_law (RoutingResource.set_connection (Some 2%nat) Fixture.switch))))).
    simpl. right. left. reflexivity.
  - apply (proj2 (proj2 (proj2 (proj2
             (routing_law (RoutingResource.set_connection (Some 3%nat) Fixture.switch)))))).
    + discriminate.
    + simpl. intros s p [H|[H|[]]]; inversion H; discriminate.
Defined.

Lemma pattern_zero_candidate_lost_witness :
  RoutingResource.get_config_bits
    (snd (RoutingResource.connect (Some 2%nat) Fixture.zero_buffer)) = ret 0
  /\ RoutingResource._connection
       (snd (RoutingResource.set_config_bits 0
               (snd (RoutingResource.connect (Some 2%nat) Fixture.zero_buffer)))) = None.
Proof.
  assert (ND : NoDup (candidates Fixture.zero_buffer)).
  { simpl. repeat constructor; simpl; intuition discriminate. }
  pose proof (pattern_zero_candidate_lost Fixture.zero_buffer 2 ND eq_refl) as H.
  simpl in H. destruct H as (_ & _ & H3 & _ & H5 & _).
  split; [exact H3|]. simpl. reflexivity.
Defined.

(** The candidate table an ingested routing or buffer section produces is a
    dictionary: each source net once. *)
Lemma candidate_lines_NoDup d ls dict dict' :
  NoDup (PyDict.keys dict) ->
  DeviceConfig.for_lines (DeviceConfig.candidate_line d) dict ls = ret dict' ->
  NoDup (PyDict.keys dict').
Proof.
  revert dict. induction ls as [|l ls IH]; simpl; intros dict ND H.
  - inversion H. now subst.
  - unfold bind in H.
    destruct (DeviceConfig.candidate_line d dict l) as [e|dict1] eqn:E; [discriminate|].
    apply (IH dict1); [|exact H].
    unfold DeviceConfig.candidate_line, bind in E.
    destruct (PyList.get l 0); [discriminate|].
    destruct (PyStr.int2 _); [discriminate|].
    destruct (DeviceConfig.int_at l 1); [discriminate|].
    destruct (DeviceConfig.net_ref d _); [discriminate|].
    inversion E. apply dict_set_NoDup; [exact NetRef_eqb_eq|exact ND].
Qed.

Lemma parsed_resource_NoDup d section x y r :
  DeviceConfig.parse_routing_resource d section = ret (x, y, r) ->
  NoDup (candidates r).
Proof.
  unfold DeviceConfig.parse_routing_resource, bind.
  destruct (_ <? _)%nat; [discriminate|].
  repeat (match goal with
          | |- match ?c with inl _ => _ | inr _ => _ end = _ -> _ =>
              destruct c eqn:?; [discriminate|]
          end).
  intro H. inversion H. subst. unfold candidates. simpl.
  eapply candidate_lines_NoDup; [|eassumption]. constructor.
Qed.

(** ** Freeze *)



Lemma freeze_sets_flag (d : DeviceConfig.t) :
  DeviceConfig.is_frozen (snd (DeviceConfig.freeze d)) = true.
Proof.
  unfold DeviceConfig.freeze.
  destruct (st_each DeviceConfig.freeze_slot _) as [r nets]. reflexivity.
Qed.


(** The loop of [freeze] over the net array: it raises at the first slot
    that holds [None], and only then. *)
Lemma freeze_slots_outcome (nets : list (option Net.t)) :
  fst (st_each DeviceConfig.freeze_slot nets)
  = if DeviceConfig.has_None nets then raise AttributeError else ret tt.
Proof.
  induction nets as [|[n|] nets IH]; simpl; try reflexivity.
  destruct (st_each DeviceConfig.freeze_slot nets) as [r nets']. simpl in *. exact IH.
Qed.

Lemma has_None_In {A} (l : list (option A)) :
  DeviceConfig.has_None l = true <-> In None l.
Proof.
  unfold DeviceConfig.has_None. rewrite existsb_exists. split.
  - intros [[a|] [Hin Hx]]; [discriminate|exact Hin].
  - intro H. exists None. split; [exact H|reflexivity].
Qed.

(** C9.  [freeze] raises (an [AttributeError], from [None.freeze()]) when a
    slot of the net array still holds [None], and returns normally when
    every slot holds a net, whatever cells of the tile grid are empty; in
    both cases the device is left with its frozen flag set. *)
Theorem freeze_needs_every_net (d : DeviceConfig.t) :
  (In None (DeviceConfig._nets d) ->
   fst (DeviceConfig.freeze d) = raise AttributeError)
  /\ (~ In None (DeviceConfig._nets d) ->
      fst (DeviceConfig.freeze d) = ret tt)
  /\ DeviceConfig.is_frozen (snd (DeviceConfig.freeze d)) = true.
Proof.
  assert (E : fst (DeviceConfig.freeze d)
              = if DeviceConfig.has_None (DeviceConfig._nets d)
                then raise AttributeError else ret tt).
  { unfold DeviceConfig.freeze. simpl.
    rewrite <- freeze_slots_outcome.
    destruct (st_each DeviceConfig.freeze_slot (DeviceConfig._nets d)). reflexivity. }
  split; [|split].
  - intro H. apply has_None_In in H. now rewrite E, H.
  - intro H. rewrite E.
    destruct (DeviceConfig.has_None (DeviceConfig._nets d)) eqn:N; [|reflexivity].
    exfalso. apply H. now apply has_None_In.
  - apply freeze_sets_flag.
Qed.

(** The device of the specification's scenario declares three nets: frozen
    with net 2 never ingested, [freeze] raises; with the three nets
    ingested and two cells of the grid empty, it returns. *)
Lemma freeze_needs_every_net_witness :
  fst (DeviceConfig.freeze (Fixture.built Fixture.device_2x2)) = raise AttributeError
  /\ fst (DeviceConfig.freeze (Fixture.built Fixture.building)) = ret tt.
Proof.
  split.
  - apply (proj1 (freeze_needs_every_net (Fixture.built Fixture.device_2x2))).
    vm_compute. left. reflexivity.
  - apply (proj1 (proj2 (freeze_needs_every_net (Fixture.built Fixture.building)))).
    vm_compute. intros [H|[H|[H|[]]]]; discriminate.
Defined.

(** ** Python indexing *)

Lemma index_in_range (len : nat) (i : Z) :
  - Z.of_nat len <= i < Z.of_nat len ->
  PyList.index len i = Some (Z.to_nat (i mod Z.of_nat len)).
Proof.
  intro H. unfold PyList.index.
  destruct (0 <=? i) eqn:E0.
  - apply Z.leb_le in E0.
    assert (E1 : (i <? Z.of_nat len) = true) by (apply Z.ltb_lt; lia).
    rewrite E1. simpl. now rewrite Z.mod_small by lia.
  - apply Z.leb_gt in E0. simpl.
    assert (E1 : (i <? 0) = true) by (apply Z.ltb_lt; lia).
    assert (E2 : (- Z.of_nat len <=? i) = true) by (apply Z.leb_le; lia).
    rewrite E1, E2. simpl. f_equal. f_equal.
    apply Z.mod_unique with (q := -1); lia.
Qed.

Lemma index_out_of_range (len : nat) (i : Z) :
  i < - Z.of_nat len \/ Z.of_nat len <= i ->
  PyList.index len i = None.
Proof.
  intro H. unfold PyList.index.
  destruct (0 <=? i) eqn:E0, (i <? Z.of_nat len) eqn:E1,
           (i <? 0) eqn:E2, (- Z.of_nat len <=? i) eqn:E3; simpl; try reflexivity;
    try apply Z.leb_le in E0; try apply Z.leb_gt in E0;
    try apply Z.ltb_lt in E1; try apply Z.ltb_ge in E1;
    try apply Z.ltb_lt in E2; try apply Z.ltb_ge in E2;
    try apply Z.leb_le in E3; try apply Z.leb_gt in E3; lia.
Qed.

Lemma index_lt (len : nat) (i : Z) (n : nat) :
  PyList.index len i = Some n -> (n < len)%nat.
Proof.
  unfold PyList.index.
  destruct (0 <=? i) eqn:E0, (i <? Z.of_nat len) eqn:E1; simpl;
    try (intro H; inversion H; apply Z.leb_le in E0; apply Z.ltb_lt in E1; lia).
  all: destruct (i <? 0) eqn:E2, (- Z.of_nat len <=? i) eqn:E3; simpl; try discriminate;
    intro H; inversion H; apply Z.ltb_lt in E2; apply Z.leb_le in E3; lia.
Qed.

Lemma update_length {A} (l : list A) (n : nat) (v : A) :
  List.length (PyList.update l n v) = List.length l.
Proof.
  revert n. induction l as [|a l IH]; intros [|n]; simpl; auto.
Qed.

Lemma update_nth_same {A} (l : list A) (n : nat) (v : A) :
  (n < List.length l)%nat -> nth_error (PyList.update l n v) n = Some v.
Proof.
  revert n. induction l as [|a l IH]; intros [|n]; simpl; intro H; try lia; auto.
  apply IH. lia.
Qed.

Lemma update_nth_other {A} (l : list A) (n m : nat) (v : A) :
  m <> n -> nth_error (PyList.update l n v) m = nth_error l m.
Proof.
  revert n m. induction l as [|a l IH]; intros [|n] [|m]; simpl; intro H;
    try reflexivity; try congruence.
  apply IH. congruence.
Qed.

Lemma get_in_range {A} (l : list A) (i : Z) :
  - Z.of_nat (List.length l) <= i < Z.of_nat (List.length l) ->
  exists a, nth_error l (Z.to_nat (i mod Z.of_nat (List.length l))) = Some a
            /\ PyList.get l i = ret a.
Proof.
  intro H. unfold PyList.get. rewrite (index_in_range _ _ H).
  destruct (nth_error l _) as [a|] eqn:E.
  - exists a. split; reflexivity.
  - apply nth_error_None in E.
    assert (0 <= i mod Z.of_nat (List.length l) < Z.of_nat (List.length l))
      by (apply Z.mod_pos_bound; lia).
    lia.
Qed.

(** ** The grid *)

Section Grid.
Context {A : Type}.
Variables (tiles : list (list A)) (w h : Z).
Hypothesis shape : grid_shape tiles w h.


Lemma grid_set_in_range (x y : Z) (v : A) :
  - w <= x < w -> - h <= y < h ->
  exists tiles',
    DeviceConfig.grid_set tiles x y v = ret tiles'
    /\ grid_shape tiles' w h
    /\ cell tiles' (Z.to_nat (x mod w)) (Z.to_nat (y mod h)) = Some v
    /\ (forall i j, (i, j) <> (Z.to_nat (x mod w), Z.to_nat (y mod h)) ->
                    cell tiles' i j = cell tiles i j)
    /\ DeviceConfig.grid_get tiles' x y = ret v.
Proof.
  destruct shape as [Hh Hw]. intros Hx Hy.
  assert (Hy' : - Z.of_nat (List.length tiles) <= y < Z.of_nat (List.length tiles)) by lia.
  destruct (get_in_range tiles y Hy') as (row & Hnth & Hget).
  rewrite Hh in Hnth.
  assert (Hrow : Z.of_nat (List.length row) = w).
  { rewrite Forall_forall in Hw. apply Hw. eapply nth_error_In; eassumption. }
  assert (Hx' : - Z.of_nat (List.length row) <= x < Z.of_nat (List.length row)) by lia.
  set (i0 := Z.to_nat (x mod w)). set (j0 := Z.to_nat (y mod h)).
  assert (Hi0 : (i0 < List.length row)%nat).
  { subst i0. assert (0 <= x mod w < w) by (apply Z.mod_pos_bound; lia). lia. }
  assert (Hj0 : (j0 < List.length tiles)%nat).
  { subst j0. assert (0 <= y mod h < h) by (apply Z.mod_pos_bound; lia). lia. }
  exists (PyList.update tiles j0 (PyList.update row i0 v)).
  assert (Hc : cell (PyList.update tiles j0 (PyList.update row i0 v)) i0 j0 = Some v).
  { unfold cell. rewrite update_nth_same by exact Hj0. now apply update_nth_same. }
  split; [|split; [|split; [|split]]].
  - unfold DeviceConfig.grid_set, bind. rewrite Hget.
    unfold ret, PyList.set. rewrite (index_in_range _ _ Hx'). simpl.
    rewrite (index_in_range _ _ Hy').
    rewrite Hrow, Hh. reflexivity.
  - split.
    + now rewrite update_length.
    + rewrite Forall_forall in *. intros r Hr.
      destruct (In_nth_error _ _ Hr) as [j Hj].
      destruct (Nat.eq_dec j j0) as [->|Hne].
      * rewrite update_nth_same in Hj by exact Hj0. inversion Hj.
        now rewrite update_length.
      * rewrite update_nth_other in Hj by exact Hne.
        apply Hw. eapply nth_error_In; eassumption.
  - exact Hc.
  - intros i j Hij. unfold cell.
    destruct (Nat.eq_dec j j0) as [->|Hne].
    + rewrite update_nth_same by exact Hj0. fold j0 in Hnth. rewrite Hnth.
      apply update_nth_other. congruence.
    + now rewrite update_nth_other by exact Hne.
  - unfold DeviceConfig.grid_get, bind, PyList.get.
    rewrite update_length, (index_in_range _ _ Hy'), Hh. fold j0.
    rewrite update_nth_same by exact Hj0. unfold ret at 1.
    rewrite update_length, (index_in_range _ _ Hx'), Hrow. fold i0.
    now rewrite update_nth_same by exact Hi0.
Qed.

End Grid.

(** ** Tile placement *)












(** ** Schema ingestion *)

Lemma for_lines_app {S} (body : S -> line -> res S) (s : S) (ls1 ls2 : list line) :
  DeviceConfig.for_lines body s (ls1 ++ ls2)
  = bind (DeviceConfig.for_lines body s ls1)
         (fun s' => DeviceConfig.for_lines body s' ls2).
Proof.
  revert s. induction ls1 as [|l ls1 IH]; intro s; simpl; [reflexivity|].
  unfold bind at 1 3. destruct (body s l); [reflexivity|]. apply IH.
Qed.


Lemma set_length {A} (l l' : list A) (n : Z) (v : A) :
  PyList.set l n v = ret l' -> List.length l' = List.length l.
Proof.
  unfold PyList.set. destruct (PyList.index _ n); [|discriminate].
  intro H. inversion H. apply update_length.
Qed.

Lemma update_In {A} (l : list A) (n : nat) (v a : A) :
  In a (PyList.update l n v) -> a = v \/ In a l.
Proof.
  revert n. induction l as [|b l IH]; intros [|n]; simpl; try tauto.
  - intros [H|H]; auto.
  - intros [H|H]; auto. destruct (IH n H); auto.
Qed.







Arguments PyList.from : simpl never.



(** *** Logic tile *)



Lemma logic_init_shape : logic_shape DeviceConfig.logic_slots_init.
Proof. split; reflexivity. Qed.





(** *** IO tile *)



Lemma io_init_shape : io_shape DeviceConfig.io_slots_init.
Proof. repeat split; reflexivity. Qed.




(** *** Block-RAM tiles *)









Lemma ramt_init_shape : ramt_shape DeviceConfig.ramt_slots_init.
Proof. split; reflexivity. Qed.




(** *** The law of the four schema methods *)

Section SchemaLaw.
Context {S C : Type}.
Variables (init : S) (body : S -> line -> res S) (complete : Z -> Z -> S -> res C).
Variables (unpopulated shape : S -> Prop).
Variable neg : Coord -> S -> S.
Variable rebind : Coord -> C -> C.
Variable process : FileSection.t -> St DeviceConfig.t unit.
Variable store : C -> St DeviceConfig.t unit.

Hypothesis init_shape : shape init.
Hypothesis body_shape : forall s l s', shape s -> body s l = ret s' -> shape s'.
Hypothesis body_populated :
  forall s l s', ~ unpopulated s -> body s l = ret s' -> ~ unpopulated s'.
Hypothesis body_accepts :
  forall s s0 s0' l, shape s -> shape s0 -> body s0 l = ret s0' ->
                     exists s', body s l = ret s'.
Hypothesis complete_rejects :
  forall w h s, unpopulated s -> complete w h s = raise IncompleteSchema.
Hypothesis complete_accepts :
  forall w h s, ~ unpopulated s -> exists c, complete w h s = ret c.
Hypothesis body_negclk :
  forall s ref p, DeviceConfig._get_config_bit_coordinates ref = ret p ->
                  body s ["NegClk"; ref] = ret (neg p s).
Hypothesis complete_negclk :
  forall w h s c p, complete w h s = ret c -> complete w h (neg p s) = ret (rebind p c).
Hypothesis process_runs :
  forall d section,
    DeviceConfig._frozen d = false ->
    process section d
    = match DeviceConfig.parse_bit_config init body complete section with
      | inl e => (inl e, d)
      | inr c => store c d
      end.





End SchemaLaw.


















(** ** The defects *)

(** C1, at the failing input.  The frozen device of the fixture, configured
    by decoding a bitstream that sets the column buffer control of its IO
    tile to 2: encoding it and decoding the text into the same frozen device
    before configuration gives the IO tile the column buffer control 1.  The
    logic tile of the same device, whose multi-bit settings are written by
    the loop, comes back as it was. *)
Theorem io_col_buf_ctrl_not_reproduced :
  DeviceConfig.is_frozen (Fixture.built Fixture.configured) = true
  /\ option_map IoTile.col_buf_ctrl (io_tile_at (Fixture.built Fixture.configured) 1 0)
     = Some 2
  /\ option_map IoTile.col_buf_ctrl
       (io_tile_at
          (Fixture.built (round_trip (Fixture.built Fixture.configured)
                            (Fixture.built Fixture.frozen))) 1 0)
     = Some 1
  /\ logic_tile_at
       (Fixture.built (round_trip (Fixture.built Fixture.configured)
                         (Fixture.built Fixture.frozen))) 0 0
     = logic_tile_at (Fixture.built Fixture.configured) 0 0
  /\ option_map (fun t => match t with Io t => IoTile.col_buf_ctrl t | _ => 0 end)
       (match tile_round_trip (Io Fixture.io_tile) (Io Fixture.io_tile) with
        | inr t => Some t
        | inl _ => None
        end)
     = Some 1.
Proof. vm_compute. repeat split. Qed.

(** C8, at the failing input.  The IO tile of the fixture holds the column
    buffer control 2 and its schema binds that setting to the coordinates
    (0,0) ... (7,0).  Bit 1 of 2 is set and bit 0 is clear; the encoding
    holds 0 at the second coordinate and 1 at the first. *)
Theorem io_col_buf_ctrl_bits_misplaced :
  IoTile.col_buf_ctrl Fixture.io_tile = 2
  /\ option_map IoTileBitConfig.col_buf_ctrl_set_bits (IoTile._bit_config Fixture.io_tile)
     = Some [(0, 0); (1, 0); (2, 0); (3, 0); (4, 0); (5, 0); (6, 0); (7, 0)]
  /\ Z.testbit (IoTile.col_buf_ctrl Fixture.io_tile) 1 = true
  /\ encoded_bit (Io Fixture.io_tile) (1, 0) = ret 0
  /\ Z.testbit (IoTile.col_buf_ctrl Fixture.io_tile) 0 = false
  /\ encoded_bit (Io Fixture.io_tile) (0, 0) = ret 1.
Proof. vm_compute. repeat split. Qed.

(** C2, on the code.  On any device whose grid has a row, [reset] raises an
    [AttributeError] at the first round of its loop ([tile] is bound to the
    first row of the grid, a list) and leaves the device as it was: no
    setting is zeroed and no routing resource is disconnected. *)
Theorem reset_raises (d : DeviceConfig.t) :
  DeviceConfig._tiles d <> [] ->
  DeviceConfig.reset d = (raise AttributeError, d).
Proof.
  intro H. unfold DeviceConfig.reset. destruct d as [f ty tiles nets wires c1 c2 c3 c4 n].
  simpl in *. destruct tiles as [|row rows]; [congruence|]. reflexivity.
Qed.

Lemma reset_raises_witness :
  DeviceConfig.reset (Fixture.built Fixture.configured)
  = (raise AttributeError, Fixture.built Fixture.configured)
  /\ option_map LogicTile.col_buf_ctrl
       (logic_tile_at (snd (DeviceConfig.reset (Fixture.built Fixture.configured))) 0 0)
     = Some 5.
Proof.
  assert (E : DeviceConfig.reset (Fixture.built Fixture.configured)
              = (raise AttributeError, Fixture.built Fixture.configured)).
  { apply (reset_raises (Fixture.built Fixture.configured)). vm_compute. discriminate. }
  split; [exact E|]. rewrite E. vm_compute. reflexivity.
Defined.

(** ** The bit grid *)

Lemma set_bit_grid c v b :
  BitstreamBuilder.set_bit c v b
  = bind (DeviceConfig.grid_set (BitstreamBuilder._config b) (fst c) (snd c) v)
         (fun cfg => ret (BitstreamBuilder.mk cfg)).
Proof.
  destruct c as [x y]. unfold BitstreamBuilder.set_bit, DeviceConfig.grid_set, bind. simpl.
  destruct (PyList.get (BitstreamBuilder._config b) y); [reflexivity|].
  destruct (PyList.set l x v); [reflexivity|].
  destruct (PyList.set (BitstreamBuilder._config b) y l0); reflexivity.
Qed.

Lemma nat_of_coord_inj (c c' : Coord) :
  0 <= fst c -> 0 <= snd c -> 0 <= fst c' -> 0 <= snd c' ->
  (Z.to_nat (fst c'), Z.to_nat (snd c')) = (Z.to_nat (fst c), Z.to_nat (snd c)) ->
  c' = c.
Proof.
  destruct c, c'. simpl. intros ? ? ? ? H. inversion H. f_equal; lia.
Qed.

Lemma set_bit_in_grid (w h : Z) (c : Coord) (v : bool) (b : BitstreamBuilder.t) :
  grid_shape (BitstreamBuilder._config b) w h ->
  in_grid w h c ->
  exists b',
    BitstreamBuilder.set_bit c v b = ret b'
    /\ grid_shape (BitstreamBuilder._config b') w h
    /\ bit b' c = Some v
    /\ (forall c', in_grid w h c' -> c' <> c -> bit b' c' = bit b c').
Proof.
  intros S [Hx Hy].
  destruct (grid_set_in_range _ w h S (fst c) (snd c) v) as (cfg & E & S' & C & O & _);
    [lia|lia|].
  exists (BitstreamBuilder.mk cfg).
  rewrite set_bit_grid, E. unfold bit. simpl.
  assert (Ex : fst c mod w = fst c) by (apply Z.mod_small; lia).
  assert (Ey : snd c mod h = snd c) by (apply Z.mod_small; lia).
  rewrite Ex, Ey in C, O.
  repeat split; try assumption; try apply S'.
  intros c' [Hx' Hy'] Hne. apply O. intro H. apply Hne.
  apply nat_of_coord_inj; try lia. exact H.
Qed.

Lemma apply_writes_app ws1 ws2 b :
  apply_writes (ws1 ++ ws2) b = bind (apply_writes ws1 b) (apply_writes ws2).
Proof.
  revert b. induction ws1 as [|[c v] ws1 IH]; intro b; simpl; [reflexivity|].
  unfold bind at 1 3. destruct (BitstreamBuilder.set_bit c v b); [reflexivity|]. apply IH.
Qed.

Lemma write_bits_writes coords v b :
  write_bits coords v b = apply_writes (writes_of_bits coords v) b.
Proof.
  revert v b. induction coords as [|c cs IH]; intros v b; simpl; [reflexivity|].
  unfold bind. destruct (BitstreamBuilder.set_bit c _ b); [reflexivity|]. apply IH.
Qed.

Lemma writes_of_bits_coords coords v : map fst (writes_of_bits coords v) = coords.
Proof.
  revert v. induction coords as [|c cs IH]; intro v; simpl; [reflexivity|].
  now rewrite IH.
Qed.

Lemma truthy_land_1 v : truthy (Z.land v 1) = Z.testbit v 0.
Proof.
  unfold truthy. change 1 with (Z.ones 1). rewrite Z.land_ones by lia.
  rewrite Z.bit0_odd. change (2 ^ 1) with 2.
  rewrite Zmod_odd. now destruct (Z.odd v).
Qed.

Lemma writes_of_bits_nth coords v i c :
  nth_error coords i = Some c ->
  nth_error (writes_of_bits coords v) i = Some (c, Z.testbit v (Z.of_nat i)).
Proof.
  revert v i. induction coords as [|c0 cs IH]; intros v [|i];
    cbn [writes_of_bits nth_error]; try discriminate.
  - intro H. inversion H. now rewrite truthy_land_1.
  - intro H. rewrite (IH _ _ H). f_equal. f_equal.
    rewrite Z.shiftr_spec by lia. f_equal. lia.
Qed.

(** A sequence of writes at distinct coordinates of the grid succeeds; each
    coordinate written holds its value and every other cell is as it was. *)
Lemma apply_writes_in_grid (w h : Z) (ws : list (Coord * bool)) (b : BitstreamBuilder.t) :
  grid_shape (BitstreamBuilder._config b) w h ->
  Forall (in_grid w h) (map fst ws) ->
  NoDup (map fst ws) ->
  exists b',
    apply_writes ws b = ret b'
    /\ grid_shape (BitstreamBuilder._config b') w h
    /\ (forall c v, In (c, v) ws -> bit b' c = Some v)
    /\ (forall c, in_grid w h c -> ~ In c (map fst ws) -> bit b' c = bit b c).
Proof.
  revert b. induction ws as [|[c v] ws IH]; intros b S G ND; simpl in *.
  - exists b. split; [reflexivity|]. split; [assumption|]. split.
    + intros c v H. destruct H.
    + reflexivity.
  - inversion G as [|? ? Gc G']. inversion ND as [|? ? Nc ND']. subst.
    destruct (set_bit_in_grid w h c v b S Gc) as (b1 & E1 & S1 & B1 & O1).
    destruct (IH b1 S1 G' ND') as (b' & E & S' & B & O).
    exists b'. rewrite E1. simpl. split; [exact E|]. split; [exact S'|]. split.
    + intros c' v' [H|H].
      * inversion H. subst. rewrite (O c' Gc Nc). exact B1.
      * now apply B.
    + intros c' Gc' Hn. rewrite (O c' Gc') by tauto. apply O1; [assumption|].
      intro. subst. tauto.
Qed.

(** ** Reading the bits back *)

Lemma get_nonneg {A} (l : list A) (i : Z) (a : A) :
  0 <= i -> nth_error l (Z.to_nat i) = Some a -> PyList.get l i = ret a.
Proof.
  intros Hi H.
  assert (Hlt : (Z.to_nat i < List.length l)%nat).
  { apply nth_error_Some. congruence. }
  unfold PyList.get, PyList.index.
  assert (E0 : (0 <=? i) = true) by (apply Z.leb_le; lia).
  assert (E1 : (i <? Z.of_nat (List.length l)) = true) by (apply Z.ltb_lt; lia).
  rewrite E0, E1. simpl. now rewrite H.
Qed.

Lemma bit_at_rendered (b : BitstreamBuilder.t) (c : Coord) (v : bool) :
  0 <= fst c -> 0 <= snd c ->
  bit b c = Some v ->
  bit_at (rendered b) c = ret (Z.b2z v).
Proof.
  destruct c as [x y]. unfold bit, cell, rendered, bit_at. simpl. intros Hx Hy H.
  destruct (nth_error (BitstreamBuilder._config b) (Z.to_nat y)) as [row|] eqn:Er;
    [|discriminate].
  rewrite (get_nonneg _ y (map BitstreamBuilder.str_bit row) Hy)
    by (rewrite nth_error_map, Er; reflexivity).
  unfold bind, ret.
  rewrite (get_nonneg _ x (BitstreamBuilder.str_bit v) Hx)
    by (rewrite nth_error_map, H; reflexivity).
  now destruct v.
Qed.

Lemma low_bits_step (v k : Z) :
  0 <= k ->
  (if Z.b2z (Z.testbit v k) =? 1 then Z.lor (v mod 2 ^ k) (2 ^ k) else v mod 2 ^ k)
  = v mod 2 ^ (k + 1).
Proof.
  intro Hk. apply Z.bits_inj'. intros n Hn.
  destruct (Z.testbit v k) eqn:Ev; simpl.
  - rewrite Z.lor_spec, Z.pow2_bits_eqb by lia.
    destruct (Z.eqb_spec k n) as [->|Hne].
    + rewrite orb_true_r. rewrite Z.mod_pow2_bits_low by lia. now rewrite Ev.
    + rewrite orb_false_r.
      destruct (Z.lt_ge_cases n k).
      * rewrite !Z.mod_pow2_bits_low by lia. reflexivity.
      * rewrite !Z.mod_pow2_bits_high by lia. reflexivity.
  - destruct (Z.lt_ge_cases n k).
    + rewrite !Z.mod_pow2_bits_low by lia. reflexivity.
    + rewrite Z.mod_pow2_bits_high by lia.
      destruct (Z.eq_dec n k) as [->|Hne].
      * rewrite Z.mod_pow2_bits_low by lia. now rewrite Ev.
      * rewrite Z.mod_pow2_bits_high by lia. reflexivity.
Qed.

(** The reading loop, from the round where [acc] holds the [k] low bits of
    [v] and [bit_pos] is [2^k], over coordinates that hold the next bits of
    [v]. *)
Lemma read_bits_from_low (lines : list line) (coords : list Coord) (v : Z) (k : nat) :
  (forall i c, nth_error coords i = Some c ->
               bit_at lines c = ret (Z.b2z (Z.testbit v (Z.of_nat (k + i))))) ->
  read_bits_from lines coords (v mod 2 ^ Z.of_nat k) (2 ^ Z.of_nat k)
  = ret (v mod 2 ^ Z.of_nat (k + List.length coords)).
Proof.
  revert k. induction coords as [|c cs IH]; intros k H; cbn [read_bits_from List.length].
  - now rewrite Nat.add_0_r.
  - rewrite (H 0%nat c eq_refl). unfold bind, ret. rewrite Nat.add_0_r.
    rewrite low_bits_step by lia.
    rewrite Z.shiftl_mul_pow2 by lia.
    replace (2 ^ Z.of_nat k * 2 ^ 1) with (2 ^ Z.of_nat (S k))
      by (rewrite Nat2Z.inj_succ, Z.pow_succ_r by lia; lia).
    replace (Z.of_nat k + 1) with (Z.of_nat (S k)) by lia.
    rewrite (IH (S k)).
    + unfold ret. replace (S k + List.length cs)%nat with (k + S (List.length cs))%nat
        by lia. reflexivity.
    + intros i c' Hc. rewrite (H (S i) c' Hc). do 4 f_equal. lia.
Qed.

Lemma read_bits_low (lines : list line) (coords : list Coord) (v : Z) :
  (forall i c, nth_error coords i = Some c ->
               bit_at lines c = ret (Z.b2z (Z.testbit v (Z.of_nat i)))) ->
  read_bits lines coords = ret (v mod 2 ^ Z.of_nat (List.length coords)).
Proof.
  intro H. unfold read_bits.
  change 1 with (2 ^ Z.of_nat 0). replace 0 with (v mod 2 ^ Z.of_nat 0) at 1
    by (simpl; apply Z.mod_1_r).
  now apply (read_bits_from_low lines coords v 0).
Qed.

(** ** The text of a bitmap and the lines the reader cuts it into *)

Lemma append_assoc (a b c : string) : ((a ++ b) ++ c = a ++ (b ++ c))%string.
Proof. induction a as [|x a IH]; simpl; [reflexivity|]. now rewrite IH. Qed.

Lemma append_empty_r (a : string) : (a ++ "")%string = a.
Proof. induction a as [|x a IH]; simpl; [reflexivity|]. now rewrite IH. Qed.

Lemma config_string_unlines (rows : list (list bool)) (acc : string) :
  fold_left
    (fun config_string row =>
       config_string ++ PyStr.join (map BitstreamBuilder.str_bit row)
         ++ String "010"%char EmptyString)%string
    rows acc
  = (acc ++ unlines (map row_string rows))%string.
Proof.
  revert acc. induction rows as [|row rows IH]; intro acc; simpl.
  - now rewrite append_empty_r.
  - rewrite IH. rewrite !append_assoc. reflexivity.
Qed.

Lemma bit_char (c : ascii) :
  (Ascii.eqb c "0" || Ascii.eqb c "1")%bool = true ->
  PyStr.is_space c = false
  /\ Ascii.eqb c "010"%char = false
  /\ Ascii.eqb "#"%char c = false
  /\ Ascii.eqb "."%char c = false.
Proof.
  intro H. apply orb_true_iff in H.
  destruct H as [H|H]; apply Ascii.eqb_eq in H; subst; repeat split; reflexivity.
Qed.

Lemma row_string_cons (v : bool) (row : list bool) :
  row_string (v :: row)
  = String (if v then "1"%char else "0"%char) (row_string row).
Proof. unfold row_string, PyStr.join. simpl. now destruct v. Qed.

Lemma row_string_bits (row : list bool) :
  row <> [] -> bit_string (row_string row).
Proof.
  intro H. split.
  - destruct row as [|v row]; [congruence|]. rewrite row_string_cons. discriminate.
  - clear H. induction row as [|v row IH]; [reflexivity|].
    rewrite row_string_cons. simpl. rewrite IH. now destruct v.
Qed.

Lemma chars_row_string (row : list bool) :
  chars (row_string row) = map BitstreamBuilder.str_bit row.
Proof.
  induction row as [|v row IH]; [reflexivity|].
  rewrite row_string_cons. simpl. rewrite IH. now destruct v.
Qed.

Lemma rstrip_bits (s : string) : all_bits s = true -> PyStr.rstrip s = s.
Proof.
  induction s as [|c s IH]; simpl; [reflexivity|].
  intro H. apply andb_true_iff in H. destruct H as [Hc Hs].
  rewrite (IH Hs). destruct (bit_char c Hc) as (Sp & _).
  destruct s; [now rewrite Sp|reflexivity].
Qed.

Lemma rstrip_bits_nl (s : string) :
  bit_string s -> PyStr.rstrip (s ++ DeviceConfig.nl) = s.
Proof.
  intros [Hne Hb]. induction s as [|c s IH]; [congruence|].
  simpl in *. apply andb_true_iff in Hb. destruct Hb as [Hc Hs].
  destruct (bit_char c Hc) as (Sp & _).
  destruct s as [|c' s].
  - simpl. now rewrite Sp.
  - rewrite IH by (try discriminate; assumption). reflexivity.
Qed.

Lemma rstrip_app (s1 s2 : string) :
  PyStr.rstrip s2 <> EmptyString ->
  PyStr.rstrip (s1 ++ s2) = (s1 ++ PyStr.rstrip s2)%string.
Proof.
  intro H. induction s1 as [|c s1 IH]; simpl; [reflexivity|].
  rewrite IH. destruct (s1 ++ PyStr.rstrip s2)%string eqn:E; [|reflexivity].
  exfalso. destruct s1; simpl in E; [congruence|discriminate].
Qed.

Lemma lstrip_bits (s r : string) :
  bit_string s -> PyStr.lstrip (s ++ r) = (s ++ r)%string.
Proof.
  intros [Hne Hb]. destruct s as [|c s]; [congruence|].
  simpl in *. apply andb_true_iff in Hb. destruct Hb as [Hc _].
  destruct (bit_char c Hc) as (Sp & _). now rewrite Sp.
Qed.

(** Stripping the text of the rows removes its last newline and nothing
    else. *)
Lemma strip_unlines (rs : list string) :
  rs <> [] -> Forall bit_string rs ->
  PyStr.rstrip (unlines rs) <> EmptyString
  /\ (PyStr.strip (unlines rs) ++ DeviceConfig.nl)%string = unlines rs.
Proof.
  intros Hne Hb.
  assert (L : PyStr.strip (unlines rs) = PyStr.rstrip (unlines rs)).
  { unfold PyStr.strip. destruct rs as [|r rs]; [congruence|].
    inversion Hb. subst. simpl. now rewrite lstrip_bits. }
  rewrite L. clear L.
  induction rs as [|r rs IH]; [congruence|].
  inversion Hb as [|? ? Hr Hrs]. subst.
  change (unlines (r :: rs)) with (r ++ DeviceConfig.nl ++ unlines rs)%string.
  destruct rs as [|r' rs].
  - simpl. rewrite rstrip_bits_nl by assumption.
    split; [apply Hr|reflexivity].
  - destruct IH as [IH1 IH2]; [discriminate|assumption|].
    set (X := unlines (r' :: rs)) in *.
    rewrite <- append_assoc.
    rewrite rstrip_app by exact IH1.
    split.
    + destruct r; [destruct Hr; congruence|discriminate].
    + rewrite !append_assoc. now rewrite IH2.
Qed.

Lemma split_bits_line (s rest : string) :
  all_bits s = true ->
  PyStr.split "010"%char (s ++ DeviceConfig.nl ++ rest) = s :: PyStr.split "010"%char rest.
Proof.
  induction s as [|c s IH]; intro H; [reflexivity|].
  simpl in H. apply andb_true_iff in H. destruct H as [Hc Hs].
  destruct (bit_char c Hc) as (_ & Nl & _).
  change (PyStr.split "010"%char (String c (s ++ DeviceConfig.nl ++ rest))
          = String c s :: PyStr.split "010"%char rest).
  cbn [PyStr.split]. rewrite Nl, (IH Hs). reflexivity.
Qed.

Lemma split_unlines (rs : list string) :
  Forall bit_string rs ->
  PyStr.split "010"%char (unlines rs) = (rs ++ [EmptyString])%list.
Proof.
  induction 1 as [|r rs [_ Hr] _ IH]; [reflexivity|].
  change (unlines (r :: rs)) with (r ++ DeviceConfig.nl ++ unlines rs)%string.
  rewrite split_bits_line by exact Hr. now rewrite IH.
Qed.

Lemma file_lines_bitmap (rs : list string) :
  Forall bit_string rs ->
  file_lines (".tile 0 0" ++ DeviceConfig.nl ++ unlines rs) = ".tile 0 0"%string :: rs.
Proof.
  intro H. unfold file_lines.
  assert (E : PyStr.split "010"%char (".tile 0 0" ++ DeviceConfig.nl ++ unlines rs)
              = (".tile 0 0"%string :: rs ++ [EmptyString])%list).
  { rewrite <- (split_unlines rs H). reflexivity. }
  rewrite E. cbn [rev]. rewrite rev_app_distr. simpl.
  rewrite rev_app_distr. simpl. now rewrite rev_involutive.
Qed.

Lemma strip_bit_string (r : string) : bit_string r -> PyStr.strip r = r.
Proof.
  intros [Hne Hb]. unfold PyStr.strip.
  rewrite <- (append_empty_r r) at 1. rewrite lstrip_bits by (split; assumption).
  rewrite append_empty_r. now apply rstrip_bits.
Qed.

Lemma bit_string_line (r : string) :
  bit_string r ->
  String.eqb r EmptyString = false
  /\ PyStr.startswith r "#" = false
  /\ PyStr.startswith r "." = false.
Proof.
  intros [Hne Hb]. destruct r as [|c r]; [congruence|].
  simpl in Hb. apply andb_true_iff in Hb. destruct Hb as [Hc _].
  destruct (bit_char c Hc) as (_ & _ & H1 & H2).
  unfold PyStr.startswith. cbn [PyStr.strip_prefix]. rewrite H1, H2. repeat split.
Qed.

(** The reader adds every row of a bitmap to the current section. *)
Lemma read_lines_bits (rs : list string) (done : list FileSection.t) (sec : FileSection.t) :
  Forall bit_string rs ->
  read_lines false rs done (Some sec)
  = ret (done ++ [fold_left (fun s l => FileSection.add_line l s) rs sec;
                  fold_left (fun s l => FileSection.add_line l s) rs sec])%list.
Proof.
  intro H. revert sec. induction H as [|r rs Hr _ IH]; intro sec; [reflexivity|].
  cbn [read_lines fold_left]. rewrite (strip_bit_string r Hr).
  destruct (bit_string_line r Hr) as (E1 & E2 & E3). rewrite E1, E2, E3. simpl.
  apply IH.
Qed.

Lemma add_lines_unsplit (rs : list string) (sec : FileSection.t) :
  FileSection._split_lines sec = false ->
  FileSection.get_lines (fold_left (fun s l => FileSection.add_line l s) rs sec)
  = (FileSection.get_lines sec ++ map chars rs)%list.
Proof.
  revert sec. induction rs as [|r rs IH]; intros sec H; simpl.
  - now rewrite app_nil_r.
  - rewrite IH by exact H. unfold FileSection.get_lines, FileSection.add_line. simpl.
    rewrite H. now rewrite <- app_assoc.
Qed.

(** The lines the reader delivers for the text of a builder with at least
    one row and one column are its rows. *)
Lemma bitmap_lines_rendered (w h : Z) (b : BitstreamBuilder.t) :
  grid_shape (BitstreamBuilder._config b) w h -> 1 <= w -> 1 <= h ->
  bitmap_lines (BitstreamBuilder.get_config_string b) = ret (rendered b).
Proof.
  intros [Sh Sw] Hw Hh.
  set (rows := BitstreamBuilder._config b) in *.
  set (rs := map row_string rows).
  assert (Hrs : Forall bit_string rs).
  { subst rs. rewrite Forall_map. apply Forall_forall. intros row Hin.
    pose proof (proj1 (Forall_forall _ _) Sw row Hin) as Hrow.
    apply row_string_bits. intro E. subst row. simpl in Hrow. lia. }
  assert (Hne : rs <> []).
  { subst rs. destruct rows; [simpl in Sh; lia|discriminate]. }
  unfold bitmap_lines, BitstreamBuilder.get_config_string.
  fold rows. rewrite config_string_unlines. fold rs.
  change (("" ++ unlines rs)%string) with (unlines rs).
  destruct (strip_unlines rs Hne Hrs) as [_ E]. rewrite E.
  unfold read_file. rewrite (file_lines_bitmap rs Hrs).
  cbn [read_lines].
  change (PyStr.strip ".tile 0 0") with ".tile 0 0"%string.
  change (String.eqb ".tile 0 0" "" || PyStr.startswith ".tile 0 0" "#")%bool with false.
  change (PyStr.startswith ".tile 0 0" ".") with true. cbv iota.
  rewrite read_lines_bits by exact Hrs.
  unfold bind, ret. cbn [app]. 
  unfold PyList.get. cbn [List.length PyList.index Z.of_nat Z.leb Z.ltb Z.compare
    Pos.of_succ_nat Pos.succ andb Z.to_nat nth_error].
  unfold ret. cbv iota.
  rewrite add_lines_unsplit by reflexivity.
  subst rs. unfold rendered. fold rows. simpl. rewrite map_map.
  f_equal. apply map_ext. intro row. apply chars_row_string.
Qed.

(** ** The bit-order law of the writing and the reading loop *)

Lemma init_shape (w h : Z) :
  0 <= w -> 0 <= h ->
  grid_shape (BitstreamBuilder._config (BitstreamBuilder.init w h)) w h.
Proof.
  intros Hw Hh. unfold BitstreamBuilder.init, PyList.replicate. simpl. split.
  - rewrite repeat_length. lia.
  - apply Forall_forall. intros row Hin. apply repeat_spec in Hin. subst.
    rewrite repeat_length. lia.
Qed.

(** For a value [v] and coordinates [c0, c1, ...] of the grid, no two the
    same: the writing loop returns; the grid then holds bit [i] of [v] at
    [ci] and is unchanged elsewhere; and the reading loop over the rows of
    that grid returns [v] when [v] fits the number of coordinates. *)
Lemma bit_order_law (w h : Z) (coords : list Coord) (v : Z) (b : BitstreamBuilder.t) :
  grid_shape (BitstreamBuilder._config b) w h ->
  Forall (in_grid w h) coords ->
  NoDup coords ->
  exists b',
    write_bits coords v b = ret b'
    /\ grid_shape (BitstreamBuilder._config b') w h
    /\ (forall i c, nth_error coords i = Some c ->
                    bit b' c = Some (Z.testbit v (Z.of_nat i)))
    /\ (forall c, in_grid w h c -> ~ In c coords -> bit b' c = bit b c)
    /\ (0 <= v < 2 ^ Z.of_nat (List.length coords) ->
        read_bits (rendered b') coords = ret v).
Proof.
  intros S G ND.
  destruct (apply_writes_in_grid w h (writes_of_bits coords v) b S)
    as (b' & E & S' & B & O);
    try (rewrite writes_of_bits_coords; assumption).
  exists b'. rewrite write_bits_writes.
  assert (Bi : forall i c, nth_error coords i = Some c ->
                           bit b' c = Some (Z.testbit v (Z.of_nat i))).
  { intros i c Hc. apply B. eapply nth_error_In. apply writes_of_bits_nth. exact Hc. }
  split; [exact E|]. split; [exact S'|]. split; [exact Bi|]. split.
  - intros c Gc Hn. apply O; [exact Gc|]. now rewrite writes_of_bits_coords.
  - intro Hv. rewrite (read_bits_low (rendered b') coords v).
    + now rewrite Z.mod_small.
    + intros i c Hc. apply bit_at_rendered.
      * rewrite Forall_forall in G. apply (G c). eapply nth_error_In; eassumption.
      * rewrite Forall_forall in G. apply (G c). eapply nth_error_In; eassumption.
      * now apply Bi.
Qed.

(** ** Encoding settings and reading them back *)

Lemma settings_writes_coords (ss : list setting) :
  map fst (List.concat (map setting_writes ss)) = List.concat (map setting_coords ss).
Proof.
  induction ss as [|[c v|cs v] ss IH]; simpl; [reflexivity| |].
  - now rewrite IH.
  - now rewrite map_app, writes_of_bits_coords, IH.
Qed.

Lemma setting_writes_In (s : setting) (ss : list setting) (x : Coord * bool) :
  In s ss -> In x (setting_writes s) -> In x (List.concat (map setting_writes ss)).
Proof.
  intros Hs Hx. apply in_concat. exists (setting_writes s). split; [|exact Hx].
  now apply in_map.
Qed.

Lemma setting_coords_In (s : setting) (ss : list setting) (c : Coord) :
  In s ss -> In c (setting_coords s) -> In c (List.concat (map setting_coords ss)).
Proof.
  intros Hs Hx. apply in_concat. exists (setting_coords s). split; [|exact Hx].
  now apply in_map.
Qed.

(** The settings written at distinct coordinates of a grid with at least one
    row and one column: the encoding returns a text; in the lines the reader
    delivers for it, a flag reads as it was written and a number reads as
    its low bits, one per coordinate bound to it. *)
Lemma encode_reads (w h : Z) (ss : list setting) :
  1 <= w -> 1 <= h ->
  Forall (in_grid w h) (List.concat (map setting_coords ss)) ->
  NoDup (List.concat (map setting_coords ss)) ->
  exists bits lines,
    encode w h ss = ret bits
    /\ bitmap_lines bits = ret lines
    /\ (forall c v, In (Flag c v) ss -> bit_at lines c = ret (Z.b2z v))
    /\ (forall cs v, In (Bits cs v) ss ->
                     read_bits lines cs = ret (v mod 2 ^ Z.of_nat (List.length cs)))
    /\ (forall cs v i c, In (Bits cs v) ss -> nth_error cs i = Some c ->
                         bit_at lines c = ret (Z.b2z (Z.testbit v (Z.of_nat i))))
    /\ (forall c, in_grid w h c -> ~ In c (List.concat (map setting_coords ss)) ->
                  bit_at lines c = ret 0).
Proof.
  intros Hw Hh G ND.
  destruct (apply_writes_in_grid w h (List.concat (map setting_writes ss))
              (BitstreamBuilder.init w h))
    as (b & E & S & B & O);
    try (rewrite settings_writes_coords; assumption).
  { apply init_shape; lia. }
  assert (Gc : forall s c, In s ss -> In c (setting_coords s) -> 0 <= fst c /\ 0 <= snd c).
  { intros s c Hs Hc. rewrite Forall_forall in G.
    destruct (G c (setting_coords_In s ss c Hs Hc)) as [? ?]. lia. }
  exists (BitstreamBuilder.get_config_string b), (rendered b).
  unfold encode. rewrite E. split; [reflexivity|]. split.
  - apply (bitmap_lines_rendered w h); assumption.
  - split.
    + intros c v Hin.
      destruct (Gc (Flag c v) c Hin (or_introl eq_refl)).
      apply bit_at_rendered; try assumption.
      apply B. apply (setting_writes_In (Flag c v)); [exact Hin|now left].
    + assert (Bi : forall cs v i c, In (Bits cs v) ss -> nth_error cs i = Some c ->
                     bit_at (rendered b) c = ret (Z.b2z (Z.testbit v (Z.of_nat i)))).
      { intros cs v i c Hin Hc.
        destruct (Gc (Bits cs v) c Hin (nth_error_In _ _ Hc)).
        apply bit_at_rendered; try assumption.
        apply B. apply (setting_writes_In (Bits cs v)); [exact Hin|].
        simpl. eapply nth_error_In. now apply writes_of_bits_nth. }
      split; [|split; [exact Bi|]].
      * intros cs v Hin. apply read_bits_low. intros i c Hc. now apply (Bi cs v).
      * intros c Hc Hn. change 0 with (Z.b2z false).
        apply bit_at_rendered; try apply Hc.
        rewrite O by (try rewrite settings_writes_coords; assumption).
        destruct c as [x y]. destruct Hc as [Hx Hy]. simpl in Hx, Hy.
        unfold bit, cell, BitstreamBuilder.init, PyList.replicate. simpl.
        rewrite (nth_error_repeat (repeat false (Z.to_nat w)) (m := Z.to_nat h)
                   (n := Z.to_nat y)) by lia.
        apply nth_error_repeat. lia.
Qed.

(** ** Routing resources, encoded and decoded *)

Lemma find_pattern_unique items src p :
  NoDup (map snd items) -> In (src, p) items ->
  RoutingResource.find_pattern items p = Some src.
Proof.
  induction items as [|[s q] items IH]; simpl; [tauto|].
  intros ND [H|H].
  - inversion H. subst. now rewrite Z.eqb_refl.
  - inversion ND as [|? ? Hn ND']. subst.
    destruct (q =? p) eqn:E.
    + apply Z.eqb_eq in E. subst. exfalso. apply Hn.
      change p with (snd (src, p)). now apply in_map.
    + now apply IH.
Qed.

Lemma same_dict (r r' : RoutingResource.t) :
  RoutingResource.set_connection None r' = RoutingResource.set_connection None r ->
  forall c, RoutingResource.set_connection c r' = RoutingResource.set_connection c r.
Proof.
  destruct r, r'. unfold RoutingResource.set_connection. simpl.
  intros H c. inversion H. reflexivity.
Qed.

Lemma set_connection_own (r : RoutingResource.t) :
  RoutingResource.set_connection (RoutingResource._connection r) r = r.
Proof. now destruct r. Qed.

(** What an encodable resource encodes, and what decoding that value does to
    a resource of the same topology. *)
Lemma resource_round_trip (r r' : RoutingResource.t) :
  resource_ok r ->
  RoutingResource.set_connection None r' = RoutingResource.set_connection None r ->
  RoutingResource.get_config_bits r = ret (pattern r)
  /\ 0 <= pattern r < 2 ^ Z.of_nat (List.length (RoutingResource._config_bit_coordinates r))
  /\ RoutingResource.set_config_bits (pattern r) r' = (ret tt, r).
Proof.
  intros (NDk & NDp & Hp & Hc) Hsame.
  assert (Dict : RoutingResource._src_net_to_bit_vals_dict r'
                 = RoutingResource._src_net_to_bit_vals_dict r).
  { destruct r, r'. unfold RoutingResource.set_connection in Hsame. simpl in *.
    now inversion Hsame. }
  assert (Back : forall c, c = RoutingResource._connection r ->
                           RoutingResource.set_connection c r' = r).
  { intros c ->. rewrite (same_dict r r' Hsame). apply set_connection_own. }
  unfold pattern, RoutingResource.get_config_bits.
  destruct (RoutingResource._connection r) as [k|] eqn:Ec.
  - destruct Hc as [Hc|Hc]; [discriminate|].
    apply candidates_contains in Hc. unfold PyDict.contains in Hc.
    unfold PyDict.lookup.
    destruct (PyDict.get NetRef_eqb (RoutingResource._src_net_to_bit_vals_dict r) (Some k))
      as [p|] eqn:Eg; [|discriminate].
    pose proof (dict_get_In NetRef_eqb NetRef_eqb_eq _ _ _ Eg) as Hin.
    assert (Hr : 0 < p < 2 ^ Z.of_nat (List.length (RoutingResource._config_bit_coordinates r))).
    { rewrite Forall_forall in Hp. apply Hp. change p with (snd (Some k, p)).
      now apply in_map. }
    split; [reflexivity|]. split; [simpl; lia|]. simpl.
    unfold RoutingResource.set_config_bits.
    assert (E0 : (p =? 0) = false) by (apply Z.eqb_neq; lia).
    rewrite E0, Dict. unfold PyDict.items.
    rewrite (find_pattern_unique _ (Some k) p NDp Hin).
    now rewrite Back.
  - split; [reflexivity|]. split.
    + simpl. split; [lia|]. apply Z.pow_pos_nonneg; lia.
    + simpl. unfold RoutingResource.set_config_bits. simpl. now rewrite Back.
Qed.

(** The loops of [_config_bitstream_routing_resources] write the settings of
    the resources. *)
Lemma resource_ok_encodable (r : RoutingResource.t) : resource_ok r -> encodable r.
Proof. intro H. now destruct (resource_round_trip r r H eq_refl). Qed.

Lemma resources_ok_encodable (rs : list RoutingResource.t) :
  Forall resource_ok rs -> Forall encodable rs.
Proof. apply Forall_impl. exact resource_ok_encodable. Qed.

Lemma config_resources_writes (rs : list RoutingResource.t) (b : BitstreamBuilder.t) :
  Forall encodable rs ->
  Tile.config_resources rs b
  = apply_writes (List.concat (map setting_writes (map resource_setting rs))) b.
Proof.
  intro H. revert b. induction H as [|r rs Hr _ IH]; intro b; [reflexivity|].
  cbn [Tile.config_resources map List.concat]. rewrite apply_writes_app.
  unfold Tile.config_resource. unfold encodable in Hr. rewrite Hr.
  unfold bind at 2. unfold ret at 1. cbv beta iota.
  rewrite write_bits_writes. unfold bind. simpl.
  destruct (apply_writes _ b); [reflexivity|]. apply IH.
Qed.

(** The loop of [_process_bitstream_routing_resources] over resources of the
    same topology, on lines that hold the patterns of [rs]. *)
Lemma resources_decoded (lines : list line) (rs rs' : list RoutingResource.t) :
  Forall resource_ok rs ->
  map (RoutingResource.set_connection None) rs'
  = map (RoutingResource.set_connection None) rs ->
  (forall r, In r rs ->
     read_bits lines (RoutingResource._config_bit_coordinates r)
     = ret (pattern r mod 2 ^ Z.of_nat (List.length (RoutingResource._config_bit_coordinates r)))) ->
  st_each (Tile.process_resource lines) rs' = (ret tt, rs).
Proof.
  intro H. revert rs'. induction H as [|r rs Hr _ IH]; intros rs' Hsame Hread.
  - destruct rs'; [reflexivity|discriminate].
  - destruct rs' as [|r' rs']; [discriminate|].
    simpl in Hsame.
    assert (Hr' : RoutingResource.set_connection None r'
                  = RoutingResource.set_connection None r) by congruence.
    assert (Hrs' : map (RoutingResource.set_connection None) rs'
                   = map (RoutingResource.set_connection None) rs) by congruence.
    destruct (resource_round_trip r r' Hr Hr') as (_ & Hp & Hset).
    assert (Hcoords : RoutingResource._config_bit_coordinates r'
                      = RoutingResource._config_bit_coordinates r).
    { destruct r, r'. unfold RoutingResource.set_connection in Hr'. simpl in *.
      now inversion Hr'. }
    cbn [st_each]. unfold Tile.process_resource at 1.
    unfold RoutingResource.get_config_bit_coordinates. rewrite Hcoords.
    rewrite (Hread r (or_introl eq_refl)). rewrite Z.mod_small by exact Hp.
    unfold ret at 1. rewrite Hset.
    rewrite (IH rs' Hrs'); [reflexivity|].
    intros r0 Hin. apply Hread. now right.
Qed.

(** ** The state of the base class, encoded and decoded *)

Lemma base_config_writes (base : Tile.t) (b : BitstreamBuilder.t) :
  Forall encodable (Tile._routing_switches base ++ Tile._buffers base) ->
  Tile._config_bitstream_routing_resources base b
  = apply_writes (List.concat (map setting_writes (resource_settings base))) b.
Proof.
  intro H. apply Forall_app in H. destruct H as [Hs Hb].
  unfold Tile._config_bitstream_routing_resources, resource_settings.
  rewrite map_app, map_app, concat_app, apply_writes_app.
  rewrite (config_resources_writes _ b Hs). unfold bind.
  destruct (apply_writes _ b); [reflexivity|].
  now apply config_resources_writes.
Qed.

Lemma base_decoded (lines : list line) (base base' : Tile.t) :
  Forall resource_ok (Tile._routing_switches base ++ Tile._buffers base) ->
  disconnected base' = disconnected base ->
  (forall cs v, In (Bits cs v) (resource_settings base) ->
                read_bits lines cs = ret (v mod 2 ^ Z.of_nat (List.length cs))) ->
  Tile._process_bitstream_routing_resources lines base' = (ret tt, base).
Proof.
  intros H Hsame Hread. apply Forall_app in H. destruct H as [Hs Hb].
  destruct base as [o f x y ws sw bf], base' as [o' f' x' y' ws' sw' bf'].
  unfold disconnected, Tile.with_resources in Hsame. simpl in *.
  injection Hsame as -> -> -> -> -> Esw Ebf.
  unfold Tile._process_bitstream_routing_resources, Tile.each_resource. simpl.
  assert (R : forall r, In r (sw ++ bf) ->
                read_bits lines (RoutingResource._config_bit_coordinates r)
                = ret (pattern r
                       mod 2 ^ Z.of_nat (List.length
                                           (RoutingResource._config_bit_coordinates r)))).
  { intros r Hin. apply Hread. unfold resource_settings. simpl.
    change (Bits (RoutingResource._config_bit_coordinates r) (pattern r))
      with (resource_setting r).
    now apply in_map. }
  rewrite (resources_decoded lines sw sw' Hs Esw)
    by (intros r Hin; apply R; apply in_or_app; now left).
  rewrite (resources_decoded lines bf bf' Hb Ebf)
    by (intros r Hin; apply R; apply in_or_app; now right).
  reflexivity.
Qed.

(** ** The logic tile, encoded and decoded *)

Lemma skipn_nth {A} (l : list A) (n : nat) (a : A) :
  nth_error l n = Some a -> skipn n l = a :: skipn (S n) l.
Proof.
  revert n. induction l as [|b l IH]; intros [|n]; simpl; try discriminate.
  - intro H. now inversion H.
  - intro H. now apply IH.
Qed.

Lemma write_lc_writes (lcs : list (list Coord)) (vals : list Z) (idx : nat)
    (b : BitstreamBuilder.t) :
  (idx + List.length vals <= List.length lcs)%nat ->
  LogicTile.write_lc lcs idx vals b
  = apply_writes
      (List.concat (map setting_writes
                      (map (fun p => Bits (fst p) (snd p)) (combine (skipn idx lcs) vals)))) b.
Proof.
  revert idx b. induction vals as [|v vals IH]; intros idx b H.
  - simpl. now rewrite combine_nil.
  - cbn [LogicTile.write_lc]. simpl in H.
    destruct (nth_error lcs idx) as [coords|] eqn:E;
      [|apply nth_error_None in E; lia].
    rewrite (get_nonneg lcs (Z.of_nat idx) coords) by (try lia; now rewrite Nat2Z.id).
    rewrite (skipn_nth _ _ _ E). cbn [combine map List.concat fst snd setting_writes].
    unfold bind, ret. rewrite apply_writes_app, write_bits_writes.
    unfold bind. destruct (apply_writes _ b); [reflexivity|].
    apply IH. lia.
Qed.

Lemma set_bit_writes c v b :
  BitstreamBuilder.set_bit c v b = apply_writes [(c, v)] b.
Proof.
  cbn [apply_writes]. unfold bind, ret. now destruct (BitstreamBuilder.set_bit c v b).
Qed.

(** One more run of writes before the rest of an encoding. *)
Lemma encode_step {A} (seg rest : list (Coord * bool)) (b : BitstreamBuilder.t)
    (f g : BitstreamBuilder.t -> res A) :
  (forall b', f b' = bind (apply_writes rest b') g) ->
  bind (apply_writes seg b) f = bind (apply_writes (seg ++ rest) b) g.
Proof.
  intro H. rewrite apply_writes_app.
  destruct (apply_writes seg b) as [e|b'] eqn:E; [reflexivity|].
  change (f b' = bind (apply_writes rest b') g). apply H.
Qed.

Lemma logic_generate (t : LogicTile.t) (cfg : LogicTileBitConfig.t) :
  LogicTile._bit_config t = Some cfg ->
  (List.length (LogicTile.lc_bits t) <= List.length (LogicTileBitConfig.lc_set_bits cfg))%nat ->
  Forall encodable (tile_resources (Logic t)) ->
  LogicTile.generate_bitstream t
  = encode (LogicTileBitConfig.width cfg) (LogicTileBitConfig.height cfg)
      (logic_settings t cfg ++ resource_settings (LogicTile.base t)).
Proof.
  intros Hc Hl Hr. unfold LogicTile.generate_bitstream, encode. rewrite Hc.
  unfold the_config, logic_settings. unfold bind at 1. unfold ret at 1. cbv beta iota.
  rewrite !map_app, !concat_app. cbn [map List.concat setting_writes].
  rewrite app_nil_r. rewrite <- !app_assoc.
  rewrite set_bit_writes. apply encode_step. intro b1.
  rewrite write_bits_writes. apply encode_step. intro b2.
  rewrite (write_lc_writes _ _ 0 b2) by (simpl; lia). cbn [skipn].
  apply encode_step. intro b3.
  rewrite set_bit_writes. apply encode_step. intro b4.
  rewrite (base_config_writes (LogicTile.base t) b4 Hr).
  unfold bind. now destruct (apply_writes _ b4).
Qed.

Lemma combine_nth_In {A B} (l : list A) (l' : list B) (j : nat) (a : A) (b : B) :
  nth_error l j = Some a -> nth_error l' j = Some b -> In (a, b) (combine l l').
Proof.
  revert l' j. induction l as [|x l IH]; intros [|y l'] [|j]; simpl; try discriminate.
  - intros H1 H2. inversion H1. inversion H2. now left.
  - intros H1 H2. right. now apply (IH l' j).
Qed.

(** The loop of [process_bitstream] over the lookup cells, from the round
    [idx] on, when the lines hold the values [vals] and the values before
    [idx] are stored already. *)
Lemma read_lc_stores (lines : list line) (vals : list Z) (rest : list (list Coord))
    (idx : nat) (s : LogicTile.t) :
  (forall j coords, nth_error rest j = Some coords ->
     exists v, nth_error vals (idx + j) = Some v /\ read_bits lines coords = ret v) ->
  List.length (LogicTile.lc_bits s) = List.length vals ->
  (idx + List.length rest = List.length vals)%nat ->
  (forall j, (j < idx)%nat -> nth_error (LogicTile.lc_bits s) j = nth_error vals j) ->
  LogicTile.read_lc lines idx rest s = (ret tt, snd (LogicTile.set_lc_bits vals s)).
Proof.
  revert idx s. induction rest as [|coords rest IH]; intros idx s Hread Hlen Hidx Hpre.
  - simpl in *. unfold st_ret. f_equal.
    assert (E : LogicTile.lc_bits s = vals).
    { apply nth_error_ext. intro j.
      destruct (Nat.lt_ge_cases j idx) as [Hj|Hj]; [now apply Hpre|].
      rewrite (proj2 (nth_error_None _ _)) by lia.
      now rewrite (proj2 (nth_error_None _ _)) by lia. }
    destruct s. simpl in *. now subst.
  - cbn [LogicTile.read_lc]. simpl in Hidx.
    destruct (Hread 0%nat coords eq_refl) as (v & Hv & Hr).
    rewrite Nat.add_0_r in Hv.
    unfold st_bind at 1, st_lift at 1. rewrite Hr. unfold ret at 1. cbv beta iota.
    unfold st_bind at 1, st_get at 1. cbv beta iota.
    unfold st_bind at 1, st_lift at 1.
    assert (Hset : PyList.set (LogicTile.lc_bits s) (Z.of_nat idx) v
                   = ret (PyList.update (LogicTile.lc_bits s) idx v)).
    { unfold PyList.set. rewrite index_in_range by lia.
      rewrite Z.mod_small by lia. now rewrite Nat2Z.id. }
    rewrite Hset. unfold ret at 1. cbv beta iota.
    unfold st_bind at 1, LogicTile.set_lc_bits at 1. cbv beta iota.
    rewrite IH.
    + destruct s. reflexivity.
    + intros j c Hc. destruct (Hread (S j) c Hc) as (v' & Hv' & Hr').
      exists v'. split; [|exact Hr']. now replace (S idx + j)%nat with (idx + S j)%nat by lia.
    + simpl. now rewrite update_length.
    + lia.
    + intros j Hj. simpl.
      destruct (Nat.eq_dec j idx) as [->|Hne].
      * rewrite update_nth_same by lia. now rewrite Hv.
      * rewrite update_nth_other by exact Hne. apply Hpre. lia.
Qed.

Lemma truthy_b2z (v : bool) : truthy (Z.b2z v) = v.
Proof. now destruct v. Qed.

Lemma b2z_truthy (v : Z) : v = 0 \/ v = 1 -> Z.b2z (truthy v) = v.
Proof. intros [->| ->]; reflexivity. Qed.

Lemma logic_round_trip (t t' : LogicTile.t) (cfg : LogicTileBitConfig.t) :
  logic_tile_ok t cfg ->
  logic_same_topology t t' ->
  tile_round_trip (Logic t) (Logic t') = ret (Logic t).
Proof.
  intros (Hc & Hl & Hcarry & (G & ND & Hv) & Hr) (Hc' & Hbase & Hl').
  set (w := LogicTileBitConfig.width cfg) in *.
  set (h := LogicTileBitConfig.height cfg) in *.
  assert (Hwh : 1 <= w /\ 1 <= h).
  { inversion G as [|c ? [? ?] _]. lia. }
  destruct Hwh as [Hw Hh].
  destruct (encode_reads w h _ Hw Hh G ND) as (bits & lines & E & L & RF & RB & _).
  assert (RBv : forall cs v,
             In (Bits cs v) (logic_settings t cfg ++ resource_settings (LogicTile.base t)) ->
             read_bits lines cs = ret v).
  { intros cs v Hin. rewrite (RB cs v Hin).
    rewrite Forall_forall in Hv. specialize (Hv _ Hin). simpl in Hv.
    now rewrite Z.mod_small. }
  unfold tile_round_trip, tile_generate_bitstream.
  rewrite (logic_generate t cfg Hc)
    by (try lia; apply resources_ok_encodable; exact Hr).
  fold w h. rewrite E. unfold bind at 1. cbv beta iota delta [ret].
  rewrite L. unfold bind at 1. cbv beta iota delta [ret].
  unfold tile_process_bitstream, as_tile, LogicTile.process_bitstream.
  (* the routing resources *)
  unfold st_bind at 1. unfold LogicTile.on_base at 1.
  rewrite (base_decoded lines (LogicTile.base t) (LogicTile.base t') Hr Hbase)
    by (intros cs v Hin; apply RB; apply in_or_app; now right).
  cbv beta iota.
  unfold st_bind at 1, st_get at 1. cbv beta iota.
  unfold st_bind at 1, st_lift at 1.
  replace (LogicTile._bit_config (LogicTile.with_base (LogicTile.base t) t')) with (Some cfg)
    by (simpl; congruence).
  unfold the_config at 1. cbv beta iota delta [ret].
  (* the carry bit *)
  unfold st_bind at 1, st_lift at 1.
  rewrite (RF (LogicTileBitConfig.carry_in_set_bit cfg) (truthy (LogicTile.carry_in_set t)))
    by (apply in_or_app; left; simpl; auto).
  cbv beta iota delta [ret]. rewrite (b2z_truthy _ Hcarry).
  unfold st_bind at 1, LogicTile.set_carry_in_set at 1. cbv beta iota.
  (* the column buffer control *)
  unfold st_bind at 1, st_lift at 1.
  rewrite (RBv (LogicTileBitConfig.col_buf_ctrl_set_bits cfg) (LogicTile.col_buf_ctrl t))
    by (apply in_or_app; left; simpl; auto).
  cbv beta iota delta [ret].
  unfold st_bind at 1, LogicTile.set_col_buf_ctrl at 1. cbv beta iota.
  (* the lookup cells *)
  unfold st_bind at 1.
  rewrite (read_lc_stores lines (LogicTile.lc_bits t)).
  - cbv beta iota.
    unfold st_bind at 1, st_lift at 1.
    rewrite (RF (LogicTileBitConfig.neg_clk_set_bit cfg) (LogicTile.neg_clk t))
      by (apply in_or_app; left; unfold logic_settings; rewrite !in_app_iff; simpl; auto).
    cbv beta iota delta [ret]. rewrite truthy_b2z.
    destruct t, t'. simpl in *. subst. reflexivity.
  - intros j coords Hj. rewrite Nat.add_0_l.
    destruct (nth_error (LogicTile.lc_bits t) j) as [v|] eqn:Ev.
    + exists v. split; [reflexivity|]. apply RBv. apply in_or_app. left.
      unfold logic_settings. rewrite !in_app_iff. right. left.
      change (Bits coords v) with ((fun p => Bits (fst p) (snd p)) (coords, v)).
      apply in_map. now apply (combine_nth_In _ _ j).
    + exfalso. apply nth_error_None in Ev.
      assert (j < List.length (LogicTileBitConfig.lc_set_bits cfg))%nat
        by (apply nth_error_Some; congruence).
      lia.
  - simpl. exact Hl'.
  - simpl. lia.
  - intros j Hj. lia.
Qed.

(** Round trip of a logic tile: what it encodes, decoded into a tile of the
    same topology, gives the tile back, every setting and every connection
    included. *)
Theorem logic_tile_round_trip (t t' : LogicTile.t) (cfg : LogicTileBitConfig.t) :
  logic_tile_ok t cfg ->
  logic_same_topology t t' ->
  tile_round_trip (Logic t) (Logic t') = ret (Logic t).
Proof. exact (logic_round_trip t t' cfg). Qed.


Lemma fixture_logic_tile_ok :
  logic_tile_ok Fixture.logic_tile
    (LogicTileBitConfig.mk 16 3 (0, 0)
       [(0, 1); (1, 1); (2, 1); (3, 1); (4, 1); (5, 1); (6, 1); (7, 1)]
       [[(0, 2); (1, 2)]; [(2, 2); (3, 2)]; [(4, 2); (5, 2)]; [(6, 2); (7, 2)];
        [(8, 2); (9, 2)]; [(10, 2); (11, 2)]; [(12, 2); (13, 2)]; [(14, 2); (15, 2)]]
       (1, 0)).
Proof.
  unfold logic_tile_ok. split; [reflexivity|]. split; [reflexivity|].
  split; [right; reflexivity|]. split.
  - unfold settings_ok. vm_compute List.concat. vm_compute app. split; [|split].
    + repeat constructor; simpl; lia.
    + repeat (constructor; [simpl; intuition congruence|]). constructor.
    + repeat constructor; simpl; lia.
  - vm_compute tile_resources. constructor; [|constructor].
    unfold resource_ok, candidates. simpl. split; [|split; [|split]].
    + repeat (constructor; [simpl; intuition congruence|]). constructor.
    + repeat (constructor; [simpl; intuition congruence|]). constructor.
    + repeat constructor; simpl; lia.
    + right. left. reflexivity.
Qed.

(** The logic tile of the fixture, configured by decoding: its encoding,
    decoded into the logic tile of the device before configuration, gives it
    back, the connection of its routing switch included. *)
Lemma logic_tile_round_trip_witness :
  tile_round_trip (Logic Fixture.logic_tile) (Logic Fixture.blank_logic_tile)
  = ret (Logic Fixture.logic_tile).
Proof.
  apply (logic_tile_round_trip _ _ _ fixture_logic_tile_ok).
  unfold logic_same_topology. split; [|split]; vm_compute; reflexivity.
Defined.

(** ** The block-RAM tiles, encoded and decoded *)

Lemma ramb_generate (t : RambTile.t) (cfg : RambTileBitConfig.t) :
  RambTile._ramb_tile_bit_config t = Some cfg ->
  Forall encodable (tile_resources (Ramb t)) ->
  RambTile.generate_bitstream t
  = encode (RambTileBitConfig.width cfg) (RambTileBitConfig.height cfg)
      (ramb_settings t cfg ++ resource_settings (RambTile.base t)).
Proof.
  intros Hc Hr. unfold RambTile.generate_bitstream, encode. rewrite Hc.
  unfold the_config, ramb_settings. unfold bind at 1. unfold ret at 1. cbv beta iota delta [ret].
  rewrite !map_app, !concat_app. cbn [map List.concat setting_writes].
  rewrite app_nil_r. rewrite <- !app_assoc.
  rewrite write_bits_writes. apply encode_step. intro b1.
  rewrite set_bit_writes. apply encode_step. intro b2.
  rewrite set_bit_writes. apply encode_step. intro b3.
  rewrite (base_config_writes (RambTile.base t) b3 Hr).
  unfold bind. now destruct (apply_writes _ b3).
Qed.

Lemma ramb_round_trip (t t' : RambTile.t) (cfg : RambTileBitConfig.t) :
  ramb_tile_ok t cfg ->
  ramb_same_topology t t' ->
  tile_round_trip (Ramb t) (Ramb t') = ret (Ramb t).
Proof.
  intros (Hc & (G & ND & Hv) & Hr) (Hc' & Hbase).
  set (w := RambTileBitConfig.width cfg) in *.
  set (h := RambTileBitConfig.height cfg) in *.
  assert (Hwh : 1 <= w /\ 1 <= h).
  { assert (Hin : In (RambTileBitConfig.negclk cfg)
                    (List.concat (map setting_coords
                       (ramb_settings t cfg ++ resource_settings (RambTile.base t))))).
    { apply (setting_coords_In (Flag (RambTileBitConfig.negclk cfg) (RambTile.negclk t)));
        [apply in_or_app; left; simpl; auto | now left]. }
    rewrite Forall_forall in G. destruct (G _ Hin). lia. }
  destruct Hwh as [Hw Hh].
  destruct (encode_reads w h _ Hw Hh G ND) as (bits & lines & E & L & RF & RB & _).
  assert (RBv : forall cs v,
             In (Bits cs v) (ramb_settings t cfg ++ resource_settings (RambTile.base t)) ->
             read_bits lines cs = ret v).
  { intros cs v Hin. rewrite (RB cs v Hin).
    rewrite Forall_forall in Hv. specialize (Hv _ Hin). simpl in Hv.
    now rewrite Z.mod_small. }
  unfold tile_round_trip, tile_generate_bitstream.
  rewrite (ramb_generate t cfg Hc (resources_ok_encodable _ Hr)).
  fold w h. rewrite E. cbv beta iota delta [bind ret].
  rewrite L. cbv beta iota delta [ret].
  unfold tile_process_bitstream, as_tile, RambTile.process_bitstream.
  unfold st_bind at 1. unfold RambTile.on_base at 1.
  rewrite (base_decoded lines (RambTile.base t) (RambTile.base t') Hr Hbase)
    by (intros cs v Hin; apply RB; apply in_or_app; now right).
  cbv beta iota delta [ret].
  unfold st_bind at 1, st_get at 1. cbv beta iota delta [ret].
  unfold st_bind at 1, st_lift at 1.
  replace (RambTile._ramb_tile_bit_config (RambTile.with_base (RambTile.base t) t'))
    with (Some cfg) by (simpl; congruence).
  unfold the_config at 1. cbv beta iota delta [ret].
  unfold st_bind at 1, st_lift at 1.
  rewrite (RBv (RambTileBitConfig.col_buf_ctrl_set_bits cfg) (RambTile.col_buf_ctrl t))
    by (apply in_or_app; left; simpl; auto).
  cbv beta iota delta [ret].
  unfold st_bind at 1, RambTile.set_col_buf_ctrl at 1. cbv beta iota delta [ret].
  unfold st_bind at 1, st_lift at 1.
  rewrite (RF (RambTileBitConfig.negclk cfg) (RambTile.negclk t))
    by (apply in_or_app; left; simpl; auto).
  cbv beta iota delta [ret]. rewrite truthy_b2z.
  unfold st_bind at 1, RambTile.set_negclk at 1. cbv beta iota delta [ret].
  unfold st_bind at 1, st_lift at 1.
  rewrite (RF (RambTileBitConfig.ram_config_powerup cfg) (RambTile.ram_config_powerup t))
    by (apply in_or_app; left; simpl; auto).
  cbv beta iota delta [ret]. rewrite truthy_b2z.
  destruct t, t'. simpl in *. subst. reflexivity.
Qed.

(** Round trip of the read side of a block RAM: what it encodes, decoded
    into a tile of the same topology, gives the tile back, every setting and
    every connection included. *)
Theorem ramb_tile_round_trip (t t' : RambTile.t) (cfg : RambTileBitConfig.t) :
  ramb_tile_ok t cfg ->
  ramb_same_topology t t' ->
  tile_round_trip (Ramb t) (Ramb t') = ret (Ramb t).
Proof. exact (ramb_round_trip t t' cfg). Qed.

Lemma ramt_generate (t : RamtTile.t) (cfg : RamtTileBitConfig.t) :
  RamtTile._ramt_tile_bit_config t = Some cfg ->
  Forall encodable (tile_resources (Ramt t)) ->
  RamtTile.generate_bitstream t
  = encode (RamtTileBitConfig.width cfg) (RamtTileBitConfig.height cfg)
      (ramt_settings t cfg ++ resource_settings (RamtTile.base t)).
Proof.
  intros Hc Hr. unfold RamtTile.generate_bitstream, encode. rewrite Hc.
  unfold the_config, ramt_settings. unfold bind at 1. unfold ret at 1. cbv beta iota delta [ret].
  rewrite !map_app, !concat_app. cbn [map List.concat setting_writes].
  rewrite app_nil_r. rewrite <- !app_assoc.
  rewrite set_bit_writes. apply encode_step. intro b1.
  rewrite write_bits_writes. apply encode_step. intro b2.
  rewrite write_bits_writes. apply encode_step. intro b3.
  rewrite (base_config_writes (RamtTile.base t) b3 Hr).
  unfold bind. now destruct (apply_writes _ b3).
Qed.

Lemma ramt_round_trip (t t' : RamtTile.t) (cfg : RamtTileBitConfig.t) :
  ramt_tile_ok t cfg ->
  ramt_same_topology t t' ->
  tile_round_trip (Ramt t) (Ramt t') = ret (Ramt t).
Proof.
  intros (Hc & (G & ND & Hv) & Hr) (Hc' & Hbase).
  set (w := RamtTileBitConfig.width cfg) in *.
  set (h := RamtTileBitConfig.height cfg) in *.
  assert (Hwh : 1 <= w /\ 1 <= h).
  { inversion G as [|c ? [? ?] _]. lia. }
  destruct Hwh as [Hw Hh].
  destruct (encode_reads w h _ Hw Hh G ND) as (bits & lines & E & L & RF & RB & _).
  assert (RBv : forall cs v,
             In (Bits cs v) (ramt_settings t cfg ++ resource_settings (RamtTile.base t)) ->
             read_bits lines cs = ret v).
  { intros cs v Hin. rewrite (RB cs v Hin).
    rewrite Forall_forall in Hv. specialize (Hv _ Hin). simpl in Hv.
    now rewrite Z.mod_small. }
  unfold tile_round_trip, tile_generate_bitstream.
  rewrite (ramt_generate t cfg Hc (resources_ok_encodable _ Hr)).
  fold w h. rewrite E. cbv beta iota delta [bind ret].
  rewrite L. cbv beta iota delta [ret].
  unfold tile_process_bitstream, as_tile, RamtTile.process_bitstream.
  unfold st_bind at 1. unfold RamtTile.on_base at 1.
  rewrite (base_decoded lines (RamtTile.base t) (RamtTile.base t') Hr Hbase)
    by (intros cs v Hin; apply RB; apply in_or_app; now right).
  cbv beta iota delta [ret].
  unfold st_bind at 1, st_get at 1. cbv beta iota delta [ret].
  unfold st_bind at 1, st_lift at 1.
  replace (RamtTile._ramt_tile_bit_config (RamtTile.with_base (RamtTile.base t) t'))
    with (Some cfg) by (simpl; congruence).
  unfold the_config at 1. cbv beta iota delta [ret].
  unfold st_bind at 1, st_lift at 1.
  rewrite (RF (RamtTileBitConfig.negclk cfg) (RamtTile.negclk t))
    by (apply in_or_app; left; simpl; auto).
  cbv beta iota delta [ret]. rewrite truthy_b2z.
  unfold st_bind at 1, RamtTile.set_negclk at 1. cbv beta iota delta [ret].
  unfold st_bind at 1, st_lift at 1.
  rewrite (RBv (RamtTileBitConfig.ram_config_bits cfg) (RamtTile.ram_config t))
    by (apply in_or_app; left; simpl; auto).
  cbv beta iota delta [ret].
  unfold st_bind at 1, RamtTile.set_ram_config at 1. cbv beta iota delta [ret].
  unfold st_bind at 1, st_lift at 1.
  rewrite (RBv (RamtTileBitConfig.ram_cascade_bits cfg) (RamtTile.ram_cascade t))
    by (apply in_or_app; left; simpl; auto).
  cbv beta iota delta [ret].
  destruct t, t'. simpl in *. subst. reflexivity.
Qed.

(** Round trip of the write side of a block RAM: what it encodes, decoded
    into a tile of the same topology, gives the tile back, every setting and
    every connection included. *)
Theorem ramt_tile_round_trip (t t' : RamtTile.t) (cfg : RamtTileBitConfig.t) :
  ramt_tile_ok t cfg ->
  ramt_same_topology t t' ->
  tile_round_trip (Ramt t) (Ramt t') = ret (Ramt t).
Proof. exact (ramt_round_trip t t' cfg). Qed.

(** ** Reset of a tile, and the encoding after it *)












Lemma zero_text_rows (w h : Z) :
  1 <= w -> 1 <= h ->
  bitmap_lines (zero_text w h)
  = ret (repeat (repeat "0"%string (Z.to_nat w)) (Z.to_nat h)).
Proof.
  intros Hw Hh. unfold zero_text.
  rewrite (bitmap_lines_rendered w h) by (try apply init_shape; lia).
  unfold rendered, BitstreamBuilder.init, PyList.replicate. simpl.
  now rewrite !map_repeat.
Qed.

Lemma io_generate (t : IoTile.t) (cfg : IoTileBitConfig.t) (c0 : Coord) (cs : list Coord) :
  IoTile._bit_config t = Some cfg ->
  IoTileBitConfig.col_buf_ctrl_set_bits cfg = c0 :: cs ->
  Forall encodable (tile_resources (Io t)) ->
  IoTile.generate_bitstream t
  = encode (IoTileBitConfig.width cfg) (IoTileBitConfig.height cfg)
      (io_settings t c0 cfg ++ resource_settings (IoTile.base t)).
Proof.
  intros Hc H0 Hr. unfold IoTile.generate_bitstream, encode. rewrite Hc.
  unfold the_config, io_settings. unfold bind at 1. unfold ret at 1. cbv beta iota.
  rewrite H0.
  change (PyList.get (c0 :: cs) 0) with (@inr exn Coord c0).
  unfold bind at 1. cbv beta iota.
  rewrite !map_app, !concat_app. cbn [map List.concat setting_writes].
  rewrite app_nil_r. rewrite <- !app_assoc.
  rewrite set_bit_writes. apply encode_step. intro b1.
  rewrite write_bits_writes. apply encode_step. intro b2.
  rewrite write_bits_writes. apply encode_step. intro b3.
  rewrite set_bit_writes. apply encode_step. intro b4.
  rewrite set_bit_writes. apply encode_step. intro b5.
  rewrite set_bit_writes. apply encode_step. intro b6.
  rewrite set_bit_writes. apply encode_step. intro b7.
  rewrite set_bit_writes. apply encode_step. intro b8.
  rewrite set_bit_writes. apply encode_step. intro b9.
  rewrite set_bit_writes. apply encode_step. intro b10.
  rewrite write_bits_writes. apply encode_step. intro b11.
  rewrite (base_config_writes (IoTile.base t) b11 Hr).
  unfold bind. now destruct (apply_writes _ b11).
Qed.




(** * Numerals *)

Lemma uint_digits (d : Decimal.uint) : all_digits (NilEmpty.string_of_uint d) = true.
Proof. induction d; simpl; auto. Qed.

Lemma uint_value (d : Decimal.uint) (acc : Z) :
  0 <= acc ->
  PyStr.digits_value (NilEmpty.string_of_uint d) acc
  = Z.of_nat (Nat.of_uint_acc d (Z.to_nat acc)).
Proof.
  revert acc. induction d; intros acc H; cbn [NilEmpty.string_of_uint PyStr.digits_value
    Nat.of_uint_acc]; [lia | ..];
    (rewrite IHd by (unfold PyStr.digit_value; simpl; lia);
     f_equal; f_equal; rewrite Nat.tail_mul_spec; unfold PyStr.digit_value; simpl; lia).
Qed.

Lemma of_nat_numeral (n : nat) : numeral (PyStr.of_nat n).
Proof.
  split; [|apply uint_digits].
  unfold PyStr.of_nat. intro E.
  assert (D : Nat.to_uint n = Decimal.Nil) by (destruct (Nat.to_uint n); simpl in E; congruence).
  pose proof (DecimalNat.Unsigned.of_to n) as O. rewrite D in O. simpl in O. subst n.
  discriminate D.
Qed.

Lemma of_nat_value (n : nat) : PyStr.digits_value (PyStr.of_nat n) 0 = Z.of_nat n.
Proof.
  unfold PyStr.of_nat. rewrite uint_value by lia. simpl Z.to_nat.
  f_equal. apply DecimalNat.Unsigned.of_to.
Qed.




Lemma last_char (s : string) :
  s <> EmptyString -> exists r c, s = (r ++ String c EmptyString)%string.
Proof.
  induction s as [|a r IH]; [congruence|]. intros _.
  destruct r as [|b r'].
  - exists EmptyString, a. reflexivity.
  - destruct IH as (r0 & c & E); [discriminate|]. rewrite E.
    exists (String a r0), c. reflexivity.
Qed.






Lemma take_digits_stop (s r : string) (c : ascii) :
  all_digits s = true -> PyStr.is_digit c = false ->
  PyStr.take_digits (s ++ String c r) = (s, String c r).
Proof.
  intros D H. induction s as [|a s IH]; simpl.
  - now rewrite H.
  - simpl in D. apply andb_true_iff in D. destruct D as [Da Ds].
    rewrite Da, (IH Ds). reflexivity.
Qed.

Lemma search_skip_digits (open close : ascii) (s r : string) :
  all_digits s = true -> PyStr.is_digit open = false ->
  PyStr.search_digits open close (s ++ r) = PyStr.search_digits open close r.
Proof.
  intros D H. induction s as [|a s IH]; [reflexivity|].
  simpl in D. apply andb_true_iff in D. destruct D as [Da Ds].
  cbn [append PyStr.search_digits].
  destruct (Ascii.eqb_spec a open); [subst; congruence|]. now apply IH.
Qed.

Lemma search_no_open (open close : ascii) (s : string) :
  forallb (fun c => negb (Ascii.eqb c open)) (list_ascii_of_string s) = true ->
  PyStr.search_digits open close s = None.
Proof.
  induction s as [|c r IH]; [reflexivity|]. simpl. intro H.
  apply andb_true_iff in H. destruct H as [Hc Hr]. apply negb_true_iff in Hc.
  rewrite Hc. now apply IH.
Qed.

(** The bit addresses of the chipdb.  The address [B<row>[<column>]],
    written with the decimal numerals of a row [y] and a column [x], is
    parsed to the coordinate [(x, y)], column first.  A text without an
    opening bracket is no address: "Invalid bit config". *)
Theorem bit_address_parsed :
  (forall x y : nat,
     DeviceConfig._get_config_bit_coordinates (bit_address x y)
     = ret (Z.of_nat x, Z.of_nat y))
  /\ (forall s,
        forallb (fun c => negb (Ascii.eqb c "[")) (list_ascii_of_string s) = true ->
        DeviceConfig._get_config_bit_coordinates s = raise MalformedAddress).
Proof.
  split.
  - intros x y. unfold DeviceConfig._get_config_bit_coordinates, bit_address.
    destruct (of_nat_numeral x) as [Nx Dx]. destruct (of_nat_numeral y) as [Ny Dy].
    assert (X : PyStr.search_digits "[" "]"
                  ("B" ++ PyStr.of_nat y ++ "[" ++ PyStr.of_nat x ++ "]")
                = Some (Z.of_nat x)).
    { cbn [append PyStr.search_digits]. simpl Ascii.eqb. cbv iota.
      rewrite (search_skip_digits "[" "]" _ _ Dy eq_refl).
      cbn [append PyStr.search_digits]. simpl Ascii.eqb. cbv iota.
      rewrite (take_digits_stop _ "" "]" Dx eq_refl).
      destruct (PyStr.of_nat x) eqn:E; [congruence|]. simpl Ascii.eqb. cbv iota.
      rewrite <- E. now rewrite of_nat_value. }
    assert (Y : PyStr.search_digits "B" "["
                  ("B" ++ PyStr.of_nat y ++ "[" ++ PyStr.of_nat x ++ "]")
                = Some (Z.of_nat y)).
    { cbn [append PyStr.search_digits]. simpl Ascii.eqb. cbv iota.
      rewrite (take_digits_stop _ _ "[" Dy eq_refl).
      destruct (PyStr.of_nat y) eqn:E; [congruence|]. simpl Ascii.eqb. cbv iota.
      rewrite <- E. now rewrite of_nat_value. }
    rewrite X, Y. reflexivity.
  - intros s H. unfold DeviceConfig._get_config_bit_coordinates.
    now rewrite (search_no_open "[" "]" s H).
Qed.

(** The address of column 11 in row 6, and a text without a bracket. *)
Lemma bit_address_parsed_witness :
  DeviceConfig._get_config_bit_coordinates "B6[11]" = ret (11, 6)
  /\ DeviceConfig._get_config_bit_coordinates "B6" = raise MalformedAddress.
Proof.
  destruct bit_address_parsed as [A B]. split.
  - exact (A 11%nat 6%nat).
  - apply B. reflexivity.
Defined.

(** * The IO tile, encoded and decoded *)

Lemma testbit_b2z (b : bool) (i : nat) :
  Z.b2z (Z.testbit (Z.b2z b) (Z.of_nat i)) = match i with O => Z.b2z b | S _ => 0 end.
Proof.
  destruct i.
  - destruct b; reflexivity.
  - destruct b.
    + change (Z.b2z true) with 1.
      rewrite Z.bits_above_log2; [reflexivity | lia | simpl; lia].
    + change (Z.b2z false) with 0. now rewrite Z.testbit_0_l.
Qed.

Ltac io_norm :=
  cbn [IoTile.base IoTile._bit_config IoTile.col_buf_ctrl IoTile.iob_0_pintype
       IoTile.iob_1_pintype IoTile.icegate IoTile.io_ctrl_ie_0 IoTile.io_ctrl_ie_1
       IoTile.io_ctrl_lvds IoTile.io_ctrl_ren_0 IoTile.io_ctrl_ren_1 IoTile.negclk
       IoTile.pll_config IoTile.with_base].

Ltac io_bits RBv cs v :=
  unfold st_bind at 1, st_lift at 1;
  rewrite (RBv cs v) by (apply in_or_app; left; simpl; auto 20);
  cbv beta iota delta [ret];
  unfold st_bind at 1;
  unfold IoTile.set_iob_0_pintype at 1 || unfold IoTile.set_iob_1_pintype at 1
    || unfold IoTile.set_pll_config at 1;
  cbv beta iota delta [ret]; io_norm.

Ltac io_flag RF c v :=
  unfold st_bind at 1, IoTile.read_flag at 1, st_bind at 1, st_lift at 1;
  rewrite (RF c v) by (apply in_or_app; left; simpl; auto 20);
  cbv beta iota delta [ret]; rewrite truthy_b2z;
  unfold IoTile.set_icegate at 1 || unfold IoTile.set_io_ctrl_ie_0 at 1
    || unfold IoTile.set_io_ctrl_ie_1 at 1 || unfold IoTile.set_io_ctrl_lvds at 1
    || unfold IoTile.set_io_ctrl_ren_0 at 1 || unfold IoTile.set_io_ctrl_ren_1 at 1
    || unfold IoTile.set_negclk at 1;
  cbv beta iota delta [ret]; io_norm.

Lemma io_round_trip (t t' : IoTile.t) (cfg : IoTileBitConfig.t)
    (c0 : Coord) (cs : list Coord) :
  io_tile_ok t cfg c0 cs ->
  io_same_topology t t' ->
  tile_round_trip (Io t) (Io t') = ret (Io (io_truth t)).
Proof.
  intros (Hc & H0 & (G & ND & Hv) & Gcs & NDcs & Hr) (Hc' & Hbase).
  set (w := IoTileBitConfig.width cfg) in *.
  set (h := IoTileBitConfig.height cfg) in *.
  assert (Hwh : 1 <= w /\ 1 <= h).
  { assert (Hin : In c0 (List.concat (map setting_coords
                       (io_settings t c0 cfg ++ resource_settings (IoTile.base t))))).
    { apply (setting_coords_In (Flag c0 (truthy (IoTile.col_buf_ctrl t))));
        [apply in_or_app; left; simpl; auto | now left]. }
    rewrite Forall_forall in G. destruct (G _ Hin). lia. }
  destruct Hwh as [Hw Hh].
  destruct (encode_reads w h _ Hw Hh G ND) as (bits & lines & E & L & RF & RB & _ & RU).
  assert (RBv : forall cs v,
             In (Bits cs v) (io_settings t c0 cfg ++ resource_settings (IoTile.base t)) ->
             read_bits lines cs = ret v).
  { intros cs1 v Hin. rewrite (RB cs1 v Hin).
    rewrite Forall_forall in Hv. specialize (Hv _ Hin). simpl in Hv.
    now rewrite Z.mod_small. }
  assert (RC : read_bits lines (c0 :: cs) = ret (Z.b2z (truthy (IoTile.col_buf_ctrl t)))).
  { rewrite (read_bits_low lines (c0 :: cs) (Z.b2z (truthy (IoTile.col_buf_ctrl t)))).
    - f_equal. apply Z.mod_small. split; [now destruct (truthy _)|].
      apply Z.lt_le_trans with (2 ^ 1); [now destruct (truthy _)|].
      apply Z.pow_le_mono_r; simpl List.length; lia.
    - intros i c Hi. rewrite testbit_b2z. destruct i as [|i]; simpl in Hi.
      + inversion Hi. subst c. apply RF. apply in_or_app. left. simpl. auto.
      + assert (Hin : In c cs) by (eapply nth_error_In; eauto).
        apply RU.
        * rewrite Forall_forall in Gcs. now apply Gcs.
        * intro Hw'. apply NoDup_app_remove_l in NDcs as ND'.
          clear - NDcs Hin Hw'. induction cs as [|a cs IH]; [contradiction|].
          simpl in NDcs. inversion NDcs as [|? ? Hn Hnd]. subst.
          destruct Hin as [->|Hin]; [apply Hn; apply in_or_app; now right|].
          now apply IH. }
  unfold tile_round_trip, tile_generate_bitstream.
  rewrite (io_generate t cfg c0 cs Hc H0 (resources_ok_encodable _ Hr)).
  fold w h. rewrite E. cbv beta iota delta [bind ret].
  rewrite L. cbv beta iota delta [ret].
  unfold tile_process_bitstream, as_tile, IoTile.process_bitstream.
  unfold st_bind at 1. unfold IoTile.on_base at 1.
  rewrite (base_decoded lines (IoTile.base t) (IoTile.base t') Hr Hbase)
    by (intros cs1 v Hin; apply RB; apply in_or_app; now right).
  cbv beta iota delta [ret].
  unfold st_bind at 1, st_get at 1. cbv beta iota delta [ret].
  unfold st_bind at 1, st_lift at 1.
  replace (IoTile._bit_config (IoTile.with_base (IoTile.base t) t'))
    with (Some cfg) by (simpl; congruence).
  unfold the_config at 1. cbv beta iota delta [ret].
  unfold st_bind at 1, st_lift at 1.
  rewrite H0, RC. cbv beta iota delta [ret].
  unfold st_bind at 1, IoTile.set_col_buf_ctrl at 1. cbv beta iota delta [ret].
  destruct t' as [b' o' f1' f2' f3' f4' f5' f6' f7' f8' f9' f10' f11']. io_norm.
  io_bits RBv (IoTileBitConfig.iob_0_pintype cfg) (IoTile.iob_0_pintype t).
  io_bits RBv (IoTileBitConfig.iob_1_pintype cfg) (IoTile.iob_1_pintype t).
  io_flag RF (IoTileBitConfig.icegate cfg) (IoTile.icegate t).
  io_flag RF (IoTileBitConfig.io_ctrl_ie_0 cfg) (IoTile.io_ctrl_ie_0 t).
  io_flag RF (IoTileBitConfig.io_ctrl_ie_1 cfg) (IoTile.io_ctrl_ie_1 t).
  io_flag RF (IoTileBitConfig.io_ctrl_lvds cfg) (IoTile.io_ctrl_lvds t).
  io_flag RF (IoTileBitConfig.io_ctrl_ren_0 cfg) (IoTile.io_ctrl_ren_0 t).
  io_flag RF (IoTileBitConfig.io_ctrl_ren_1 cfg) (IoTile.io_ctrl_ren_1 t).
  io_flag RF (IoTileBitConfig.negclk cfg) (IoTile.negclk t).
  unfold st_bind at 1, st_lift at 1.
  rewrite (RBv (IoTileBitConfig.pll_config cfg) (IoTile.pll_config t))
    by (apply in_or_app; left; simpl; auto 20).
  cbv beta iota delta [ret].
  unfold IoTile.set_pll_config, io_truth, IoTile.set_col_buf_ctrl. simpl in Hc'.
  destruct t. simpl in *. subst. reflexivity.
Qed.

(** Round trip of an IO tile: what it encodes, decoded into a tile of the
    same topology, gives the tile back with every connection and every
    setting but the column buffer control, which comes back as its truth
    value: 0 stays 0, any other value becomes 1. *)
Theorem io_tile_round_trip (t t' : IoTile.t) (cfg : IoTileBitConfig.t)
    (c0 : Coord) (cs : list Coord) :
  io_tile_ok t cfg c0 cs ->
  io_same_topology t t' ->
  tile_round_trip (Io t) (Io t') = ret (Io (io_truth t)).
Proof. exact (io_round_trip t t' cfg c0 cs). Qed.

(** * Deciding the side conditions *)

Lemma coord_eqb_eq (a b : Coord) : coord_eqb a b = true <-> a = b.
Proof.
  destruct a as [x y], b as [x' y']. unfold coord_eqb. simpl.
  rewrite andb_true_iff, !Z.eqb_eq. split; [intros [-> ->]; reflexivity|].
  intro H. inversion H. auto.
Qed.

Lemma distinctb_NoDup {A} (eqb : A -> A -> bool) (l : list A) :
  (forall a b, eqb a b = true <-> a = b) ->
  distinctb eqb l = true -> NoDup l.
Proof.
  intros E. induction l as [|a r IH]; simpl; intro H; [constructor|].
  apply andb_true_iff in H. destruct H as [N D]. constructor; [|auto].
  intro Hin. apply negb_true_iff in N.
  assert (existsb (eqb a) r = true); [|congruence].
  apply existsb_exists. exists a. split; [exact Hin|]. now apply E.
Qed.

Lemma in_gridb_in_grid (w h : Z) (c : Coord) : in_gridb w h c = true -> in_grid w h c.
Proof.
  unfold in_gridb, in_grid. rewrite !andb_true_iff, !Z.leb_le, !Z.ltb_lt. lia.
Qed.

Lemma forallb_Forall {A} (f : A -> bool) (P : A -> Prop) (l : list A) :
  (forall a, f a = true -> P a) -> forallb f l = true -> Forall P l.
Proof.
  intros H. induction l as [|a r IH]; simpl; intro E; [constructor|].
  apply andb_true_iff in E. destruct E. constructor; auto.
Qed.

Lemma settings_okb_sound (w h : Z) (ss : list setting) :
  settings_okb w h ss = true -> settings_ok w h ss.
Proof.
  unfold settings_okb, settings_ok. rewrite !andb_true_iff. intros [[G D] V].
  split; [|split].
  - revert G. apply forallb_Forall. apply in_gridb_in_grid.
  - revert D. apply distinctb_NoDup. apply coord_eqb_eq.
  - revert V. apply forallb_Forall. intros [c v|cs v]; [trivial|].
    rewrite andb_true_iff, Z.leb_le, Z.ltb_lt. lia.
Qed.

Lemma resource_okb_sound (r : RoutingResource.t) : resource_okb r = true -> resource_ok r.
Proof.
  unfold resource_okb, resource_ok. rewrite !andb_true_iff. intros [[[C P] V] K].
  split; [|split; [|split]].
  - revert C. apply distinctb_NoDup. apply NetRef_eqb_eq.
  - revert P. apply distinctb_NoDup. apply Z.eqb_eq.
  - revert V. apply forallb_Forall. intro p.
    rewrite andb_true_iff, !Z.ltb_lt. lia.
  - apply orb_true_iff in K. destruct K as [K|K].
    + left. now destruct (RoutingResource._connection r).
    + right. apply existsb_exists in K. destruct K as (x & Hin & E).
      apply NetRef_eqb_eq in E. now subst.
Qed.

Lemma resources_okb_sound (rs : list RoutingResource.t) :
  forallb resource_okb rs = true -> Forall resource_ok rs.
Proof. apply forallb_Forall. apply resource_okb_sound. Qed.

(** * Sample tiles through the round trips *)

(** The IO tile of the fixture holds the column buffer control 2; its
    encoding, decoded into the IO tile of the device before configuration,
    gives it back with the column buffer control 1. *)
Lemma io_tile_round_trip_witness :
  IoTile.col_buf_ctrl Fixture.io_tile = 2
  /\ tile_round_trip (Io Fixture.io_tile) (Io Sample.blank_io_tile)
     = ret (Io (io_truth Fixture.io_tile))
  /\ IoTile.col_buf_ctrl (io_truth Fixture.io_tile) = 1.
Proof.
  split; [reflexivity|]. split; [|reflexivity].
  apply (io_tile_round_trip Fixture.io_tile Sample.blank_io_tile Sample.io_schema
           (0, 0) [(1, 0); (2, 0); (3, 0); (4, 0); (5, 0); (6, 0); (7, 0)]).
  - unfold io_tile_ok. split; [vm_compute; reflexivity|]. split; [reflexivity|].
    split; [apply settings_okb_sound; vm_compute; reflexivity|].
    split; [apply (forallb_Forall (in_gridb 9 4)); [apply in_gridb_in_grid|];
            vm_compute; reflexivity|].
    split; [apply (distinctb_NoDup coord_eqb); [apply coord_eqb_eq|];
            vm_compute; reflexivity|].
    apply resources_okb_sound. vm_compute. reflexivity.
  - unfold io_same_topology. split; vm_compute; reflexivity.
Defined.

Lemma ramb_tile_round_trip_witness :
  tile_round_trip (Ramb Sample.ramb_tile) (Ramb Sample.blank_ramb_tile)
  = ret (Ramb Sample.ramb_tile)
  /\ RambTile.col_buf_ctrl Sample.ramb_tile = 5
  /\ map RoutingResource._connection (tile_resources (Ramb Sample.ramb_tile))
     = [Some 2%nat].
Proof.
  split; [|split; vm_compute; reflexivity].
  apply (ramb_tile_round_trip Sample.ramb_tile Sample.blank_ramb_tile Sample.ramb_schema).
  - unfold ramb_tile_ok. split; [vm_compute; reflexivity|].
    split; [apply settings_okb_sound; vm_compute; reflexivity|].
    apply resources_okb_sound. vm_compute. reflexivity.
  - unfold ramb_same_topology. split; vm_compute; reflexivity.
Defined.

Lemma ramt_tile_round_trip_witness :
  tile_round_trip (Ramt Sample.ramt_tile) (Ramt Sample.blank_ramt_tile)
  = ret (Ramt Sample.ramt_tile)
  /\ RamtTile.ram_config Sample.ramt_tile = 10
  /\ RamtTile.ram_cascade Sample.ramt_tile = 3
  /\ map RoutingResource._connection (tile_resources (Ramt Sample.ramt_tile))
     = [Some 2%nat].
Proof.
  split; [|repeat split; vm_compute; reflexivity].
  apply (ramt_tile_round_trip Sample.ramt_tile Sample.blank_ramt_tile Sample.ramt_schema).
  - unfold ramt_tile_ok. split; [vm_compute; reflexivity|].
    split; [apply settings_okb_sound; vm_compute; reflexivity|].
    apply resources_okb_sound. vm_compute. reflexivity.
  - unfold ramt_same_topology. split; vm_compute; reflexivity.
Defined.

(** The value 6 over three coordinates of a row of four cells: the bits 0,
    1, 1 are written at the coordinates in order, the fourth cell stays 0 and
    the three coordinates read back as 6. *)
Lemma bit_order_law_witness :
  exists b',
    write_bits [(2, 0); (0, 0); (3, 0)] 6 (BitstreamBuilder.init 4 1) = ret b'
    /\ bit b' (2, 0) = Some false /\ bit b' (0, 0) = Some true /\ bit b' (3, 0) = Some true
    /\ bit b' (1, 0) = Some false
    /\ read_bits (rendered b') [(2, 0); (0, 0); (3, 0)] = ret 6.
Proof.
  destruct (bit_order_law 4 1 [(2, 0); (0, 0); (3, 0)] 6 (BitstreamBuilder.init 4 1))
    as (b' & W & _ & B & U & R).
  - apply init_shape; lia.
  - apply (forallb_Forall (in_gridb 4 1)); [apply in_gridb_in_grid|reflexivity].
  - apply (distinctb_NoDup coord_eqb); [apply coord_eqb_eq|reflexivity].
  - exists b'. split; [exact W|].
    split; [exact (B 0%nat (2, 0) eq_refl)|].
    split; [exact (B 1%nat (0, 0) eq_refl)|].
    split; [exact (B 2%nat (3, 0) eq_refl)|].
    split.
    + rewrite U; [reflexivity | unfold in_grid; simpl; lia |].
      simpl. intros [H|[H|[H|[]]]]; discriminate H.
    + apply R. simpl. lia.
Defined.


(** * A connection through its pattern *)

(** A connection made by [connect] is encoded by [get_config_bits] as the
    pattern of the source, and [set_config_bits] on that pattern, in any
    resource with the same table, whatever its connection, makes the same
    connection again. *)
Theorem connection_round_trip (r r' : RoutingResource.t) (src_net : NetRef) :
  resource_ok r ->
  In src_net (candidates r) ->
  RoutingResource.set_connection None r' = RoutingResource.set_connection None r ->
  exists p connected,
    RoutingResource.connect src_net r = (ret tt, connected)
    /\ RoutingResource._connection connected = src_net
    /\ RoutingResource.get_config_bits connected = ret p
    /\ RoutingResource.set_config_bits p r' = (ret tt, connected).
Proof.
  intros (C & P & V & K) Hin Hsame.
  set (r1 := RoutingResource.set_connection src_net r).
  assert (Ok1 : resource_ok r1).
  { unfold resource_ok, candidates, r1. simpl.
    split; [exact C|]. split; [exact P|]. split; [exact V|].
    destruct src_net; [right; exact Hin | now left]. }
  assert (S1 : RoutingResource.set_connection None r' = RoutingResource.set_connection None r1).
  { rewrite Hsame. reflexivity. }
  destruct (resource_round_trip r1 r' Ok1 S1) as (G & _ & D).
  exists (pattern r1), r1. split; [now apply connect_candidate|].
  split; [reflexivity|]. split; [exact G|exact D].
Qed.

(** The routing switch of the fixture: connected to net 1 it encodes the
    pattern 10, and the pattern decoded into the switch connected to net 0
    connects it to net 1. *)
Lemma connection_round_trip_witness :
  exists p connected,
    RoutingResource.connect (Some 3%nat) Fixture.switch = (ret tt, connected)
    /\ RoutingResource._connection connected = Some 3%nat
    /\ RoutingResource.get_config_bits connected = ret p
    /\ RoutingResource.set_config_bits p
         (RoutingResource.set_connection (Some 2%nat) Fixture.switch)
       = (ret tt, connected).
Proof.
  apply (connection_round_trip Fixture.switch
           (RoutingResource.set_connection (Some 2%nat) Fixture.switch) (Some 3%nat)).
  - apply resource_okb_sound. reflexivity.
  - simpl. auto.
  - reflexivity.
Defined.

(** * The sections [read_file] returns *)





(** * What the methods of the device keep *)



Lemma with_tiles_same (d : DeviceConfig.t) :
  DeviceConfig.with_tiles (DeviceConfig._tiles d) d = d.
Proof. now destruct d. Qed.

Lemma set_lengths {A} (tiles tiles' : list (list A)) (x y : Z) (v : A) :
  DeviceConfig.grid_set tiles x y v = ret tiles' ->
  map (@List.length A) tiles' = map (@List.length A) tiles.
Proof.
  unfold DeviceConfig.grid_set, bind.
  destruct (PyList.get tiles y) as [e|row] eqn:R; [discriminate|].
  destruct (PyList.set row x v) as [e|row'] eqn:S; [discriminate|].
  apply set_length in S. unfold PyList.get, PyList.set in *.
  destruct (PyList.index _ y) as [n|]; [|discriminate].
  destruct (nth_error tiles n) eqn:E; [|discriminate]. inversion R. subst.
  intro H. inversion H. subst. clear - E S. revert n E.
  induction tiles as [|r rs IH]; intros [|n] E; simpl in *; try discriminate.
  - inversion E. subst. now rewrite S.
  - f_equal. now apply IH.
Qed.

Section Keeps.

Variable R : DeviceConfig.t -> DeviceConfig.t -> Prop.
Variable T : tile -> tile -> Prop.
Hypothesis R_refl : forall d, R d d.
Hypothesis R_trans : forall d1 d2 d3, R d1 d2 -> R d2 d3 -> R d1 d3.
Hypothesis R_logic_schema : forall c, keeps R (DeviceConfig.set_logic_tile_bit_config c).
Hypothesis R_io_schema : forall c, keeps R (DeviceConfig.set_io_tile_bit_config c).
Hypothesis R_ramb_schema : forall c, keeps R (DeviceConfig.set_ramb_tile_bits_config c).
Hypothesis R_ramt_schema : forall c, keeps R (DeviceConfig.set_ramt_tile_bits_config c).
Hypothesis R_place : forall k x y d, R d (snd (DeviceConfig.place (new_tile k d) x y d)).
Hypothesis R_at_tile :
  forall A x y (m : St tile A), tile_keeps T m -> keeps R (DeviceConfig.at_tile x y m).
Hypothesis R_wire : forall name, keeps R (DeviceConfig.wire_named name).
Hypothesis R_net : forall idx net, keeps R (DeviceConfig.store_net idx net).
Hypothesis T_add_wire : forall w, tile_keeps T (tile_add_wire w).
Hypothesis T_add_routing_switch : forall r, tile_keeps T (tile_add_routing_switch r).
Hypothesis T_add_buffer : forall r, tile_keeps T (tile_add_buffer r).
Hypothesis T_get : tile_keeps T (@st_get tile).

Lemma keeps_ret {A} (a : A) : keeps R (st_ret a).
Proof. intro d. apply R_refl. Qed.

Lemma keeps_raise {A} (e : exn) : keeps R (@st_raise _ A e).
Proof. intro d. apply R_refl. Qed.

Lemma keeps_lift {A} (c : res A) : keeps R (st_lift c).
Proof. intro d. apply R_refl. Qed.

Lemma keeps_get : keeps R (@st_get DeviceConfig.t).
Proof. intro d. apply R_refl. Qed.

Lemma keeps_bind {A B} (c : St DeviceConfig.t A) (k : A -> St DeviceConfig.t B) :
  keeps R c -> (forall a, keeps R (k a)) -> keeps R (st_bind c k).
Proof.
  intros Hc Hk d. unfold st_bind. specialize (Hc d).
  destruct (c d) as [[e|a] d']; [exact Hc|].
  eapply R_trans; [exact Hc|apply Hk].
Qed.

Lemma keeps_for {A} (l : list A) (body : A -> St DeviceConfig.t unit) :
  (forall a, keeps R (body a)) -> keeps R (st_for l body).
Proof.
  intro H. induction l as [|a l IH]; [apply keeps_ret|].
  simpl. apply keeps_bind; [apply H|]. intros _. exact IH.
Qed.

Lemma keeps_ensure : keeps R DeviceConfig._ensure_not_frozen.
Proof. intro d. unfold DeviceConfig._ensure_not_frozen. destruct (DeviceConfig._frozen d); apply R_refl. Qed.

Lemma keeps_process_tile (k : tile_kind) (section : FileSection.t) :
  keeps R (process_placement k section).
Proof.
  assert (G : keeps R (DeviceConfig.process_tile (new_tile k) section)).
  { unfold DeviceConfig.process_tile.
    apply keeps_bind; [apply keeps_ensure|]. intros _.
    apply keeps_bind; [apply keeps_lift|]. intros header.
    apply keeps_bind; [apply keeps_lift|]. intros x.
    apply keeps_bind; [apply keeps_lift|]. intros y.
    intro d. unfold st_bind, st_get. apply R_place. }
  destruct k; exact G.
Qed.

Lemma keeps_net_line (net : Net.t) (l : line) : keeps R (DeviceConfig.net_line net l).
Proof.
  unfold DeviceConfig.net_line.
  destruct (negb (List.length l =? 3)%nat); [apply keeps_raise|].
  apply keeps_bind; [apply keeps_lift|]. intros x.
  apply keeps_bind; [apply keeps_lift|]. intros y.
  apply keeps_bind; [apply keeps_lift|]. intros name.
  apply keeps_bind; [apply R_wire|]. intros wire.
  apply keeps_bind; [apply R_at_tile, T_add_wire|]. intros _.
  apply keeps_bind; [apply R_at_tile, T_get|]. intros tl.
  destruct (Net.add_wire _ wire net) as [[e|u] net']; [apply keeps_raise|apply keeps_ret].
Qed.

Lemma keeps_net_lines (ls : list line) : forall net, keeps R (DeviceConfig.net_lines net ls).
Proof.
  induction ls as [|l ls IH]; intro net; [apply keeps_ret|].
  simpl. apply keeps_bind; [apply keeps_net_line|]. exact IH.
Qed.

(** Every ingestion call keeps [R]. *)
Lemma keeps_ingest (k : ingestion) (section : FileSection.t) : keeps R (ingest k section).
Proof.
  destruct k; cbn [ingest].
  - unfold DeviceConfig.process_logic_tile_bit_config.
    apply keeps_bind; [apply keeps_ensure|]. intros _.
    apply keeps_bind; [apply keeps_lift|]. intro c. apply R_logic_schema.
  - unfold DeviceConfig.process_io_tile_bit_config.
    apply keeps_bind; [apply keeps_ensure|]. intros _.
    apply keeps_bind; [apply keeps_lift|]. intro c. apply R_io_schema.
  - unfold DeviceConfig.process_ramb_tile_bit_config.
    apply keeps_bind; [apply keeps_ensure|]. intros _.
    apply keeps_bind; [apply keeps_lift|]. intro c. apply R_ramb_schema.
  - unfold DeviceConfig.process_ramt_tile_bit_config.
    apply keeps_bind; [apply keeps_ensure|]. intros _.
    apply keeps_bind; [apply keeps_lift|]. intro c. apply R_ramt_schema.
  - apply (keeps_process_tile KLogic).
  - apply (keeps_process_tile KIo).
  - apply (keeps_process_tile KRamb).
  - apply (keeps_process_tile KRamt).
  - unfold DeviceConfig.process_net.
    apply keeps_bind; [apply keeps_ensure|]. intros _.
    apply keeps_bind; [apply keeps_lift|]. intro idx.
    apply keeps_bind; [apply keeps_get|]. intro self.
    apply keeps_bind; [apply keeps_net_lines|]. intro net. apply R_net.
  - unfold DeviceConfig.process_routing_switch.
    apply keeps_bind; [apply keeps_ensure|]. intros _.
    apply keeps_bind; [apply keeps_get|]. intro self.
    apply keeps_bind; [apply keeps_lift|]. intros [[x y] r].
    apply R_at_tile, T_add_routing_switch.
  - unfold DeviceConfig.process_buffer.
    apply keeps_bind; [apply keeps_ensure|]. intros _.
    apply keeps_bind; [apply keeps_get|]. intro self.
    apply keeps_bind; [apply keeps_lift|]. intros [[x y] r].
    apply R_at_tile, T_add_buffer.
Qed.

End Keeps.

(** ** The dimensions of the device *)

Lemma same_dimensions_refl d : same_dimensions d d.
Proof. reflexivity. Qed.

Lemma same_dimensions_trans d1 d2 d3 :
  same_dimensions d1 d2 -> same_dimensions d2 d3 -> same_dimensions d1 d3.
Proof. unfold same_dimensions. congruence. Qed.

Lemma place_dimensions new x y d :
  same_dimensions d (snd (DeviceConfig.place new x y d)).
Proof.
  unfold DeviceConfig.place.
  destruct (DeviceConfig.grid_set _ x y _) as [e|tiles] eqn:E; [reflexivity|].
  unfold same_dimensions, dimensions. simpl. now rewrite (set_lengths _ _ _ _ _ E).
Qed.

Lemma at_tile_dimensions {A} x y (m : St tile A) :
  keeps same_dimensions (DeviceConfig.at_tile x y m).
Proof.
  intro d. unfold DeviceConfig.at_tile.
  destruct (DeviceConfig.grid_get _ x y) as [e|[tl|]]; try reflexivity.
  destruct (m tl) as [r tl'].
  destruct (DeviceConfig.grid_set _ x y _) as [e|tiles] eqn:E; [reflexivity|].
  unfold same_dimensions, dimensions. simpl. now rewrite (set_lengths _ _ _ _ _ E).
Qed.

Lemma store_net_dimensions idx net : keeps same_dimensions (DeviceConfig.store_net idx net).
Proof.
  intro d. unfold DeviceConfig.store_net.
  destruct (PyList.set _ idx _) as [e|nets] eqn:E; [reflexivity|].
  unfold same_dimensions, dimensions. simpl. now rewrite (set_length _ _ _ _ E).
Qed.

Lemma st_each_length {A} (m : St A unit) (l : list A) :
  List.length (snd (st_each m l)) = List.length l.
Proof.
  induction l as [|a l IH]; [reflexivity|]. simpl.
  destruct (m a) as [[e|u] a']; [reflexivity|].
  destruct (st_each m l) as [r l']. simpl in *. now rewrite IH.
Qed.

Lemma freeze_dimensions : keeps same_dimensions DeviceConfig.freeze.
Proof.
  intro d. unfold DeviceConfig.freeze.
  destruct (st_each _ _) as [r nets] eqn:E.
  unfold same_dimensions, dimensions. simpl. f_equal.
  - rewrite map_map. apply map_ext. intro row. apply length_map.
  - pose proof (st_each_length DeviceConfig.freeze_slot (DeviceConfig._nets d)) as L.
    simpl in E. rewrite E in L. exact L.
Qed.

Lemma bitstream_section_dimensions section :
  keeps same_dimensions (DeviceConfig.bitstream_section section).
Proof.
  unfold DeviceConfig.bitstream_section.
  destruct (DeviceConfig.tile_match _); [|apply keeps_ret; apply same_dimensions_refl].
  apply keeps_bind; try apply same_dimensions_trans;
    [apply keeps_lift, same_dimensions_refl|]. intro header.
  apply keeps_bind; try apply same_dimensions_trans;
    [apply keeps_lift, same_dimensions_refl|]. intro x.
  apply keeps_bind; try apply same_dimensions_trans;
    [apply keeps_lift, same_dimensions_refl|]. intro y.
  apply at_tile_dimensions.
Qed.

Lemma reset_unchanged (d : DeviceConfig.t) : snd (DeviceConfig.reset d) = d.
Proof.
  unfold DeviceConfig.reset. destruct (DeviceConfig._tiles d) as [|row rows] eqn:E.
  - simpl. rewrite <- E. apply with_tiles_same.
  - simpl. rewrite <- E. apply with_tiles_same.
Qed.

(** The grid and the net array keep the dimensions the constructor gave
    them: no ingestion call, no freeze, no decoding of a bitstream and no
    reset changes the length of a row of the grid, the number of rows or the
    length of the net array, whether the call returns or raises. *)
Theorem dimensions_kept (d : DeviceConfig.t) :
  (forall k section, dimensions (snd (ingest k section d)) = dimensions d)
  /\ dimensions (snd (DeviceConfig.freeze d)) = dimensions d
  /\ (forall text, dimensions (snd (DeviceConfig.process_bitstream text d)) = dimensions d)
  /\ dimensions (snd (DeviceConfig.reset d)) = dimensions d.
Proof.
  split; [|split; [|split]].
  - intros k section.
    apply (keeps_ingest same_dimensions any_tile same_dimensions_refl same_dimensions_trans);
      try (intros; intro d0; reflexivity).
    + intros. apply place_dimensions.
    + intros. apply at_tile_dimensions.
    + intros. apply store_net_dimensions.
  - apply freeze_dimensions.
  - intro text. unfold DeviceConfig.process_bitstream.
    apply (keeps_bind same_dimensions same_dimensions_trans);
      [apply keeps_lift, same_dimensions_refl|].
    intro sections. apply keeps_for;
      [apply same_dimensions_refl | apply same_dimensions_trans |].
    apply bitstream_section_dimensions.
  - now rewrite reset_unchanged.
Qed.

(** ** Nets and the wire registry *)

Lemma dict_set_fresh {K V} (eqb : K -> K -> bool) (d : PyDict.t K V) (k : K) (v : V) :
  PyDict.contains eqb d k = false -> PyDict.set eqb d k v = (d ++ [(k, v)])%list.
Proof.
  unfold PyDict.contains. induction d as [|[k' v'] d IH]; simpl; [reflexivity|].
  destruct (eqb k' k); [discriminate|]. intro H. now rewrite IH.
Qed.

Lemma registry_grows_refl d : registry_grows d d.
Proof. split; auto. Qed.

Lemma registry_grows_trans d1 d2 d3 :
  registry_grows d1 d2 -> registry_grows d2 d3 -> registry_grows d1 d3.
Proof. intros [A B] [A' B']. split; auto. Qed.

Lemma same_wires_grows d d' :
  DeviceConfig._wires d' = DeviceConfig._wires d -> registry_grows d d'.
Proof. intro E. unfold registry_grows, wires_by_name. rewrite E. auto. Qed.

Lemma wire_named_grows name : keeps registry_grows (DeviceConfig.wire_named name).
Proof.
  intro d. unfold DeviceConfig.wire_named. cbn [snd].
  destruct (PyDict.contains String.eqb (DeviceConfig._wires d) name) eqn:C.
  - apply same_wires_grows. now destruct d.
  - rewrite (dict_set_fresh _ _ _ _ C).
    unfold registry_grows, wires_by_name. destruct d as [f ty tiles nets wires c1 c2 c3 c4 n].
    simpl in *. split.
    + intros. apply in_or_app. now left.
    + intros [ND NM]. split.
      * unfold PyDict.keys in *. rewrite map_app. simpl.
        apply NoDup_app; [exact ND | repeat constructor; simpl; tauto |].
        intros a Ha [<-|[]].
        apply (dict_contains_keys String.eqb String.eqb_eq) in Ha. congruence.
      * intros nm w Hin. apply in_app_or in Hin. destruct Hin as [Hin|[Hin|[]]]; [eauto|].
        inversion Hin. reflexivity.
Qed.

Lemma wire_named_registers name d :
  registered (snd (DeviceConfig.wire_named name d)) name = true.
Proof.
  unfold registered, DeviceConfig.wire_named. cbn [snd].
  destruct (PyDict.contains String.eqb (DeviceConfig._wires d) name) eqn:C.
  - now destruct d.
  - rewrite (dict_set_fresh _ _ _ _ C). destruct d. simpl in *.
    apply (dict_contains_keys String.eqb String.eqb_eq).
    unfold PyDict.keys. rewrite map_app. apply in_or_app. right. now left.
Qed.

Lemma grows_registered d d' name :
  registry_grows d d' -> registered d name = true -> registered d' name = true.
Proof.
  intros [G _] H. unfold registered in *.
  apply (dict_contains_keys String.eqb String.eqb_eq) in H.
  apply (dict_contains_keys String.eqb String.eqb_eq).
  unfold PyDict.keys in *. apply in_map_iff in H. destruct H as ([k w] & E & Hin).
  simpl in E. subst. apply in_map_iff. exists (name, w). split; [reflexivity|auto].
Qed.

Lemma at_tile_grows {A} x y (m : St tile A) : keeps registry_grows (DeviceConfig.at_tile x y m).
Proof.
  intro d. apply same_wires_grows. unfold DeviceConfig.at_tile.
  destruct (DeviceConfig.grid_get _ x y) as [e|[tl|]]; try reflexivity.
  destruct (m tl) as [r tl']. destruct (DeviceConfig.grid_set _ x y _); [reflexivity|].
  now destruct d.
Qed.

Lemma place_grows new x y d : registry_grows d (snd (DeviceConfig.place new x y d)).
Proof.
  apply same_wires_grows. unfold DeviceConfig.place.
  destruct (DeviceConfig.grid_set _ x y _); now destruct d.
Qed.

Lemma store_net_grows idx net : keeps registry_grows (DeviceConfig.store_net idx net).
Proof.
  intro d. apply same_wires_grows. unfold DeviceConfig.store_net.
  destruct (PyList.set _ idx _); now destruct d.
Qed.

Lemma net_lines_grows ls net : keeps registry_grows (DeviceConfig.net_lines net ls).
Proof.
  apply (keeps_net_lines registry_grows any_tile registry_grows_refl registry_grows_trans).
  - intros. now apply at_tile_grows.
  - apply wire_named_grows.
  - intros w tl. exact I.
  - intro tl. exact I.
Qed.

Lemma same_nets_refl d : same_nets d d.
Proof. reflexivity. Qed.

Lemma same_nets_trans d1 d2 d3 : same_nets d1 d2 -> same_nets d2 d3 -> same_nets d1 d3.
Proof. unfold same_nets. congruence. Qed.

Lemma net_lines_nets ls net : keeps same_nets (DeviceConfig.net_lines net ls).
Proof.
  apply (keeps_net_lines same_nets any_tile same_nets_refl same_nets_trans).
  - intros A x y m _ d. unfold same_nets, DeviceConfig.at_tile.
    destruct (DeviceConfig.grid_get _ x y) as [e|[tl|]]; try reflexivity.
    destruct (m tl) as [r tl']. destruct (DeviceConfig.grid_set _ x y _); [reflexivity|].
    now destruct d.
  - intros name d. unfold same_nets, DeviceConfig.wire_named. now destruct d.
  - intros w tl. exact I.
  - intro tl. exact I.
Qed.

Lemma get_set {A} (l l' : list A) (i : Z) (v : A) :
  PyList.set l i v = ret l' -> PyList.get l' i = ret v.
Proof.
  intro H. pose proof (set_length _ _ _ _ H) as L.
  unfold PyList.set, PyList.get in *. rewrite L.
  destruct (PyList.index (List.length l) i) as [n|] eqn:E; [|discriminate].
  inversion H. subst. rewrite update_nth_same; [reflexivity|].
  now apply (index_lt _ i).
Qed.

Lemma net_line_outcome net l d net' d' :
  DeviceConfig.net_line net l d = (ret net', d') ->
  Net._index net' = Net._index net /\ Net._frozen net' = Net._frozen net
  /\ Net.oid net' = Net.oid net
  /\ forall name, PyList.get l 2 = ret name -> registered d' name = true.
Proof.
  unfold DeviceConfig.net_line.
  destruct (negb (List.length l =? 3)%nat); [discriminate|].
  unfold st_bind at 1, st_lift at 1. destruct (DeviceConfig.int_at l 0) as [e|x]; [discriminate|].
  unfold st_bind at 1, st_lift at 1. destruct (DeviceConfig.int_at l 1) as [e|y]; [discriminate|].
  unfold st_bind at 1, st_lift at 1. destruct (PyList.get l 2) as [e|name]; [discriminate|].
  unfold st_bind at 1.
  pose proof (wire_named_registers name d) as Rg.
  destruct (DeviceConfig.wire_named name d) as [[e|wire] d1]; [discriminate|].
  unfold st_bind at 1.
  pose proof (at_tile_grows x y (tile_add_wire wire) d1) as G1.
  destruct (DeviceConfig.at_tile x y (tile_add_wire wire) d1) as [[e|u] d2]; [discriminate|].
  unfold st_bind at 1.
  pose proof (at_tile_grows x y (@st_get tile) d2) as G2.
  destruct (DeviceConfig.at_tile x y st_get d2) as [[e|tl] d3]; [discriminate|].
  simpl in Rg, G1, G2.
  unfold Net.add_wire, st_bind, Net._ensure_not_frozen.
  destruct (Net._frozen net) eqn:F; [discriminate|].
  unfold st_ret. intro H. inversion H. subst. simpl.
  repeat split; auto. intros nm E. inversion E. subst.
  eapply grows_registered; [exact G2|]. eapply grows_registered; [exact G1|]. exact Rg.
Qed.

Lemma net_lines_outcome ls : forall net d net' d',
  DeviceConfig.net_lines net ls d = (ret net', d') ->
  Net._index net' = Net._index net /\ Net._frozen net' = Net._frozen net
  /\ Net.oid net' = Net.oid net
  /\ forall l name, In l ls -> PyList.get l 2 = ret name -> registered d' name = true.
Proof.
  induction ls as [|l ls IH]; intros net d net' d' H.
  - inversion H. subst. repeat split; auto; intros l name [].
  - simpl in H. unfold st_bind in H.
    destruct (DeviceConfig.net_line net l d) as [[e|net1] d1] eqn:E1; [discriminate|].
    destruct (net_line_outcome _ _ _ _ _ E1) as (I1 & F1 & O1 & R1).
    destruct (IH _ _ _ _ H) as (I2 & F2 & O2 & R2).
    repeat split; try congruence.
    intros l0 name [->|Hin] G; [|eauto].
    pose proof (net_lines_grows ls net1 d1) as Gr. rewrite H in Gr. simpl in Gr.
    eapply grows_registered; [exact Gr|]. now apply R1.
Qed.

(** What [process_net] leaves.  When it returns, the slot of the net array
    the header indexes holds a new net with that index, not frozen, and every
    wire name of the section is registered.  When it raises, the net array is
    as before the call (the wires registered and added to tiles by the lines
    before the failing one stay).  In both cases the registry only grows and
    stays keyed by name. *)
Theorem process_net_outcome (section : FileSection.t) (d : DeviceConfig.t) :
  let d' := snd (DeviceConfig.process_net section d) in
  (fst (DeviceConfig.process_net section d) = ret tt ->
   exists idx net,
     DeviceConfig.int_at (FileSection.get_header section) 0 = ret idx
     /\ PyList.get (DeviceConfig._nets d') idx = ret (Some net)
     /\ Net._index net = idx /\ Net._frozen net = false
     /\ forall l name, In l (FileSection.get_lines section) -> PyList.get l 2 = ret name ->
                       registered d' name = true)
  /\ (fst (DeviceConfig.process_net section d) <> ret tt ->
      DeviceConfig._nets d' = DeviceConfig._nets d)
  /\ (forall name w, In (name, w) (DeviceConfig._wires d) -> In (name, w) (DeviceConfig._wires d'))
  /\ (wires_by_name d -> wires_by_name d').
Proof.
  cbv zeta.
  assert (G : registry_grows d (snd (DeviceConfig.process_net section d))).
  { apply (keeps_ingest registry_grows any_tile registry_grows_refl registry_grows_trans
             (fun c d => registry_grows_refl _) (fun c d => registry_grows_refl _)
             (fun c d => registry_grows_refl _) (fun c d => registry_grows_refl _)
             (fun k x y d => place_grows _ x y d)
             (fun A x y m _ => at_tile_grows x y m) wire_named_grows
             store_net_grows
             (fun w tl => I) (fun r tl => I) (fun r tl => I) (fun tl => I) NetSection). }
  split; [|split; [|exact G]].
  - unfold DeviceConfig.process_net, st_bind, DeviceConfig._ensure_not_frozen, st_lift, st_get.
    destruct (DeviceConfig._frozen d); [discriminate|].
    destruct (DeviceConfig.int_at _ 0) as [e|idx]; [discriminate|].
    destruct (DeviceConfig.net_lines _ _ d) as [[e|net] d1] eqn:E; [discriminate|].
    destruct (net_lines_outcome _ _ _ _ _ E) as (I1 & F1 & _ & R1).
    unfold DeviceConfig.store_net.
    destruct (PyList.set _ idx (Some net)) as [e|nets] eqn:S; [discriminate|].
    intros _. exists idx, net. simpl. split; [reflexivity|].
    split; [exact (get_set _ _ _ _ S)|]. split; [exact I1|]. split; [exact F1|].
    intros l name Hin Hg. specialize (R1 l name Hin Hg).
    unfold registered in *. now destruct d1.
  - unfold DeviceConfig.process_net, st_bind, DeviceConfig._ensure_not_frozen, st_lift, st_get.
    destruct (DeviceConfig._frozen d); [reflexivity|].
    destruct (DeviceConfig.int_at _ 0) as [e|idx]; [reflexivity|].
    pose proof (net_lines_nets (FileSection.get_lines section)
                  (Net.init (DeviceConfig.next_oid d) idx) d) as N.
    destruct (DeviceConfig.net_lines _ _ d) as [[e|net] d1] eqn:E; [intros _; exact N|].
    unfold DeviceConfig.store_net.
    destruct (PyList.set _ idx (Some net)) as [e|nets] eqn:S; [intros _; exact N|].
    intro H. now contradiction H.
Qed.

(** The net section [.net 1] with one line is stored at index 1 of the net
    array; with a second line of one token the call raises after the first
    line: the net array is as before, the wire of the first line is
    registered. *)
Lemma process_net_outcome_witness :
  (exists net,
     PyList.get
       (DeviceConfig._nets
          (snd (DeviceConfig.process_net (Fixture.section ".net 1" true ["0 0 wire_z"])
                  (Fixture.built Fixture.building)))) 1 = ret (Some net)
     /\ Net._index net = 1)
  /\ fst (DeviceConfig.process_net (Fixture.section ".net 1" true ["0 0 wire_y"; "bad"])
            (Fixture.built Fixture.building)) = raise InvalidNetConfig
  /\ DeviceConfig._nets
       (snd (DeviceConfig.process_net (Fixture.section ".net 1" true ["0 0 wire_y"; "bad"])
               (Fixture.built Fixture.building)))
     = DeviceConfig._nets (Fixture.built Fixture.building)
  /\ registered (Fixture.built Fixture.building) "wire_y" = false
  /\ registered
       (snd (DeviceConfig.process_net (Fixture.section ".net 1" true ["0 0 wire_y"; "bad"])
               (Fixture.built Fixture.building))) "wire_y" = true.
Proof.
  split; [|split; [vm_compute; reflexivity|split; [|split; vm_compute; reflexivity]]].
  - destruct (process_net_outcome (Fixture.section ".net 1" true ["0 0 wire_z"])
                (Fixture.built Fixture.building)) as (A & _).
    destruct A as (idx & net & E & G & X & _); [vm_compute; reflexivity|].
    assert (Hi : idx = 1) by (vm_compute in E; congruence).
    rewrite Hi in G, X. exists net. split; [exact G|exact X].
  - destruct (process_net_outcome (Fixture.section ".net 1" true ["0 0 wire_y"; "bad"])
                (Fixture.built Fixture.building)) as (_ & B & _).
    apply B. vm_compute. discriminate.
Defined.

(** ** Freeze, tile by tile and net by net *)

Lemma frozen_tile_refuses (tl : tile) :
  Tile._frozen (tile_base tl) = true ->
  (forall w, tile_add_wire w tl = (raise FrozenViolation, tl))
  /\ (forall r, tile_add_routing_switch r tl = (raise FrozenViolation, tl))
  /\ (forall r, tile_add_buffer r tl = (raise FrozenViolation, tl)).
Proof.
  intro F. unfold tile_add_wire, tile_add_routing_switch, tile_add_buffer, tile_on_base.
  destruct tl as [t|t|t|t]; simpl in F;
    unfold as_tile, LogicTile.on_base, IoTile.on_base, RambTile.on_base, RamtTile.on_base,
      Tile.add_wire, Tile.add_routing_switch, Tile.add_buffer, st_bind,
      Tile._ensure_not_frozen; rewrite F; destruct t; repeat split.
Qed.

Lemma freeze_tiles (d : DeviceConfig.t) :
  DeviceConfig._tiles (snd (DeviceConfig.freeze d))
  = map (map DeviceConfig.freeze_cell) (DeviceConfig._tiles d).
Proof.
  unfold DeviceConfig.freeze. destruct (st_each _ _) as [r nets]. reflexivity.
Qed.

Lemma freeze_nets (d : DeviceConfig.t) :
  DeviceConfig._nets (snd (DeviceConfig.freeze d))
  = snd (st_each DeviceConfig.freeze_slot (DeviceConfig._nets d)).
Proof.
  unfold DeviceConfig.freeze. simpl. destruct (st_each _ _) as [r nets]. reflexivity.
Qed.

Lemma freeze_outcome (d : DeviceConfig.t) :
  fst (DeviceConfig.freeze d) = fst (st_each DeviceConfig.freeze_slot (DeviceConfig._nets d)).
Proof.
  unfold DeviceConfig.freeze. simpl. destruct (st_each _ _) as [r nets]. reflexivity.
Qed.

Lemma freeze_slots_frozen (nets : list (option Net.t)) :
  fst (st_each DeviceConfig.freeze_slot nets) = ret tt ->
  forall slot, In slot (snd (st_each DeviceConfig.freeze_slot nets)) ->
  exists net, slot = Some net /\ Net._frozen net = true.
Proof.
  induction nets as [|[net|] nets IH]; simpl; [intros _ slot []| |discriminate].
  destruct (st_each DeviceConfig.freeze_slot nets) as [r nets'] eqn:E. simpl in *.
  intros H slot [<-|Hin]; [eexists; split; reflexivity|]. now apply IH.
Qed.

(** What [freeze] reaches.  Every tile placed in the grid is frozen, also
    when the call raises at a net: it then refuses a further wire, routing
    switch or buffer with "You cannot manipulate a frozen object!" and stays
    as it is.  No tile leaves the grid.  When the call returns, every slot of
    the net array holds a frozen net, which refuses a further wire. *)
Theorem freeze_propagates (d : DeviceConfig.t) :
  let d' := snd (DeviceConfig.freeze d) in
  (forall tl, placed d' tl ->
     Tile._frozen (tile_base tl) = true
     /\ (forall w, tile_add_wire w tl = (raise FrozenViolation, tl))
     /\ (forall r, tile_add_routing_switch r tl = (raise FrozenViolation, tl))
     /\ (forall r, tile_add_buffer r tl = (raise FrozenViolation, tl)))
  /\ (forall tl, placed d tl -> placed d' (snd (tile_freeze tl)))
  /\ (fst (DeviceConfig.freeze d) = ret tt ->
      forall slot, In slot (DeviceConfig._nets d') ->
      exists net, slot = Some net /\ Net._frozen net = true
                  /\ forall t w, Net.add_wire t w net = (raise FrozenViolation, net)).
Proof.
  cbv zeta. split; [|split].
  - intros tl (row & Hrow & Hin). rewrite freeze_tiles in Hrow.
    apply in_map_iff in Hrow. destruct Hrow as (row0 & <- & Hrow0).
    apply in_map_iff in Hin. destruct Hin as ([tl0|] & E & Hin0); [|discriminate].
    simpl in E. inversion E. subst tl.
    assert (F : Tile._frozen (tile_base (snd (tile_freeze tl0))) = true)
      by (destruct tl0 as [t|t|t|t]; reflexivity).
    split; [exact F|]. now apply frozen_tile_refuses.
  - intros tl (row & Hrow & Hin). exists (map DeviceConfig.freeze_cell row).
    rewrite freeze_tiles. split; [now apply in_map|].
    change (Some (snd (tile_freeze tl))) with (DeviceConfig.freeze_cell (Some tl)).
    now apply in_map.
  - rewrite freeze_outcome, freeze_nets. intros H slot Hin.
    destruct (freeze_slots_frozen _ H slot Hin) as (net & -> & F).
    exists net. split; [reflexivity|]. split; [exact F|].
    intros t w. unfold Net.add_wire, st_bind, Net._ensure_not_frozen. now rewrite F.
Qed.

(** The frozen device of the fixture: its logic tile refuses a wire, and its
    net 0 refuses one too. *)
Lemma freeze_propagates_witness :
  tile_add_wire (Wire.mk "w") (Logic Fixture.blank_logic_tile)
  = (raise FrozenViolation, Logic Fixture.blank_logic_tile)
  /\ exists net,
       nth_error (DeviceConfig._nets (Fixture.built Fixture.frozen)) 0 = Some (Some net)
       /\ Net.add_wire 0%nat (Wire.mk "w") net = (raise FrozenViolation, net).
Proof.
  assert (E : snd (DeviceConfig.freeze (Fixture.built Fixture.building))
              = Fixture.built Fixture.frozen) by (vm_compute; reflexivity).
  destruct (freeze_propagates (Fixture.built Fixture.building)) as (A & _ & C).
  cbv zeta in A, C. rewrite E in A, C. split.
  - apply A. exists [Some (Logic Fixture.blank_logic_tile);
                     Some (Io Sample.blank_io_tile)].
    split; [vm_compute; left; reflexivity|left; reflexivity].
  - destruct (nth_error (DeviceConfig._nets (Fixture.built Fixture.frozen)) 0)
      as [slot|] eqn:N; [|vm_compute in N; discriminate N].
    destruct (C ltac:(vm_compute; reflexivity) slot (nth_error_In _ _ N))
      as (net & -> & _ & R).
    exists net. split; [reflexivity|apply R].
Defined.

(** * Sections of a bitstream *)



(** * The device encodes when its tiles do *)

Lemma generate_row_returns (row : list (option tile)) :
  forall x y bitstream,
  (exists text, DeviceConfig.generate_row row x y bitstream = ret text)
  <-> (forall tl, In (Some tl) row -> exists bits, tile_generate_bitstream tl = ret bits).
Proof.
  induction row as [|[tl0|] row IH]; intros x y bitstream.
  - split; [intros _ tl []|intros _; eexists; reflexivity].
  - cbn [DeviceConfig.generate_row]. unfold bind.
    destruct (tile_generate_bitstream tl0) as [e|bits] eqn:G; cbv beta iota.
    + split; [intros [text H]; unfold ret in H; discriminate H|].
      intro H. destruct (H tl0 (or_introl eq_refl)) as [b Hb].
      rewrite G in Hb. unfold ret in Hb. discriminate Hb.
    + rewrite IH. split.
      * intros H tl [E|Hin]; [inversion E; subst; eauto|auto].
      * intros H tl Hin. apply H. now right.
  - cbn [DeviceConfig.generate_row]. rewrite IH. split.
    + intros H tl [E|Hin]; [discriminate|auto].
    + intros H tl Hin. apply H. now right.
Qed.

Lemma generate_rows_returns (rows : list (list (option tile))) :
  forall y bitstream,
  (exists text, DeviceConfig.generate_rows rows y bitstream = ret text)
  <-> (forall tl row, In row rows -> In (Some tl) row ->
                      exists bits, tile_generate_bitstream tl = ret bits).
Proof.
  induction rows as [|row rows IH]; intros y bitstream.
  - split; [intros _ tl row []|intros _; eexists; reflexivity].
  - cbn [DeviceConfig.generate_rows]. unfold bind.
    destruct (DeviceConfig.generate_row row 0 y bitstream) as [e|text] eqn:G; cbv beta iota.
    + split; [intros [t H]; unfold ret in H; discriminate H|].
      intro H.
      assert (X : exists text, DeviceConfig.generate_row row 0 y bitstream = ret text).
      { apply generate_row_returns. intros tl Hin. apply (H tl row); [now left|exact Hin]. }
      destruct X as [t Ht]. rewrite G in Ht. unfold ret in Ht. discriminate Ht.
    + rewrite IH. split.
      * intros H tl r [<-|Hin] Htl; [|eauto].
        assert (X : exists text, DeviceConfig.generate_row row 0 y bitstream = ret text)
          by eauto.
        apply generate_row_returns with (tl := tl) in X; auto.
      * intros H tl r Hin. apply H. now right.
Qed.

(** [DeviceConfig.generate_bitstream] returns exactly when
    [generate_bitstream] returns on every tile placed in the grid: one tile
    that cannot be encoded (it holds no schema, a coordinate of its schema is
    outside its rectangle) makes the encoding of the device raise. *)
Theorem generate_bitstream_returns (d : DeviceConfig.t) :
  (exists text, DeviceConfig.generate_bitstream d = ret text)
  <-> (forall tl, placed d tl -> exists bits, tile_generate_bitstream tl = ret bits).
Proof.
  unfold DeviceConfig.generate_bitstream, placed, bind. split.
  - intros [text H] tl (row & Hrow & Hin).
    destruct (DeviceConfig.generate_rows _ 0 _) as [e|t] eqn:G;
      [unfold ret in H; discriminate H|]. clear H.
    assert (X : exists text, DeviceConfig.generate_rows (DeviceConfig._tiles d) 0
                               (".device " ++ DeviceConfig._device_type d ++ DeviceConfig.nl)
                             = ret text) by eauto.
    rewrite generate_rows_returns in X. eauto.
  - intro H.
    assert (X : exists text, DeviceConfig.generate_rows (DeviceConfig._tiles d) 0
                               (".device " ++ DeviceConfig._device_type d ++ DeviceConfig.nl)
                             = ret text).
    { apply generate_rows_returns. intros tl row Hrow Hin. apply H. eauto. }
    destruct X as [t Ht]. rewrite Ht. eexists. reflexivity.
Qed.

(** * Building the device from a chipdb *)

Lemma update_In_old {A} (l : list A) (n : nat) (v a : A) :
  In a (PyList.update l n v) -> a = v \/ In a l.
Proof. apply update_In. Qed.

Lemma grid_set_placed {A} (tiles tiles' : list (list A)) (x y : Z) (v a : A) (row' : list A) :
  DeviceConfig.grid_set tiles x y v = ret tiles' ->
  In row' tiles' -> In a row' ->
  a = v \/ exists row, In row tiles /\ In a row.
Proof.
  unfold DeviceConfig.grid_set, bind.
  destruct (PyList.get tiles y) as [e|row] eqn:R; [discriminate|].
  destruct (PyList.set row x v) as [e|row1] eqn:S; [discriminate|].
  unfold PyList.get, PyList.set in *.
  destruct (PyList.index _ y) as [n|]; [|discriminate].
  destruct (nth_error tiles n) eqn:E; [|discriminate]. inversion R. subst.
  destruct (PyList.index _ x) as [m|]; [|discriminate]. inversion S. subst.
  intro H. inversion H. subst. intros Hrow Hin.
  apply update_In in Hrow. destruct Hrow as [->|Hrow].
  - apply update_In in Hin. destruct Hin as [->|Hin]; [now left|].
    right. exists row. split; [eapply nth_error_In; eauto|exact Hin].
  - right. eauto.
Qed.

Lemma stays_bound_refl d : stays_bound d d.
Proof. intro H. exact H. Qed.

Lemma stays_bound_trans d1 d2 d3 :
  stays_bound d1 d2 -> stays_bound d2 d3 -> stays_bound d1 d3.
Proof. unfold stays_bound. auto. Qed.

Lemma place_bound k x y d : stays_bound d (snd (DeviceConfig.place (new_tile k d) x y d)).
Proof.
  unfold DeviceConfig.place.
  destruct (DeviceConfig.grid_set _ x y _) as [e|tiles] eqn:E; [apply stays_bound_refl|].
  intros [S B]. split; [destruct d; exact S|].
  intros tl (row & Hrow & Hin).
  assert (Hrow' : In row tiles) by (destruct d; exact Hrow).
  destruct (grid_set_placed _ _ _ _ _ _ _ E Hrow' Hin) as [N|(row0 & H0 & H1)].
  - inversion N. destruct S as (S1 & S2 & S3 & S4).
    unfold schema_ingested in *.
    destruct k; simpl;
      [destruct (DeviceConfig._logic_tile_bit_config d)
      |destruct (DeviceConfig._io_tile_bit_config d)
      |destruct (DeviceConfig._ramb_tile_bits_config d)
      |destruct (DeviceConfig._ramt_tile_bits_config d)]; simpl in *; congruence.
  - apply B. exists row0. auto.
Qed.

Lemma at_tile_bound {A} x y (m : St tile A) :
  tile_keeps same_schema m -> keeps stays_bound (DeviceConfig.at_tile x y m).
Proof.
  intros Hm d. unfold DeviceConfig.at_tile.
  destruct (DeviceConfig.grid_get _ x y) as [e|[tl0|]] eqn:G; try apply stays_bound_refl.
  specialize (Hm tl0). destruct (m tl0) as [r tl']. simpl in Hm.
  destruct (DeviceConfig.grid_set _ x y _) as [e|tiles] eqn:E; [apply stays_bound_refl|].
  intros [S B]. split; [destruct d; exact S|].
  intros tl (row & Hrow & Hin).
  assert (Hrow' : In row tiles) by (destruct d; exact Hrow).
  destruct (grid_set_placed _ _ _ _ _ _ _ E Hrow' Hin) as [N|(row0 & H0 & H1)].
  - inversion N. subst tl. rewrite Hm. apply B.
    unfold DeviceConfig.grid_get, bind in G.
    destruct (PyList.get (DeviceConfig._tiles d) y) as [e|row1] eqn:R; [discriminate|].
    unfold PyList.get in *.
    destruct (PyList.index _ y) as [n|]; [|discriminate].
    destruct (nth_error (DeviceConfig._tiles d) n) eqn:En; [|discriminate]. inversion R. subst.
    destruct (PyList.index _ x) as [k|]; [|discriminate].
    destruct (nth_error row1 k) eqn:Ek; [|discriminate]. inversion G. subst.
    exists row1. split; eapply nth_error_In; eauto.
  - apply B. exists row0. auto.
Qed.

Lemma on_base_same_schema {A} (m : St Tile.t A) : tile_keeps same_schema (tile_on_base m).
Proof.
  intros [t|t|t|t]; unfold same_schema, tile_on_base, as_tile, LogicTile.on_base,
    IoTile.on_base, RambTile.on_base, RamtTile.on_base;
    [destruct (m (LogicTile.base t))|destruct (m (IoTile.base t))
    |destruct (m (RambTile.base t))|destruct (m (RamtTile.base t))]; reflexivity.
Qed.

Lemma same_tiles_bound d d' :
  DeviceConfig._tiles d' = DeviceConfig._tiles d ->
  schema_ingested KLogic d' = schema_ingested KLogic d ->
  schema_ingested KIo d' = schema_ingested KIo d ->
  schema_ingested KRamb d' = schema_ingested KRamb d ->
  schema_ingested KRamt d' = schema_ingested KRamt d ->
  stays_bound d d'.
Proof.
  intros Et E1 E2 E3 E4 [S B]. unfold schemas_bound, tiles_bound, placed in *.
  rewrite Et, E1, E2, E3, E4. auto.
Qed.

(** Every ingestion call after the four schemas keeps the tiles bound. *)
Lemma ingest_bound (k : ingestion) (section : FileSection.t) :
  keeps stays_bound (ingest k section).
Proof.
  apply (keeps_ingest stays_bound same_schema stays_bound_refl stays_bound_trans).
  - intros c d [S B]. split; [|exact B].
    destruct S as (S1 & S2 & S3 & S4). repeat split; auto.
  - intros c d [S B]. split; [|exact B].
    destruct S as (S1 & S2 & S3 & S4). repeat split; auto.
  - intros c d [S B]. split; [|exact B].
    destruct S as (S1 & S2 & S3 & S4). repeat split; auto.
  - intros c d [S B]. split; [|exact B].
    destruct S as (S1 & S2 & S3 & S4). repeat split; auto.
  - intros. apply place_bound.
  - intros. now apply at_tile_bound.
  - intros name d. apply same_tiles_bound; unfold DeviceConfig.wire_named; now destruct d.
  - intros idx net d. unfold DeviceConfig.store_net.
    destruct (PyList.set _ idx _); [apply stays_bound_refl|].
    apply same_tiles_bound; now destruct d.
  - intro w. apply on_base_same_schema.
  - intro r. apply on_base_same_schema.
  - intro r. apply on_base_same_schema.
  - intro tl. reflexivity.
Qed.

Lemma call_each_keeps (R : DeviceConfig.t -> DeviceConfig.t -> Prop)
    (m : FileSection.t -> St DeviceConfig.t unit) (sections : list FileSection.t) :
  (forall d, R d d) -> (forall d1 d2 d3, R d1 d2 -> R d2 d3 -> R d1 d3) ->
  (forall section, keeps R (m section)) ->
  forall d d', ChipdbReader.call_each m sections d = inr d' -> R d d'.
Proof.
  intros Rr Rt Hm. induction sections as [|s rest IH]; intros d d' H.
  - inversion H. apply Rr.
  - simpl in H. unfold ChipdbReader.and_then, ChipdbReader.call in H.
    specialize (Hm s d). destruct (m s d) as [[e|u] d1]; [discriminate|].
    eapply Rt; [exact Hm|]. now apply IH.
Qed.

Lemma init_unplaced (section : FileSection.t) (d : DeviceConfig.t) :
  DeviceConfig.init section = ret d ->
  (forall tl, ~ placed d tl)
  /\ schema_ingested KLogic d = false /\ DeviceConfig._frozen d = false.
Proof.
  unfold DeviceConfig.init, bind.
  destruct (negb _); [discriminate|].
  destruct (PyList.get _ 0) as [e|ty]; [discriminate|].
  destruct (PyList.get _ 1) as [e|h1]; [discriminate|].
  destruct (PyStr.int h1) as [e|w]; [discriminate|].
  destruct (PyList.get _ 2) as [e|h2]; [discriminate|].
  destruct (PyStr.int h2) as [e|h]; [discriminate|].
  destruct (PyList.get _ 3) as [e|h3]; [discriminate|].
  destruct (PyStr.int h3) as [e|n]; [discriminate|].
  intro H. inversion H. subst. simpl. split; [|split; reflexivity].
  intros tl (row & Hrow & Hin). simpl in Hrow. unfold PyList.replicate in Hrow.
  apply repeat_spec in Hrow. subst row. apply repeat_spec in Hin. discriminate.
Qed.

Lemma freeze_placed (d : DeviceConfig.t) (tl : tile) :
  placed (snd (DeviceConfig.freeze d)) tl ->
  exists tl0, placed d tl0 /\ tl = snd (tile_freeze tl0).
Proof.
  intros (row & Hrow & Hin). rewrite freeze_tiles in Hrow.
  apply in_map_iff in Hrow. destruct Hrow as (row0 & <- & Hrow0).
  apply in_map_iff in Hin. destruct Hin as ([tl0|] & E & Hin0); [|discriminate].
  simpl in E. inversion E. exists tl0. split; [exists row0; auto|reflexivity].
Qed.

Lemma schema_call (m : FileSection.t -> St DeviceConfig.t unit)
    (section : option FileSection.t) (missing : ChipdbReader.error) (d d' : DeviceConfig.t) :
  ChipdbReader.required section missing m d = inr d' ->
  exists section', m section' d = (ret tt, d').
Proof.
  unfold ChipdbReader.required, ChipdbReader.call.
  destruct section as [s|]; [|discriminate].
  destruct (m s d) as [[e|[]] d1] eqn:E; [discriminate|].
  intro H. inversion H. subst. eauto.
Qed.

Ltac schema_step H :=
  unfold DeviceConfig.process_logic_tile_bit_config, DeviceConfig.process_io_tile_bit_config,
    DeviceConfig.process_ramb_tile_bit_config, DeviceConfig.process_ramt_tile_bit_config,
    st_bind, st_lift, DeviceConfig._ensure_not_frozen in H;
  match type of H with
  | context [DeviceConfig._frozen ?d] => destruct (DeviceConfig._frozen d); [discriminate H|]
  end;
  match type of H with
  | context [match ?c with inl _ => _ | inr _ => _ end] =>
      destruct c; [discriminate H|]
  end;
  inversion H; subst; clear H.

(** The device [_process_chipdb_config] returns, whatever the order of the
    sections it is given: it is frozen with every tile and every net, every
    slot of its net array holds a net, its four schemas are bound and every
    tile placed in its grid holds the schema of its kind (the schemas are
    ingested before the first tile is placed). *)
Theorem chipdb_device_bound (config_sections : list FileSection.t) (d : DeviceConfig.t) :
  ChipdbReader._process_chipdb_config config_sections = inr d ->
  DeviceConfig.is_frozen d = true
  /\ schemas_bound d
  /\ (forall tl, placed d tl ->
        schema_missing tl = false /\ Tile._frozen (tile_base tl) = true)
  /\ (forall slot, In slot (DeviceConfig._nets d) ->
        exists net, slot = Some net /\ Net._frozen net = true).
Proof.
  unfold ChipdbReader._process_chipdb_config. intro H.
  repeat match type of H with
         | ChipdbReader.and_then ?c _ = inr _ =>
             let E := fresh "E" in
             destruct c eqn:E; [discriminate H|]; cbn [ChipdbReader.and_then] in H
         end.
  destruct (ChipdbReader.device_config_section s) as [dev|]; [|discriminate E0].
  destruct (DeviceConfig.init dev) as [e|d0'] eqn:I; [discriminate E0|].
  inversion E0. subst d0'. clear E0.
  destruct (init_unplaced _ _ I) as (U & _ & _).
  destruct (schema_call _ _ _ _ _ E1) as (s1 & H1).
  destruct (schema_call _ _ _ _ _ E2) as (s2 & H2).
  destruct (schema_call _ _ _ _ _ E3) as (s3 & H3).
  destruct (schema_call _ _ _ _ _ E4) as (s4 & H4).
  match type of E5 with
  | ChipdbReader.call_each _ _ ?d4 = _ =>
      assert (B4 : schemas_bound d4 /\ tiles_bound d4)
  end.
  { schema_step H1. schema_step H2. schema_step H3. schema_step H4.
    split; [repeat split|]. intros tl P. destruct (U tl). exact P. }
  pose proof (fun k sections =>
                call_each_keeps stays_bound (ingest k) sections stays_bound_refl
                  stays_bound_trans (ingest_bound k)) as K.
  apply (K LogicTilePlacement) in E5. apply (K IoTilePlacement) in E6.
  apply (K RambTilePlacement) in E7. apply (K RamtTilePlacement) in E8.
  apply (K NetSection) in E9. apply (K RoutingSection) in E10.
  apply (K BufferSection) in E11.
  match type of H with
  | ChipdbReader.call _ ?d11 = _ =>
      assert (B11 : schemas_bound d11 /\ tiles_bound d11) by auto 20;
      remember d11 as dl eqn:Edl
  end.
  clear Edl.
  unfold ChipdbReader.call in H.
  destruct (DeviceConfig.freeze dl) as [[e|u] d'] eqn:F; [discriminate H|].
  inversion H. subst d'. clear H.
  assert (Fd : d = snd (DeviceConfig.freeze dl)) by (now rewrite F).
  assert (Fr : fst (DeviceConfig.freeze dl) = ret tt) by (rewrite F; now destruct u).
  destruct B11 as [S11 T11].
  split; [rewrite Fd; apply freeze_sets_flag|]. split; [|split].
  - rewrite Fd. unfold DeviceConfig.freeze. destruct (st_each _ _). exact S11.
  - intros tl P. rewrite Fd in P. destruct (freeze_placed _ _ P) as (tl0 & P0 & ->).
    specialize (T11 tl0 P0). destruct tl0 as [tt0|tt0|tt0|tt0]; split; auto.
  - intros slot Hin. rewrite Fd, freeze_nets in Hin. rewrite freeze_outcome in Fr.
    exact (freeze_slots_frozen _ Fr slot Hin).
Qed.

(** The chipdb of the sample: its placements precede its schemas, yet the
    device is built, frozen, and both of its tiles hold their schema. *)
Lemma chipdb_device_bound_witness :
  ChipdbReader.create_device_config chipdb_1k = inr chipdb_1k_device
  /\ DeviceConfig.is_frozen chipdb_1k_device = true
  /\ (forall tl, placed chipdb_1k_device tl -> schema_missing tl = false)
  /\ option_map (fun t => schema_missing (Logic t)) (logic_tile_at chipdb_1k_device 0 0)
     = Some false.
Proof.
  assert (E : ChipdbReader._process_chipdb_config chipdb_1k_sections = inr chipdb_1k_device)
    by (vm_compute; reflexivity).
  destruct (chipdb_device_bound _ _ E) as (A & _ & C & _).
  split; [vm_compute; reflexivity|]. split; [exact A|].
  split; [intros tl P; apply (C tl P)|vm_compute; reflexivity].
Defined.

(** ** Section types *)

Lemma sort_section_refuses (s : ChipdbReader.sorted) (section : FileSection.t) :
  accepted_type (FileSection.get_type section) = false ->
  ChipdbReader.sort_section s section
  = inl (ChipdbReader.InvalidSectionType (FileSection.get_type section)).
Proof.
  unfold accepted_type, ChipdbReader.sort_section. destruct s. cbn [existsb].
  intro H. apply orb_false_iff in H. destruct H as [H D]. rewrite D.
  repeat (apply orb_false_iff in H; let E := fresh "E" in destruct H as [E H]).
  repeat match goal with
         | E : String.eqb _ _ = false |- _ => rewrite E; clear E
         end.
  reflexivity.
Qed.

Lemma sort_section_accepts (s : ChipdbReader.sorted) (section : FileSection.t) :
  accepted_type (FileSection.get_type section) = true ->
  exists s', ChipdbReader.sort_section s section = inr s'.
Proof.
  unfold accepted_type, ChipdbReader.sort_section. destruct s. cbn [existsb].
  intro H.
  repeat match goal with
         | |- context [if String.eqb ?a ?b then _ else _] =>
             destruct (String.eqb a b); [eexists; reflexivity|]
         | |- context [if ChipdbReader.dsp_tile_bits_match ?a then _ else _] =>
             destruct (ChipdbReader.dsp_tile_bits_match a); [eexists; reflexivity|]
         end.
  simpl in H. discriminate H.
Qed.

Lemma sort_sections_refuse (sections1 sections2 : list FileSection.t)
    (section : FileSection.t) :
  (forall s, In s sections1 -> accepted_type (FileSection.get_type s) = true) ->
  accepted_type (FileSection.get_type section) = false ->
  forall s,
    ChipdbReader.sort_sections s (sections1 ++ section :: sections2)
    = inl (ChipdbReader.InvalidSectionType (FileSection.get_type section)).
Proof.
  intros A N. induction sections1 as [|s1 rest IH]; intro s.
  - simpl. now rewrite (sort_section_refuses s section N).
  - simpl. destruct (sort_section_accepts s s1 (A s1 (or_introl eq_refl))) as [s' E].
    rewrite E. simpl. apply IH. intros s0 Hin. apply A. now right.
Qed.

(** The section types [_process_chipdb_config] knows.  A file with a section
    of another type is refused with "Invalid config section type" for the
    first such section, before anything is built.  Of the types
    [dsp<c>_tile_bits] the pattern [dsp[0..3]_tile_bits] accepts those with
    [c] one of the characters [0], [.] and [3]: the sections
    [dsp1_tile_bits] and [dsp2_tile_bits] of a chipdb are of an unknown
    type. *)
Theorem section_types_known :
  (forall sections1 section sections2,
     (forall s, In s sections1 -> accepted_type (FileSection.get_type s) = true) ->
     accepted_type (FileSection.get_type section) = false ->
     ChipdbReader._process_chipdb_config (sections1 ++ section :: sections2)
     = inl (ChipdbReader.InvalidSectionType (FileSection.get_type section)))
  /\ (forall c rest,
        accepted_type ("dsp" ++ String c ("_tile_bits" ++ rest))
        = (Ascii.eqb c "0" || Ascii.eqb c "." || Ascii.eqb c "3")%bool).
Proof.
  split.
  - intros sections1 section sections2 A N. unfold ChipdbReader._process_chipdb_config.
    now rewrite (sort_sections_refuse sections1 sections2 section A N).
  - intros c rest. unfold accepted_type, ChipdbReader.dsp_tile_bits_match.
    cbn [existsb append String.eqb Ascii.eqb Bool.eqb PyStr.strip_prefix PyStr.startswith orb].
    simpl. now rewrite andb_true_r.
Qed.

(** The sections of a chipdb with the four DSP schemas: the third one, of
    type [dsp1_tile_bits], is refused. *)
Lemma section_types_known_witness :
  map FileSection.get_type chipdb_5k_sections
  = ["device"; "dsp0_tile_bits"; "dsp1_tile_bits"; "dsp2_tile_bits"; "dsp3_tile_bits";
     "dsp3_tile_bits"]
  /\ ChipdbReader._process_chipdb_config chipdb_5k_sections
     = inl (ChipdbReader.InvalidSectionType "dsp1_tile_bits").
Proof.
  split; [vm_compute; reflexivity|].
  destruct section_types_known as [A _].
  assert (E : chipdb_5k_sections
              = (firstn 2 chipdb_5k_sections
                 ++ nth 2 chipdb_5k_sections (FileSection.init "" true)
                    :: skipn 3 chipdb_5k_sections)%list) by (vm_compute; reflexivity).
  rewrite E. rewrite A.
  - vm_compute. reflexivity.
  - intros s Hin. vm_compute in Hin. destruct Hin as [<-|[<-|[]]]; vm_compute; reflexivity.
  - vm_compute. reflexivity.
Defined.

(** * Indexed names of a schema *)

Lemma strip_prefix_app (p s : string) : PyStr.strip_prefix p (p ++ s) = Some s.
Proof. induction p as [|a p IH]; simpl; [reflexivity|]. now rewrite Ascii.eqb_refl. Qed.

Lemma take_digits_all (s : string) :
  all_digits s = true -> PyStr.take_digits s = (s, EmptyString).
Proof.
  induction s as [|c r IH]; simpl; [reflexivity|]. intro D.
  apply andb_true_iff in D. destruct D as [Dc Dr]. now rewrite Dc, (IH Dr).
Qed.

Lemma match_prefix_of_nat (p : string) (n : nat) :
  PyStr.match_prefix_digits p (p ++ PyStr.of_nat n) = Some (Z.of_nat n).
Proof.
  unfold PyStr.match_prefix_digits. rewrite strip_prefix_app.
  destruct (of_nat_numeral n) as [N D]. rewrite (take_digits_all _ D).
  destruct (PyStr.of_nat n) eqn:E; [congruence|]. rewrite <- E. now rewrite of_nat_value.
Qed.

Lemma index_wraps (len : nat) (i : Z) :
  - Z.of_nat len <= i < 0 -> PyList.index len i = PyList.index len (i + Z.of_nat len).
Proof.
  intro H. unfold PyList.index.
  destruct (0 <=? i) eqn:A; [apply Z.leb_le in A; lia|].
  destruct (i <? 0) eqn:B; [|apply Z.ltb_ge in B; lia].
  destruct (- Z.of_nat len <=? i) eqn:C; [|apply Z.leb_gt in C; lia].
  destruct (0 <=? i + Z.of_nat len) eqn:D; [|apply Z.leb_gt in D; lia].
  destruct (i + Z.of_nat len <? Z.of_nat len) eqn:E; [|apply Z.ltb_ge in E; lia].
  reflexivity.
Qed.

Lemma store_1_wraps slots n l :
  - Z.of_nat (List.length slots) <= n < 0 ->
  DeviceConfig.store_1 slots n l
  = DeviceConfig.store_1 slots (n + Z.of_nat (List.length slots)) l.
Proof.
  intro H. unfold DeviceConfig.store_1, bind, PyList.set.
  destruct (DeviceConfig.coordinate_1 l); [reflexivity|]. now rewrite (index_wraps _ _ H).
Qed.

Lemma store_1_beyond slots n ref p :
  DeviceConfig._get_config_bit_coordinates ref = ret p ->
  Z.of_nat (List.length slots) <= n ->
  forall name, DeviceConfig.store_1 slots n [name; ref] = raise IndexError.
Proof.
  intros C H name. unfold DeviceConfig.store_1, DeviceConfig.coordinate_1, bind. simpl.
  rewrite C. unfold PyList.set. rewrite index_out_of_range; [reflexivity|lia].
Qed.

(** The numbered names of a schema index a Python list, and the offset
    names index it below zero.  In an IO schema [PLL.PLLCONFIG_0] is stored at
    index -1 and binds the slot of [PLL.PLLCONFIG_9]; in the schema of the
    write side of a block RAM [RamCascade.CBIT_0] to [RamCascade.CBIT_3] are
    stored at the indices -4 to -1 and bind the slots of [RamCascade.CBIT_4]
    to [RamCascade.CBIT_7].  A number beyond the slots ([PLL.PLLCONFIG_10],
    [RamCascade.CBIT_8], [ColBufCtrl.glb_netwk_8]) raises [IndexError]. *)
Theorem schema_index_wraps (ref : string) (p : Coord) :
  DeviceConfig._get_config_bit_coordinates ref = ret p ->
  (forall s, io_shape s ->
     DeviceConfig.io_line s ["PLL.PLLCONFIG_" ++ PyStr.of_nat 0; ref]
     = DeviceConfig.io_line s ["PLL.PLLCONFIG_" ++ PyStr.of_nat 9; ref]
     /\ forall n, (10 <= n)%nat ->
          DeviceConfig.io_line s ["PLL.PLLCONFIG_" ++ PyStr.of_nat n; ref] = raise IndexError)
  /\ (forall s, ramt_shape s ->
        (forall k, (k < 4)%nat ->
           DeviceConfig.ramt_line s ["RamCascade.CBIT_" ++ PyStr.of_nat k; ref]
           = DeviceConfig.ramt_line s ["RamCascade.CBIT_" ++ PyStr.of_nat (k + 4); ref])
        /\ forall k, (8 <= k)%nat ->
             DeviceConfig.ramt_line s ["RamCascade.CBIT_" ++ PyStr.of_nat k; ref]
             = raise IndexError)
  /\ (forall s, logic_shape s ->
        forall n, (8 <= n)%nat ->
          DeviceConfig.logic_line s ["ColBufCtrl.glb_netwk_" ++ PyStr.of_nat n; ref]
          = raise IndexError).
Proof.
  intro C.
  assert (IO : forall s n,
             DeviceConfig.io_line s ["PLL.PLLCONFIG_" ++ PyStr.of_nat n; ref]
             = bind (DeviceConfig.store_1 (DeviceConfig.i_pll_config s) (Z.of_nat n - 1)
                       ["PLL.PLLCONFIG_" ++ PyStr.of_nat n; ref])
                 (fun pll' =>
                    ret (DeviceConfig.mk_io_slots
                           (DeviceConfig.i_col_buf_ctrl_set_bits s)
                           (DeviceConfig.i_iob_0_pintype s) (DeviceConfig.i_iob_1_pintype s)
                           (DeviceConfig.i_icegate s) (DeviceConfig.i_io_ctrl_ie_0 s)
                           (DeviceConfig.i_io_ctrl_ie_1 s) (DeviceConfig.i_io_ctrl_lvds s)
                           (DeviceConfig.i_io_ctrl_ren_0 s) (DeviceConfig.i_io_ctrl_ren_1 s)
                           (DeviceConfig.i_negclk s) pll'))).
  { intros s n. unfold DeviceConfig.io_line.
    change (PyList.get ["PLL.PLLCONFIG_" ++ PyStr.of_nat n; ref] 0)
      with (@inr exn string ("PLL.PLLCONFIG_" ++ PyStr.of_nat n)).
    unfold bind at 1. rewrite (match_prefix_of_nat "PLL.PLLCONFIG_" n).
    destruct s. reflexivity. }
  assert (RT : forall s k,
             DeviceConfig.ramt_line s ["RamCascade.CBIT_" ++ PyStr.of_nat k; ref]
             = bind (DeviceConfig.store_1 (DeviceConfig.t_ram_cascade_bits s)
                       (Z.of_nat k - DeviceConfig.ram_cascade_bit_offset)
                       ["RamCascade.CBIT_" ++ PyStr.of_nat k; ref])
                 (fun slots =>
                    ret (DeviceConfig.mk_ramt_slots (DeviceConfig.t_negclk s)
                           (DeviceConfig.t_ram_config_bits s) slots))).
  { intros s k. unfold DeviceConfig.ramt_line.
    change (PyList.get ["RamCascade.CBIT_" ++ PyStr.of_nat k; ref] 0)
      with (@inr exn string ("RamCascade.CBIT_" ++ PyStr.of_nat k)).
    unfold bind at 1. rewrite (match_prefix_of_nat "RamCascade.CBIT_" k). reflexivity. }
  assert (LG : forall s n,
             DeviceConfig.logic_line s ["ColBufCtrl.glb_netwk_" ++ PyStr.of_nat n; ref]
             = bind (DeviceConfig.store_1 (DeviceConfig.l_col_buf_ctrl_set_bits s) (Z.of_nat n)
                       ["ColBufCtrl.glb_netwk_" ++ PyStr.of_nat n; ref])
                 (fun slots =>
                    ret (DeviceConfig.mk_logic_slots (DeviceConfig.l_carry_in_set_bit s) slots
                           (DeviceConfig.l_lc_set_bits s) (DeviceConfig.l_neg_clk_set_bit s)))).
  { intros s n. unfold DeviceConfig.logic_line.
    change (PyList.get ["ColBufCtrl.glb_netwk_" ++ PyStr.of_nat n; ref] 0)
      with (@inr exn string ("ColBufCtrl.glb_netwk_" ++ PyStr.of_nat n)).
    unfold bind at 1. rewrite (match_prefix_of_nat "ColBufCtrl.glb_netwk_" n). reflexivity. }
  assert (ST : forall slots n name name',
             DeviceConfig.store_1 slots n [name; ref]
             = DeviceConfig.store_1 slots n [name'; ref]) by reflexivity.
  split; [|split].
  - intros s (_ & _ & _ & L). split.
    + rewrite !IO. rewrite store_1_wraps by (rewrite L; simpl; lia).
      rewrite L. simpl Z.add. simpl Z.sub.
      now rewrite (ST _ _ _ ("PLL.PLLCONFIG_" ++ PyStr.of_nat 9)).
    + intros n Hn. rewrite IO.
      rewrite (store_1_beyond _ _ ref p C); [reflexivity|rewrite L; lia].
  - intros s (_ & L). split.
    + intros k Hk. rewrite !RT. unfold DeviceConfig.ram_cascade_bit_offset.
      rewrite store_1_wraps by (rewrite L; simpl; lia).
      rewrite L. replace (Z.of_nat k - 4 + Z.of_nat 4) with (Z.of_nat (k + 4) - 4) by lia.
      now rewrite (ST _ _ _ ("RamCascade.CBIT_" ++ PyStr.of_nat (k + 4))).
    + intros k Hk. rewrite RT. unfold DeviceConfig.ram_cascade_bit_offset.
      rewrite (store_1_beyond _ _ ref p C); [reflexivity|rewrite L; lia].
  - intros s (L & _) n Hn. rewrite LG.
    rewrite (store_1_beyond _ _ ref p C); [reflexivity|rewrite L; lia].
Qed.

(** On the slots as the methods allocate them: [PLL.PLLCONFIG_0] fills the
    last of the nine slots, [RamCascade.CBIT_1] the second of the four. *)
Lemma schema_index_wraps_witness :
  option_map DeviceConfig.i_pll_config
    (match DeviceConfig.io_line DeviceConfig.io_slots_init ["PLL.PLLCONFIG_0"; "B3[5]"] with
     | inr s => Some s
     | inl _ => None
     end)
  = Some [None; None; None; None; None; None; None; None; Some (5, 3)]
  /\ DeviceConfig.io_line DeviceConfig.io_slots_init ["PLL.PLLCONFIG_0"; "B3[5]"]
     = DeviceConfig.io_line DeviceConfig.io_slots_init ["PLL.PLLCONFIG_9"; "B3[5]"]
  /\ DeviceConfig.ramt_line DeviceConfig.ramt_slots_init ["RamCascade.CBIT_1"; "B3[5]"]
     = DeviceConfig.ramt_line DeviceConfig.ramt_slots_init ["RamCascade.CBIT_5"; "B3[5]"]
  /\ DeviceConfig.logic_line DeviceConfig.logic_slots_init ["ColBufCtrl.glb_netwk_8"; "B3[5]"]
     = raise IndexError.
Proof.
  destruct (schema_index_wraps "B3[5]" (5, 3) eq_refl) as (I & R & L).
  split; [reflexivity|]. split; [|split].
  - exact (proj1 (I DeviceConfig.io_slots_init io_init_shape)).
  - exact (proj1 (R DeviceConfig.ramt_slots_init ramt_init_shape) 1%nat ltac:(lia)).
  - exact (L DeviceConfig.logic_slots_init logic_init_shape 8%nat ltac:(lia)).
Defined.

(** * Routing sections *)

Lemma bit_char_cases (c : ascii) :
  (Ascii.eqb c "0" || Ascii.eqb c "1")%bool = true -> c = "0"%char \/ c = "1"%char.
Proof.
  intro H. apply orb_true_iff in H. destruct H as [H|H]; apply Ascii.eqb_eq in H; auto.
Qed.

Lemma literal_bits (s : string) (acc : Z) (seen : bool) :
  all_bits s = true -> s <> EmptyString \/ seen = true ->
  PyStr.literal_body 2 s acc seen false = Some (bits_value s acc).
Proof.
  revert acc seen. induction s as [|c r IH]; intros acc seen D N.
  - destruct N as [N|N]; [congruence|]. subst. reflexivity.
  - simpl in D. apply andb_true_iff in D. destruct D as [Dc Dr].
    cbn [PyStr.literal_body bits_value].
    destruct (bit_char_cases c Dc) as [-> | ->]; simpl; apply IH; auto.
Qed.

Lemma int2_bits (s : string) :
  bit_string s -> PyStr.int2 s = ret (bits_value s 0).
Proof.
  intros [N D]. unfold PyStr.int2.
  rewrite (strip_bit_string s (conj N D)).
  destruct s as [|c1 r]; [congruence|].
  simpl in D. apply andb_true_iff in D. destruct D as [D1 Dr].
  assert (L : PyStr.literal_body 2 (String c1 r) 0 false false
              = Some (bits_value (String c1 r) 0)).
  { apply literal_bits; [simpl; now rewrite D1, Dr | left; discriminate]. }
  destruct (bit_char_cases c1 D1) as [-> | ->].
  - unfold PyStr.signed. destruct r as [|c2 r'].
    + rewrite L. reflexivity.
    + simpl in Dr. apply andb_true_iff in Dr. destruct Dr as [D2 _].
      destruct (bit_char_cases c2 D2) as [-> | ->]; rewrite L; reflexivity.
  - unfold PyStr.signed. rewrite L. reflexivity.
Qed.

Lemma bits_value_snoc (s : string) (c : ascii) (acc : Z) :
  bits_value (s ++ String c EmptyString) acc = bits_value s acc * 2 + PyStr.digit_value c.
Proof. revert acc. induction s as [|a s IH]; intro acc; simpl; [reflexivity|apply IH]. Qed.

Lemma list_ascii_snoc (s : string) (c : ascii) :
  list_ascii_of_string (s ++ String c EmptyString) = (list_ascii_of_string s ++ [c])%list.
Proof. induction s as [|a s IH]; simpl; [reflexivity|now rewrite IH]. Qed.

Lemma all_bits_app (s1 s2 : string) : all_bits (s1 ++ s2) = all_bits s1 && all_bits s2.
Proof. induction s1; simpl; [reflexivity|]. rewrite IHs1. apply andb_assoc. Qed.

Lemma string_length_app (a b : string) :
  String.length (a ++ b) = (String.length a + String.length b)%nat.
Proof. induction a; simpl; [reflexivity|now rewrite IHa]. Qed.

Lemma list_ascii_length (s : string) :
  List.length (list_ascii_of_string s) = String.length s.
Proof. induction s; simpl; auto. Qed.

Lemma combine_snoc {A B} (l : list A) (l' : list B) (a : A) (b : B) :
  List.length l = List.length l' ->
  combine (l ++ [a]) (l' ++ [b]) = (combine l l' ++ [(a, b)])%list.
Proof.
  revert l'. induction l as [|x l IH]; intros [|y l'] L; simpl in *; try discriminate.
  - reflexivity.
  - f_equal. apply IH. lia.
Qed.

Lemma string_rev_ind (P : string -> Prop) :
  P EmptyString -> (forall s c, P s -> P (s ++ String c EmptyString)%string) ->
  forall s, P s.
Proof.
  intros H0 HS s.
  assert (E : forall n s, String.length s = n -> P s).
  { induction n as [|n IH]; intros s0 L.
    - destruct s0; [exact H0|discriminate].
    - destruct (last_char s0) as (r & c & ->); [destruct s0; discriminate|].
      apply HS. apply IH. rewrite string_length_app in L. simpl in L. lia. }
  now apply (E (String.length s)).
Qed.

Lemma double_plus_bit (v d : Z) :
  d = 0 \/ d = 1 ->
  truthy (Z.land (v * 2 + d) 1) = (d =? 1) /\ Z.shiftr (v * 2 + d) 1 = v.
Proof.
  intro H. split.
  - change 1 with (Z.ones 1) at 1. rewrite Z.land_ones by lia. change (2 ^ 1) with 2.
    rewrite Z.add_comm, Z.mod_add by lia. destruct H as [-> | ->]; reflexivity.
  - rewrite Z.shiftr_div_pow2 by lia. change (2 ^ 1) with 2.
    symmetry. apply Z.div_unique with d; lia.
Qed.

(** The loop of [_config_bitstream_routing_resources] over the reversed
    coordinates of a header, on the value of a pattern literal: the digit at
    position [j] of the literal is written at the [j]-th coordinate of the
    header. *)
Lemma pattern_writes (s : string) :
  forall cs : list Coord,
  all_bits s = true ->
  List.length cs = String.length s ->
  writes_of_bits (rev cs) (bits_value s 0)
  = rev (combine cs (map is_one (list_ascii_of_string s))).
Proof.
  induction s as [|s c IH] using string_rev_ind; intros cs D L.
  - destruct cs; [reflexivity|discriminate].
  - rewrite string_length_app in L. simpl in L.
    destruct (exists_last (l := cs)) as (cs' & c0 & ->);
      [destruct cs; simpl in L; [lia|discriminate]|].
    rewrite length_app in L. simpl in L.
    rewrite all_bits_app in D. apply andb_true_iff in D. destruct D as [Ds Dc].
    simpl in Dc. rewrite andb_true_r in Dc.
    rewrite rev_app_distr. cbn [rev app writes_of_bits].
    rewrite bits_value_snoc, list_ascii_snoc, map_app. cbn [map].
    rewrite combine_snoc by (rewrite length_map, list_ascii_length; lia).
    rewrite rev_app_distr. cbn [rev app].
    assert (Hd : PyStr.digit_value c = 0 \/ PyStr.digit_value c = 1)
      by (destruct (bit_char_cases c Dc) as [-> | ->]; [left|right]; reflexivity).
    destruct (double_plus_bit (bits_value s 0) _ Hd) as [V1 V2]. rewrite V1, V2.
    assert (O : (PyStr.digit_value c =? 1) = is_one c)
      by (destruct (bit_char_cases c Dc) as [-> | ->]; reflexivity).
    rewrite O. f_equal. apply IH; [exact Ds|lia].
Qed.

Lemma dict_get_set_same (d : PyDict.t NetRef Z) (k : NetRef) (v : Z) :
  PyDict.get NetRef_eqb (PyDict.set NetRef_eqb d k v) k = Some v.
Proof.
  induction d as [|[k' v'] d IH]; simpl.
  - now rewrite NetRef_eqb_refl.
  - destruct (NetRef_eqb k' k) eqn:E; simpl; rewrite E; [reflexivity|exact IH].
Qed.

Lemma dict_get_set_other (d : PyDict.t NetRef Z) (k k' : NetRef) (v : Z) :
  k' <> k ->
  PyDict.get NetRef_eqb (PyDict.set NetRef_eqb d k v) k' = PyDict.get NetRef_eqb d k'.
Proof.
  intro N. induction d as [|[k0 v0] d IH]; simpl.
  - destruct (NetRef_eqb k k') eqn:E; [|reflexivity].
    apply NetRef_eqb_eq in E. congruence.
  - destruct (NetRef_eqb k0 k) eqn:E; simpl.
    + destruct (NetRef_eqb k0 k') eqn:E'; [|reflexivity].
      apply NetRef_eqb_eq in E, E'. congruence.
    + destruct (NetRef_eqb k0 k'); [reflexivity|exact IH].
Qed.

Lemma candidate_line_of (d : DeviceConfig.t) (dict : PyDict.t NetRef Z) (l : line) :
  DeviceConfig.candidate_line d dict l
  = bind (candidate_of d l) (fun c => ret (PyDict.set NetRef_eqb dict (fst c) (snd c))).
Proof.
  unfold DeviceConfig.candidate_line, candidate_of, bind.
  destruct (PyList.get l 0); [reflexivity|]. destruct (PyStr.int2 _); [reflexivity|].
  destruct (DeviceConfig.int_at l 1); [reflexivity|].
  destruct (DeviceConfig.net_ref d _); reflexivity.
Qed.

Lemma candidate_lines_other (d : DeviceConfig.t) (ls : list line) (k : NetRef) :
  forall dict dict',
  DeviceConfig.for_lines (DeviceConfig.candidate_line d) dict ls = ret dict' ->
  (forall l p, In l ls -> candidate_of d l <> ret (k, p)) ->
  PyDict.get NetRef_eqb dict' k = PyDict.get NetRef_eqb dict k.
Proof.
  induction ls as [|l ls IH]; intros dict dict' H N.
  - inversion H. reflexivity.
  - simpl in H. unfold bind in H. rewrite candidate_line_of in H. unfold bind in H.
    destruct (candidate_of d l) as [e|[src p]] eqn:C; [discriminate|].
    simpl in H. rewrite (IH _ _ H) by (intros; apply N; now right).
    apply dict_get_set_other. intro E. subst k. apply (N l p); [now left|exact C].
Qed.

Lemma parse_routing_inversion d section x y r :
  DeviceConfig.parse_routing_resource d section = ret (x, y, r) ->
  exists cs dict dst,
    DeviceConfig.coordinates_of (PyList.from (FileSection.get_header section) 3) = ret cs
    /\ DeviceConfig.for_lines (DeviceConfig.candidate_line d) []
         (FileSection.get_lines section) = ret dict
    /\ r = RoutingResource.init dst (rev cs) dict.
Proof.
  unfold DeviceConfig.parse_routing_resource, bind.
  destruct (_ <? 4)%nat; [discriminate|].
  destruct (DeviceConfig.int_at _ 0); [discriminate|].
  destruct (DeviceConfig.int_at _ 1); [discriminate|].
  destruct (DeviceConfig.int_at _ 2); [discriminate|].
  destruct (DeviceConfig.coordinates_of _) as [e|cs]; [discriminate|].
  destruct (DeviceConfig.for_lines _ _ _) as [e|dict]; [discriminate|].
  destruct (DeviceConfig.net_ref d _) as [e|dst]; [discriminate|].
  intro H. inversion H. subst. exists cs, dict, dst. auto.
Qed.

(** What a routing or buffer section means.  The resource built from it is
    disconnected; its control bits are the bit addresses of the header in
    reverse; its table holds each source once, with the pattern of the last
    line that names it.  Connected to a source, it encodes the pattern
    literal of that line digit by digit at the bit addresses of the header,
    in the order they are written: the first digit at the first address. *)
Theorem routing_section_meaning (d : DeviceConfig.t) (section : FileSection.t)
    (x y : Z) (r : RoutingResource.t) :
  DeviceConfig.parse_routing_resource d section = ret (x, y, r) ->
  exists cs,
    DeviceConfig.coordinates_of (PyList.from (FileSection.get_header section) 3) = ret cs
    /\ RoutingResource._config_bit_coordinates r = rev cs
    /\ RoutingResource._connection r = None
    /\ NoDup (candidates r)
    /\ forall ls1 l ls2 n p,
         FileSection.get_lines section = (ls1 ++ l :: ls2)%list ->
         candidate_of d l = ret (Some n, p) ->
         (forall l' p', In l' ls2 -> candidate_of d l' <> ret (Some n, p')) ->
         RoutingResource.connect (Some n) r
         = (ret tt, RoutingResource.set_connection (Some n) r)
         /\ RoutingResource.get_config_bits (RoutingResource.set_connection (Some n) r) = ret p
         /\ forall lit,
              PyList.get l 0 = ret lit -> bit_string lit ->
              String.length lit = List.length cs ->
              setting_writes (resource_setting (RoutingResource.set_connection (Some n) r))
              = rev (combine cs (map is_one (list_ascii_of_string lit))).
Proof.
  intro H. pose proof (parsed_resource_NoDup _ _ _ _ _ H) as ND.
  destruct (parse_routing_inversion _ _ _ _ _ H) as (cs & dict & dst & C & F & ->).
  exists cs. split; [exact C|]. split; [reflexivity|]. split; [reflexivity|].
  split; [exact ND|].
  intros ls1 l ls2 n p E Hl Hlast.
  assert (G : PyDict.get NetRef_eqb dict (Some n) = Some p).
  { rewrite E, for_lines_app in F. unfold bind in F.
    destruct (DeviceConfig.for_lines (DeviceConfig.candidate_line d) [] ls1) as [e|dict1];
      [discriminate|].
    simpl in F. unfold bind in F. rewrite candidate_line_of in F. unfold bind in F.
    rewrite Hl in F. simpl in F.
    rewrite (candidate_lines_other d ls2 (Some n) _ _ F Hlast).
    apply dict_get_set_same. }
  assert (P : RoutingResource.get_config_bits
                (RoutingResource.set_connection (Some n)
                   (RoutingResource.init dst (rev cs) dict)) = ret p).
  { unfold RoutingResource.get_config_bits, PyDict.lookup. simpl. now rewrite G. }
  split; [|split; [exact P|]].
  - apply connect_candidate. apply candidates_contains. simpl.
    unfold PyDict.contains. now rewrite G.
  - intros lit L B Len. unfold resource_setting, pattern. rewrite P. simpl.
    unfold candidate_of, bind in Hl. rewrite L in Hl. cbv beta iota delta [ret] in Hl.
    rewrite (int2_bits lit B) in Hl. cbv beta iota delta [ret] in Hl. destruct (DeviceConfig.int_at l 1); [discriminate|].
    destruct (DeviceConfig.net_ref d _); [discriminate|]. inversion Hl. subst.
    apply pattern_writes; [apply B|now symmetry].
Qed.

(** The routing section of the fixture, [.routing 0 0 2 B0[3] B0[2]] with
    the lines [01 0] and [10 1]: connected to net 1 (the object 3) the switch
    writes 0 at B0[2] and 1 at B0[3]. *)
Lemma routing_section_meaning_witness :
  DeviceConfig.parse_routing_resource (Fixture.built Fixture.building)
    (Fixture.section ".routing 0 0 2 B0[3] B0[2]" true ["01 0"; "10 1"])
  = ret (0, 0, Fixture.switch)
  /\ setting_writes (resource_setting
                       (RoutingResource.set_connection (Some 3%nat) Fixture.switch))
     = [((2, 0), false); ((3, 0), true)].
Proof.
  assert (E : DeviceConfig.parse_routing_resource (Fixture.built Fixture.building)
                (Fixture.section ".routing 0 0 2 B0[3] B0[2]" true ["01 0"; "10 1"])
              = ret (0, 0, Fixture.switch)) by (vm_compute; reflexivity).
  split; [exact E|].
  destruct (routing_section_meaning _ _ _ _ _ E) as (cs & C & _ & _ & _ & M).
  assert (Hcs : cs = [(3, 0); (2, 0)]) by (vm_compute in C; congruence).
  destruct (M [["01"; "0"]] ["10"; "1"] [] 3%nat 2) as (_ & _ & W).
  - reflexivity.
  - vm_compute. reflexivity.
  - intros l' p' [].
  - rewrite (W "10"); [rewrite Hcs; reflexivity|reflexivity|split; [discriminate|reflexivity]|].
    rewrite Hcs. reflexivity.
Defined.


(** * The device, encoded and decoded *)

(** ** Tiles of any kind *)






Lemma disconnected_idem (b : Tile.t) : disconnected (disconnected b) = disconnected b.
Proof.
  unfold disconnected, Tile.with_resources. simpl. f_equal; rewrite map_map; apply map_ext;
    intro r; reflexivity.
Qed.


Lemma decoded_type (tl : tile) : tile_get_type (decoded tl) = tile_get_type tl.
Proof. now destruct tl. Qed.

(** ** Lines and text *)















(** ** The text of a tile and of a device *)







(** ** The lines are clean *)










(** ** The sections the reader returns *)









(** ** Cells of the grid, by position *)












(** ** The tiles of the grid, in the order of the text *)




(** ** Decoding the sections *)















